(** * cop-migration-profiler: the acquisition pipeline and the report builder

    A shallow embedding of the scripts of the repository

    - [src/scripts/getApplicationList.mjs], [src/scripts/getProjectProperties.mjs],
      [src/scripts/getProjectUserInformation.mjs] (the stand-alone fetchers),
    - [main.mjs] (the all-in-one entry point with [fetchApplicationsWithAuth],
      [fetchProjectsWithAuth], [fetchRoleAssignments], [fetchBranchesWithAuth]
      and [main]),
    - [src/createReport.mjs] ([combineDataAndGenerateCsv]),

    and the properties of the specification that are about them.

    Conventions of the embedding.

    - The network, the console and the file system are the environment.  A
      script is a function of the environment's answers and of a [World] that
      records what the script did to it (the requests it sent, the questions
      it asked, the artifacts present).
    - [await axios.request(c)] either resolves with a response or rejects;
      both cases are modelled, and so are the [throw]s of the scripts, through
      the [outcome] of a computation.
    - A [while] loop whose exit depends on the server carries fuel; running
      out of fuel is [None] and stands for a loop that is still running.
    - A plain JavaScript object used as a map keeps its own properties in the
      order of [OrdinaryOwnPropertyKeys] and inherits from [Object.prototype];
      both are modelled in [JsObject]. *)

From Stdlib Require Import List String Ascii Bool Arith NArith ZArith Lia.
From Stdlib Require Import Sorted Permutation.
Import ListNotations.
Local Open Scope string_scope.
Local Open Scope list_scope.

Set Implicit Arguments.

(* ====================================================================== *)
(** ** JavaScript strings *)
(* ====================================================================== *)

Module JsString.

(** Texts that the scripts only compare, cut at ASCII separators or copy
    (identifiers, names, cookies, URLs) are [string]s.  *)

(** [!!s] for a string: the empty string is the only falsy one. *)
Definition truthy (s : string) : bool :=
  match s with EmptyString => false | String _ _ => true end.

(** [s.startsWith(p)]. *)
Fixpoint startsWith (s p : string) : bool :=
  match p with
  | EmptyString => true
  | String b p' =>
      match s with
      | EmptyString => false
      | String a s' => Ascii.eqb a b && startsWith s' p'
      end
  end.

(** [s.split(sep)] for a one-character separator: the pieces between the
    occurrences of [sep], never an empty array. *)
Fixpoint split (sep : ascii) (s : string) : list string :=
  match s with
  | EmptyString => [EmptyString]
  | String a s' =>
      if Ascii.eqb a sep then EmptyString :: split sep s'
      else match split sep s' with
           | [] => [String a EmptyString]
           | piece :: pieces => String a piece :: pieces
           end
  end.

(** [a[i]] on an array: [undefined] past the end. *)
Definition at_index {A} (a : list A) (i : nat) : option A := nth_error a i.

(** [s.toLowerCase()] on the letters A-Z.  No character outside ASCII
    lower-cases to one of the letters of ["yes"], so the test the scripts
    make on the lower-cased answer is decided by this part of the mapping. *)
Definition lower_ascii (a : ascii) : ascii :=
  let n := nat_of_ascii a in
  if (65 <=? n)%nat && (n <=? 90)%nat then ascii_of_nat (n + 32) else a.

Fixpoint toLowerCase (s : string) : string :=
  match s with
  | EmptyString => EmptyString
  | String a s' => String (lower_ascii a) (toLowerCase s')
  end.

(** [a.includes(x)] on an array of strings. *)
Definition includes (a : list string) (x : string) : bool :=
  existsb (String.eqb x) a.

(** Credentials are inspected by [trim], which works on the UTF-16 code
    units of a string and knows white space outside ASCII: such values
    are kept as their code units. *)
Definition ustring := list N.

(** WhiteSpace and LineTerminator of ECMAScript, the code units that
    [String.prototype.trim] removes. *)
Definition white_space : list N :=
  [9; 10; 11; 12; 13; 32; 160; 5760;
   8192; 8193; 8194; 8195; 8196; 8197; 8198; 8199; 8200; 8201; 8202;
   8232; 8233; 8239; 8287; 12288; 65279]%N.

Definition is_white_space (c : N) : bool := existsb (N.eqb c) white_space.

Fixpoint trimStart (s : ustring) : ustring :=
  match s with
  | [] => []
  | c :: s' => if is_white_space c then trimStart s' else s
  end.

Definition trimEnd (s : ustring) : ustring := rev (trimStart (rev s)).

Definition trim (s : ustring) : ustring := trimEnd (trimStart s).

Definition utruthy (s : ustring) : bool :=
  match s with [] => false | _ :: _ => true end.

(** The code units of an ASCII literal. *)
Definition units (s : string) : ustring :=
  map (fun a => N_of_ascii a) (list_ascii_of_string s).

End JsString.

(* ====================================================================== *)
(** ** Outcomes of a computation, and the monad of a script *)
(* ====================================================================== *)

(** What a [throw] or a rejected promise carries, as far as the scripts look:
    [error.response] (present for a rejection by the server) and a message. *)
Inductive exn : Type :=
| Error (message : string)                 (* [new Error(message)] *)
| TypeError                                (* a property read on [undefined] *)
| AxiosError (response_status : option Z). (* [axios.request] rejected *)

Inductive outcome (A : Type) : Type :=
| Ok (a : A)
| Throw (e : exn).
Arguments Ok {A} a.
Arguments Throw {A} e.

Module Net.

(** The requests the scripts send.  A URL is kept by its parts: the text
    before the query and the numbers put into it. *)
Inductive Request : Type :=
| PostForm (url : string) (form : list (string * JsString.ustring))
    (* [axios.request({method: 'post', url, data: URLSearchParams})] *)
| GetPage (base : string) (page_limit page_offset : N) (bearer : string)
    (* [`${base}?page[limit]=${limit}&page[offset]=${offset}`] *)
| GetTemplate (template : string) (offset : N) (bearer : string)
    (* [branchesUrlTemplate.replace('{offset}', offset)] *)
| GetRoleAssignments (customer : string) (project_id : string) (bearer : string).
    (* the role-assignments URL filtered by [urn:x-swip:projects:${project.id}] *)

(** One item of a JSON:API document, with the fields the scripts read. *)
Record Resource : Type := {
  r_type : string;                     (* [item.type] *)
  r_id : string;                       (* [item.id] *)
  r_name : string;                     (* [item.attributes.name] *)
  r_description : string;              (* [item.attributes.description] *)
  r_kind : option string;              (* [item.attributes.type] *)
  r_email : string;                    (* [item.attributes.email] *)
  r_groupname : string;                (* [item.attributes.groupname] *)
  r_properties : list (string * string); (* [item.attributes.properties] *)
  r_projects : list string;            (* ids of [item.relationships.projects.data] *)
  r_project : string;                  (* [item.relationships.project.data.id] *)
  r_branches_link : string             (* [item.relationships.branches.links.related] *)
}.

Record Response : Type := {
  status : Z;                              (* [response.status] *)
  set_cookie : option (list string);       (* [response.headers['set-cookie']] *)
  jwt : option string;                     (* [response.data.jwt], when a string *)
  data : option (list Resource);           (* [response.data.data], when an array *)
  included : option (list Resource)        (* [response.data.included] *)
}.

(** What the promise of [axios.request] settles to: resolved with the
    response, or rejected, with the status of the response when there was
    one.  Which HTTP exchange gives which is the business of axios, see
    [Axios.settle] below: every answer with a status outside 200 to 299 is a
    rejection. *)
Inductive Reply : Type :=
| Resolved (r : Response)
| Rejected (response_status : option Z).

(** The server and the HTTP client, as the script meets them: the reply to
    the [n]-th request of the run (counted from 0). *)
Definition Server := nat -> Request -> Reply.

End Net.

(** The part of the environment a script changes. *)
Record World : Type := {
  requests : list Net.Request;   (* the requests sent so far, oldest first *)
  asked : list string;           (* the questions put on the console *)
  files : list string;           (* the paths that exist *)
  rl_open : bool                 (* the readline interface is not closed *)
}.

(** The world after one more request. *)
Definition sent (q : Net.Request) (w : World) : World :=
  {| requests := requests w ++ [q]; asked := asked w;
     files := files w; rl_open := rl_open w |}.

Definition fresh_world (fs : list string) : World :=
  {| requests := []; asked := []; files := fs; rl_open := true |}.

(** A script step: from a world to a new world and an outcome, or [None]
    when a loop inside it ran out of fuel. *)
Definition M (A : Type) : Type := World -> option (World * outcome A).

Definition ret {A} (a : A) : M A := fun w => Some (w, Ok a).
Definition throw {A} (e : exn) : M A := fun w => Some (w, Throw e).
Definition bind {A B} (m : M A) (k : A -> M B) : M B :=
  fun w =>
    match m w with
    | None => None
    | Some (w', Ok a) => k a w'
    | Some (w', Throw e) => Some (w', Throw e)
    end.

(** [try { m } catch (error) { h error }]. *)
Definition try_catch {A} (m : M A) (h : exn -> M A) : M A :=
  fun w =>
    match m w with
    | None => None
    | Some (w', Ok a) => Some (w', Ok a)
    | Some (w', Throw e) => h e w'
    end.

(** [try { m } finally { f }], for an [f] that cannot throw. *)
Definition try_finally {A} (m : M A) (f : World -> World) : M A :=
  fun w =>
    match m w with
    | None => None
    | Some (w', r) => Some (f w', r)
    end.

Declare Scope script_scope.
Delimit Scope script_scope with script.
Notation "x <- m ;; k" := (bind m (fun x => k))
  (at level 61, m at next level, right associativity) : script_scope.
Notation "m ;;; k" := (bind m (fun _ => k))
  (at level 61, right associativity) : script_scope.
Local Open Scope script_scope.

Section Environment.

Variable server : Net.Server.
(** The [n]-th line typed on the console. *)
Variable answers : nat -> string.

(** [await axios.request(config)]: the request is sent, and the promise
    resolves or rejects. *)
Definition axios_request (q : Net.Request) : M Net.Response :=
  fun w =>
    match server (List.length (requests w)) q with
    | Net.Resolved r => Some (sent q w, Ok r)
    | Net.Rejected s => Some (sent q w, Throw (AxiosError s))
    end.

(** [await askQuestion(query)]. *)
Definition askQuestion (query : string) : M string :=
  fun w =>
    Some ({| requests := requests w; asked := asked w ++ [query];
             files := files w; rl_open := rl_open w |},
          Ok (answers (List.length (asked w)))).

(** [await fs.access(path)], as a test: the scripts turn [ENOENT] into
    "absent"; other failures of the file system are not modelled. *)
Definition file_exists (path : string) : M bool :=
  fun w => Some (w, Ok (existsb (String.eqb path) (files w))).

(** [await fs.unlink(path)]. *)
Definition unlink (path : string) : M unit :=
  fun w =>
    Some ({| requests := requests w; asked := asked w;
             files := filter (fun p => negb (String.eqb path p)) (files w);
             rl_open := rl_open w |}, Ok tt).

(** [await fs.writeFile(path, ...)] and the CSV writers: the artifact
    exists afterwards.  The write is taken to succeed; in particular the
    directory of [path] is taken to exist, as it does after
    [ensureOutputDirectoryExists]. *)
Definition writeFile (path : string) : M unit :=
  fun w =>
    Some ({| requests := requests w; asked := asked w;
             files := if existsb (String.eqb path) (files w) then files w
                      else files w ++ [path];
             rl_open := rl_open w |}, Ok tt).

(** [rl.close()]. *)
Definition rl_close (w : World) : World :=
  {| requests := requests w; asked := asked w; files := files w;
     rl_open := false |}.

End Environment.

(* ====================================================================== *)
(** ** Configuration and the records the fetchers store *)
(* ====================================================================== *)

(** [config.json] after [JSON.parse], with the properties the scripts read.
    A template that is missing is [None]. *)
Record Config : Type := {
  customer : string;
  email : JsString.ustring;
  password : option JsString.ustring;
  accesstoken : option JsString.ustring;
  authUrlTemplate : option string;
  authUrlV2Template : option string;
  applicationsUrlTemplate : option string;
  projectsUrlTemplate : option string;
  branchesUrlTemplate : option string;
  setPropertyUrlTemplate : option string
}.

(** An entry of [applicationsList.json]. *)
Record Application : Type := {
  app_id : string;
  app_name : string;
  app_description : string;
  app_projects : list string
}.

(** An entry of [projectList.json].  The three writers of that file store
    different subsets of the properties. *)
Record Project : Type := {
  proj_id : string;
  proj_name : string;
  proj_type : option string;
  proj_properties : option (list (string * string));
  proj_branches : option string
}.

(** An entry of [userDetailsList.json]: [projectName], [projectId],
    [userType], [name] and [email]. *)
Record Detail : Type := {
  d_projectName : string;
  d_projectId : string;
  d_userType : string;
  d_name : string;
  d_email : string
}.

Section Scripts.

Variable server : Net.Server.
Variable answers : nat -> string.
(** [s.replace(pattern, replacement)] with a string pattern, a builtin the
    scripts use to fill the URL templates; the properties below do not
    depend on what it returns. *)
Variable replace : string -> string -> string -> string.

(** [template.replace('{customer}', config.customer)]; reading [replace]
    on a missing template is a TypeError. *)
Definition fill (template : option string) (cfg : Config) : M string :=
  match template with
  | Some t => ret (replace t "{customer}" (customer cfg))
  | None => throw TypeError
  end.

(** [url.split('?')[0]]. *)
Definition before_query (url : string) : string :=
  match JsString.at_index (JsString.split "?"%char url) 0 with
  | Some base => base
  | None => url
  end.

(* -------------------------------------------------------------------- *)
(** *** The session authenticator

    The same text appears in every fetcher (getApplicationList.mjs lines
    95-157, getProjectProperties.mjs 92-154, getProjectUserInformation.mjs
    61-115 and 169-223, main.mjs four times). *)

(** [config.password && config.password.trim() !== ""]. *)
Definition usable (credential : option JsString.ustring) : bool :=
  match credential with
  | Some c =>
      JsString.utruthy c
      && negb (match JsString.trim c with [] => true | _ :: _ => false end)
  | None => false
  end.

Definition credential_value (credential : option JsString.ustring) : JsString.ustring :=
  match credential with Some c => c | None => [] end.

(** The [if / else if / else] that sets [authConfig]. *)
Definition authConfig (cfg : Config) (authUrl authUrlV2 : string) : M Net.Request :=
  if usable (password cfg) then
    ret (Net.PostForm authUrl
           [("email", email cfg); ("password", credential_value (password cfg))])
  else if usable (accesstoken cfg) then
    ret (Net.PostForm authUrlV2
           [("email", email cfg); ("accesstoken", credential_value (accesstoken cfg))])
  else
    throw (Error "Neither password nor access token is provided in the config.").

(** The header path: the first cookie that starts with [access_token=],
    cut at the first [;], and of that the piece after the first [=]. *)
Definition cookie_token (r : Net.Response) : option string :=
  match Net.set_cookie r with
  | Some setCookieHeader =>
      match find (fun cookie => JsString.startsWith cookie "access_token=")
                 setCookieHeader with
      | Some tokenCookie =>
          match JsString.at_index (JsString.split ";"%char tokenCookie) 0 with
          | Some first => JsString.at_index (JsString.split "="%char first) 1
          | None => None
          end
      | None => None
      end
  | None => None
  end.

(** [!!token] for [token] a string or [undefined]. *)
Definition present (token : option string) : bool :=
  match token with Some t => JsString.truthy t | None => false end.

(** From [let token;] to [throw new Error('No access token ...')]. *)
Definition extract_token (authResponse : Net.Response) : M string :=
  let token := cookie_token authResponse in
  let token :=
    if negb (present token) && present (Net.jwt authResponse)
    then Net.jwt authResponse else token in
  match token with
  | Some t =>
      if JsString.truthy t then ret t
      else throw (Error "No access token found in the response.")
  | None => throw (Error "No access token found in the response.")
  end.

Definition authenticate (cfg : Config) (authUrl authUrlV2 : string) : M string :=
  request <- authConfig cfg authUrl authUrlV2 ;;
  authResponse <- axios_request server request ;;
  extract_token authResponse.

(* -------------------------------------------------------------------- *)
(** *** The paginated fetch of applications and projects

    [let offset = 0; const limit = ...; let all = []; let more = true;
     while (more) { ... }] *)

Record PageState (A : Type) : Type := {
  offset : N;
  all : list A;
  more : bool
}.

Definition page_start (A : Type) : PageState A :=
  {| offset := 0; all := []; more := true |}.

(** One turn of the loop body. *)
Definition page_turn {A} (base bearer : string) (limit : N)
    (format : Net.Resource -> A) (st : PageState A) : M (PageState A) :=
  response <- axios_request server (Net.GetPage base limit (offset st) bearer) ;;
  if (Net.status response =? 200)%Z then
    match Net.data response with
    | Some items =>
        ret {| offset := offset st + limit;
               all := all st ++ map format items;
               more := N.eqb (N.of_nat (List.length items)) limit |}
    | None => throw TypeError
    end
  else
    ret {| offset := offset st; all := all st; more := false |}.

Fixpoint page_loop {A} (fuel : nat) (base bearer : string) (limit : N)
    (format : Net.Resource -> A) (st : PageState A) : M (list A) :=
  if more st then
    match fuel with
    | O => fun _ => None
    | S fuel' =>
        st' <- page_turn base bearer limit format st ;;
        page_loop fuel' base bearer limit format st'
    end
  else ret (all st).

Definition paginate {A} (fuel : nat) (base bearer : string) (limit : N)
    (format : Net.Resource -> A) : M (list A) :=
  page_loop fuel base bearer limit format (page_start A).

(* -------------------------------------------------------------------- *)
(** *** The paginated fetch of branches (main.mjs, fetchBranchesWithAuth)

    The offset goes into the URL template, the page size 500 is written
    in the loop, and the request sits in a [try / catch] of its own. *)

Definition branch_turn (template bearer : string) (st : PageState Net.Resource)
    : M (PageState Net.Resource) :=
  try_catch
    (response <- axios_request server (Net.GetTemplate template (offset st) bearer) ;;
     if (Net.status response =? 200)%Z then
       match Net.data response with
       | Some branchesData =>
           ret {| offset := offset st + 500;
                  all := all st ++ branchesData;
                  more := N.eqb (N.of_nat (List.length branchesData)) 500 |}
       | None => throw TypeError
       end
     else
       ret {| offset := offset st; all := all st; more := false |})
    (fun _ => ret {| offset := offset st; all := all st; more := false |}).

Fixpoint branch_loop (fuel : nat) (template bearer : string)
    (st : PageState Net.Resource) : M (list Net.Resource) :=
  if more st then
    match fuel with
    | O => fun _ => None
    | S fuel' =>
        st' <- branch_turn template bearer st ;;
        branch_loop fuel' template bearer st'
    end
  else ret (all st).

(* -------------------------------------------------------------------- *)
(** *** The role assignments of the projects

    [for (const project of allProjects) { ... }] of
    getProjectUserInformation.mjs (225-263) and of fetchRoleAssignments in
    main.mjs. *)

Definition user_detail (project : Project) (user : Net.Resource) : Detail :=
  {| d_projectName := proj_name project; d_projectId := proj_id project;
     d_userType := "User"; d_name := Net.r_name user;
     d_email := Net.r_email user |}.

Definition group_detail (project : Project) (group : Net.Resource) : Detail :=
  {| d_projectName := proj_name project; d_projectId := proj_id project;
     d_userType := "GroupName"; d_name := Net.r_groupname group;
     d_email := "" |}.

Definition of_type (t : string) (item : Net.Resource) : bool :=
  String.eqb (Net.r_type item) t.

(** What one resolved response adds to [allDetails]. *)
Definition role_details (project : Project) (incl : list Net.Resource) : list Detail :=
  map (user_detail project) (filter (of_type "users") incl)
  ++ map (group_detail project) (filter (of_type "groups") incl).

Fixpoint role_loop (cust bearer : string) (allProjects : list Project)
    (allDetails : list Detail) : M (list Detail) :=
  match allProjects with
  | [] => ret allDetails
  | project :: rest =>
      response <- axios_request server
                    (Net.GetRoleAssignments cust (proj_id project) bearer) ;;
      if (Net.status response =? 200)%Z then
        match Net.included response with
        | Some incl =>
            role_loop cust bearer rest (allDetails ++ role_details project incl)
        | None => throw TypeError
        end
      else
        role_loop cust bearer rest allDetails
  end.

End Scripts.

(* ====================================================================== *)
(** ** The fetch stages *)
(* ====================================================================== *)

(** [rl.close()] as a step. *)
Definition close_rl : M unit := fun w => Some (rl_close w, Ok tt).

(** [ensureOutputDirectoryExists()]. *)
Definition ensureOutputDirectoryExists (outputDirectory : string) : M unit :=
  (there <- file_exists outputDirectory ;;
   if there then ret tt else writeFile outputDirectory)%script.

(** [!['yes', 'y'].includes(answer.toLowerCase())]. *)
Definition declines (answer : string) : bool :=
  negb (JsString.includes ["yes"; "y"] (JsString.toLowerCase answer)).

(** The guard in front of an artifact that may exist: ask, and either delete
    the file or close the console and leave.  The result says whether the
    stage goes on. *)
Definition overwrite_guard (answers : nat -> string) (path question : string) : M bool :=
  (fileExists <- file_exists path ;;
   if fileExists then
     answer <- askQuestion answers question ;;
     if declines answer then close_rl ;;; ret false
     else unlink path ;;; ret true
   else ret true)%script.

(** [await fs.readFile(configPath, 'utf8')] and [JSON.parse]: the parsed
    file, or the error of a missing or malformed file. *)
Definition read_config (config : option Config) : M Config :=
  match config with
  | Some cfg => ret cfg
  | None => throw (Error "config.json")
  end.

Definition some_truthy (s : option string) : bool :=
  match s with Some t => JsString.truthy t | None => false end.

Module GetApplicationList.

Definition outputDirectory := "../output".
Definition applicationsListPath := "../output/applicationsList.json".
Definition csvPath := "../output/applicationsList.csv".

(** [const limit = 25;] (line 161). *)
Definition limit : N := 25.

Definition formatApplication (application : Net.Resource) : Application :=
  {| app_id := Net.r_id application;
     app_name := Net.r_name application;
     app_description := Net.r_description application;
     app_projects := Net.r_projects application |}.

Section Run.
Variable server : Net.Server.
Variable answers : nat -> string.
Variable replace : string -> string -> string -> string.

(** Lines 81-236, after the two guards. *)
Definition fetch_and_store (fuel : nat) (config : option Config) : M (list Application) :=
  cfg <- read_config config ;;
  if negb (some_truthy (authUrlTemplate cfg))
     || negb (some_truthy (authUrlV2Template cfg))
     || negb (some_truthy (applicationsUrlTemplate cfg))
     || negb (JsString.truthy (customer cfg))
  then throw (Error "Missing required configuration properties.")
  else
    authUrl <- fill replace (authUrlTemplate cfg) cfg ;;
    authUrlV2 <- fill replace (authUrlV2Template cfg) cfg ;;
    applicationsUrlTemplate <- fill replace (applicationsUrlTemplate cfg) cfg ;;
    let baseApplicationsUrl := before_query applicationsUrlTemplate in
    token <- authenticate server cfg authUrl authUrlV2 ;;
    allApplications <- paginate server fuel baseApplicationsUrl token limit
                         formatApplication ;;
    writeFile applicationsListPath ;;;
    writeFile csvPath ;;;
    ret allApplications.

(** The script ends without a value on every path. *)
Definition fetchApplicationsWithAuth (fuel : nat) (config : option Config) : M unit :=
  try_finally
    (try_catch
       (ensureOutputDirectoryExists outputDirectory ;;;
        go <- overwrite_guard answers applicationsListPath
                "applicationsList.json already exists. Do you want to delete it? [ yes | no ]: " ;;
        if negb go then ret tt else
        go <- overwrite_guard answers csvPath
                "applicationsList.csv already exists. Do you want to delete it? [ yes | no ]: " ;;
        if negb go then ret tt else
        fetch_and_store fuel config ;;; ret tt)
       (fun _ => ret tt))
    rl_close.
End Run.

End GetApplicationList.

Module GetProjectProperties.

Definition outputDirectory := "../output".
Definition projectListPath := "../output/projectList.json".
Definition csvPath := "../output/projectList.csv".

(** [const limit = 5;] (line 161). *)
Definition limit : N := 5.

(** [Object.keys(p).length ? p : { key: 'value' }]. *)
Definition properties_or_placeholder (p : list (string * string)) : list (string * string) :=
  match p with [] => [("key", "value")] | _ :: _ => p end.

Definition formatProject (project : Net.Resource) : Project :=
  {| proj_id := Net.r_id project;
     proj_name := Net.r_name project;
     proj_type := Net.r_kind project;
     proj_properties := Some (properties_or_placeholder (Net.r_properties project));
     proj_branches := Some (Net.r_branches_link project) |}.

Section Run.
Variable server : Net.Server.
Variable answers : nat -> string.
Variable replace : string -> string -> string -> string.

Definition fetch_and_store (fuel : nat) (config : option Config) : M (list Project) :=
  cfg <- read_config config ;;
  authUrl <- fill replace (authUrlTemplate cfg) cfg ;;
  authUrlV2 <- fill replace (authUrlV2Template cfg) cfg ;;
  _ <- fill replace (setPropertyUrlTemplate cfg) cfg ;;
  projectsUrl <- fill replace (projectsUrlTemplate cfg) cfg ;;
  let baseProjectsUrl := before_query projectsUrl in
  token <- authenticate server cfg authUrl authUrlV2 ;;
  allProjects <- paginate server fuel baseProjectsUrl token limit formatProject ;;
  writeFile projectListPath ;;;
  writeFile csvPath ;;;
  ret allProjects.

Definition fetchProjectsWithAuth (fuel : nat) (config : option Config) : M unit :=
  try_finally
    (try_catch
       (ensureOutputDirectoryExists outputDirectory ;;;
        go <- overwrite_guard answers projectListPath
                "projectList.json already exists. Do you want to delete it? [ yes | no ]: " ;;
        if negb go then ret tt else
        go <- overwrite_guard answers csvPath
                "projectList.csv already exists. Do you want to delete it? [ yes | no ]: " ;;
        if negb go then ret tt else
        fetch_and_store fuel config ;;; ret tt)
       (fun _ => ret tt))
    rl_close.
End Run.

End GetProjectProperties.

Module GetProjectUserInformation.

Definition outputDirectory := "../output".
Definition projectListPath := "../output/projectList.json".
Definition detailsListPath := "../output/userDetailsList.json".
Definition csvPath := "../output/userDetailsList.csv".

(** [const limit = 500;] (line 118). *)
Definition limit : N := 500.

Definition formatProject (project : Net.Resource) : Project :=
  {| proj_id := Net.r_id project;
     proj_name := Net.r_name project;
     proj_type := None;
     proj_properties := None;
     proj_branches := None |}.

Section Run.
Variable server : Net.Server.
Variable replace : string -> string -> string -> string.

(** Lines 53-158: the fetch made when [projectList.json] is absent. *)
Definition fetch_projects (fuel : nat) (config : option Config) : M (list Project) :=
  cfg <- read_config config ;;
  authUrl <- fill replace (authUrlTemplate cfg) cfg ;;
  authUrlV2 <- fill replace (authUrlV2Template cfg) cfg ;;
  projectsUrl <- fill replace (projectsUrlTemplate cfg) cfg ;;
  let baseProjectsUrl := before_query projectsUrl in
  token <- authenticate server cfg authUrl authUrlV2 ;;
  allProjects <- paginate server fuel baseProjectsUrl token limit formatProject ;;
  writeFile projectListPath ;;;
  ret allProjects.

(** Lines 161-282: the second authentication and the role assignments. *)
Definition fetch_details (config : option Config) (allProjects : list Project)
    : M (list Detail) :=
  cfg <- read_config config ;;
  authUrl <- fill replace (authUrlTemplate cfg) cfg ;;
  authUrlV2 <- fill replace (authUrlV2Template cfg) cfg ;;
  token <- authenticate server cfg authUrl authUrlV2 ;;
  allDetails <- role_loop server (customer cfg) token allProjects [] ;;
  writeFile detailsListPath ;;;
  writeFile csvPath ;;;
  ret allDetails.

(** [stored] is what reading and parsing an existing [projectList.json]
    gives, for a file that holds an array of projects. *)
Definition fetchProjectsWithAuth (fuel : nat) (config : option Config)
    (stored : outcome (list Project)) : M unit :=
  try_finally
    (try_catch
       (ensureOutputDirectoryExists outputDirectory ;;;
        cached <- file_exists projectListPath ;;
        allProjects <-
          (if cached then
             match stored with Ok ps => ret ps | Throw e => throw e end
           else fetch_projects fuel config) ;;
        fetch_details config allProjects ;;; ret tt)
       (fun _ => ret tt))
    rl_close.
End Run.

End GetProjectUserInformation.

(* ====================================================================== *)
(** ** main.mjs *)
(* ====================================================================== *)

Module Main.

Definition outputDirectory := "./output".
Definition projectListPath := "./output/projectList.json".
Definition detailsListPath := "./output/userDetailsList.json".
Definition applicationsListPath := "./output/applicationsList.json".
Definition applicationsCsvPath := "./output/applicationsList.csv".

(** [const limit = 25;] of fetchApplicationsWithAuth and [const limit =
    500;] of fetchProjectsWithAuth. *)
Definition applications_limit : N := 25.
Definition projects_limit : N := 500.

Definition formatProject (project : Net.Resource) : Project :=
  {| proj_id := Net.r_id project;
     proj_name := Net.r_name project;
     proj_type := None;
     proj_properties :=
       Some (GetProjectProperties.properties_or_placeholder (Net.r_properties project));
     proj_branches := Some (Net.r_branches_link project) |}.

Section Stages.
Variable server : Net.Server.
Variable answers : nat -> string.
Variable replace : string -> string -> string -> string.

Definition applications_fetch_and_store (fuel : nat) (config : option Config)
    : M (list Application) :=
  cfg <- read_config config ;;
  if negb (some_truthy (authUrlTemplate cfg))
     || negb (some_truthy (authUrlV2Template cfg))
     || negb (some_truthy (applicationsUrlTemplate cfg))
     || negb (JsString.truthy (customer cfg))
  then throw (Error "Missing required configuration properties.")
  else
    authUrl <- fill replace (authUrlTemplate cfg) cfg ;;
    authUrlV2 <- fill replace (authUrlV2Template cfg) cfg ;;
    applicationsUrlTemplate <- fill replace (applicationsUrlTemplate cfg) cfg ;;
    let baseApplicationsUrl := before_query applicationsUrlTemplate in
    token <- authenticate server cfg authUrl authUrlV2 ;;
    allApplications <- paginate server fuel baseApplicationsUrl token
                         applications_limit GetApplicationList.formatApplication ;;
    writeFile applicationsListPath ;;;
    writeFile applicationsCsvPath ;;;
    ret allApplications.

(** [fetchApplicationsWithAuth]: [return []] after a declined prompt and
    in the [catch], [return allApplications] at the end. *)
Definition fetchApplicationsWithAuth (fuel : nat) (config : option Config)
    : M (list Application) :=
  try_finally
    (try_catch
       (ensureOutputDirectoryExists outputDirectory ;;;
        go <- overwrite_guard answers applicationsListPath
                "applicationsList.json already exists. Do you want to delete it? [ yes | no ]: " ;;
        if negb go then ret [] else
        go <- overwrite_guard answers applicationsCsvPath
                "applicationsList.csv already exists. Do you want to delete it? [ yes | no ]: " ;;
        if negb go then ret [] else
        applications_fetch_and_store fuel config)
       (fun _ => ret []))
    rl_close.

Definition projects_fetch (fuel : nat) (config : option Config) : M (list Project) :=
  cfg <- read_config config ;;
  authUrl <- fill replace (authUrlTemplate cfg) cfg ;;
  authUrlV2 <- fill replace (authUrlV2Template cfg) cfg ;;
  projectsUrl <- fill replace (projectsUrlTemplate cfg) cfg ;;
  let baseProjectsUrl := before_query projectsUrl in
  token <- authenticate server cfg authUrl authUrlV2 ;;
  allProjects <- paginate server fuel baseProjectsUrl token projects_limit
                   formatProject ;;
  writeFile projectListPath ;;;
  ret allProjects.

(** [fetchProjectsWithAuth]; [stored] is what reading and parsing an
    existing [projectList.json] gives, for a file that holds an array of
    projects (the function returns whatever value [JSON.parse] gives). *)
Definition fetchProjectsWithAuth (fuel : nat) (config : option Config)
    (stored : outcome (list Project)) : M (list Project) :=
  try_catch
    (ensureOutputDirectoryExists outputDirectory ;;;
     cached <- file_exists projectListPath ;;
     if cached then
       match stored with Ok ps => ret ps | Throw e => throw e end
     else projects_fetch fuel config)
    (fun _ => ret []).

(** [fetchRoleAssignments(allProjects)]. *)
Definition fetchRoleAssignments (config : option Config) (allProjects : list Project)
    : M (list Detail) :=
  try_catch
    (cfg <- read_config config ;;
     authUrl <- fill replace (authUrlTemplate cfg) cfg ;;
     authUrlV2 <- fill replace (authUrlV2Template cfg) cfg ;;
     token <- authenticate server cfg authUrl authUrlV2 ;;
     allDetails <- role_loop server (customer cfg) token allProjects [] ;;
     writeFile detailsListPath ;;;
     writeFile "./output/userDetailsList.csv" ;;;
     ret allDetails)
    (fun _ => ret []).
End Stages.

(** [main], over the five functions it calls. *)
Section Orchestrator.
Variables Apps Projects Details Branches : Type.
Variable fetchApplications : M (list Apps).
Variable fetchProjects : M (list Projects).
Variable fetchRoles : list Projects -> M (list Details).
Variable fetchBranches : M (list Branches).
Variable associateProjectsToBranches : list Projects -> list Branches -> M unit.

Definition is_empty {A} (l : list A) : bool :=
  (List.length l =? 0)%nat.

Definition main : M unit :=
  allApplications <- fetchApplications ;;
  if is_empty allApplications then ret tt else
  allProjects <- fetchProjects ;;
  if is_empty allProjects then ret tt else
  allDetails <- fetchRoles allProjects ;;
  if is_empty allDetails then ret tt else
  allBranches <- fetchBranches ;;
  if is_empty allBranches then ret tt else
  associateProjectsToBranches allProjects allBranches.
End Orchestrator.

End Main.

(* ====================================================================== *)
(** ** Plain objects used as maps *)
(* ====================================================================== *)

Module JsObject.

(** The own string-keyed properties of an object, in creation order. *)
Definition props (V : Type) : Type := list (string * V).

Definition digit (a : ascii) : option N :=
  let n := N_of_ascii a in
  if (48 <=? n)%N && (n <=? 57)%N then Some (n - 48)%N else None.

Fixpoint decimal (s : string) (acc : N) : option N :=
  match s with
  | EmptyString => Some acc
  | String a s' =>
      match digit a with
      | Some d => decimal s' (10 * acc + d)%N
      | None => None
      end
  end.

(** A key is an array index when it is the canonical decimal text of an
    integer from 0 to 2^32 - 2. *)
Definition array_index (k : string) : option N :=
  match k with
  | EmptyString => None
  | String a rest =>
      if Ascii.eqb a "0"%char then
        match rest with EmptyString => Some 0%N | String _ _ => None end
      else
        match decimal k 0 with
        | Some v => if (v <? 4294967295)%N then Some v else None
        | None => None
        end
  end.

Definition is_index (k : string) : bool :=
  match array_index k with Some _ => true | None => false end.

Definition index_of (k : string) : N :=
  match array_index k with Some i => i | None => 0%N end.

Section Props.
Variable V : Type.

(** An own property, if there is one. *)
Fixpoint get_own (k : string) (o : props V) : option V :=
  match o with
  | [] => None
  | (k', v) :: o' => if String.eqb k k' then Some v else get_own k o'
  end.

Definition has_own (k : string) (o : props V) : bool :=
  match get_own k o with Some _ => true | None => false end.

(** [o[k] = v] for a key that is created as, or already is, an own data
    property: an existing property keeps its place. *)
Fixpoint set_own (k : string) (v : V) (o : props V) : props V :=
  match o with
  | [] => [(k, v)]
  | (k', v') :: o' =>
      if String.eqb k k' then (k', v) :: o' else (k', v') :: set_own k v o'
  end.

(** A change made through a reference to the value of [k]. *)
Fixpoint update_own (k : string) (f : V -> V) (o : props V) : props V :=
  match o with
  | [] => []
  | (k', v') :: o' =>
      if String.eqb k k' then (k', f v') :: o' else (k', v') :: update_own k f o'
  end.

(** Insertion of an array-index property among those already sorted. *)
Fixpoint insert_index (p : string * V) (sorted : props V) : props V :=
  match sorted with
  | [] => [p]
  | q :: sorted' =>
      if (index_of (fst p) <=? index_of (fst q))%N then p :: q :: sorted'
      else q :: insert_index p sorted'
  end.

Fixpoint sort_indices (o : props V) : props V :=
  match o with
  | [] => []
  | p :: o' => insert_index p (sort_indices o')
  end.

(** OrdinaryOwnPropertyKeys: the array indices in ascending numeric
    order, then the other keys in creation order. *)
Definition ordered (o : props V) : props V :=
  sort_indices (filter (fun p => is_index (fst p)) o)
  ++ filter (fun p => negb (is_index (fst p))) o.

(** [Object.values(o)]. *)
Definition values (o : props V) : list V := map snd (ordered o).

Definition keys (o : props V) : list string := map fst (ordered o).
End Props.

(** The properties of [Object.prototype], which an object literal [{}]
    inherits: eleven functions and the accessor [__proto__]. *)
Definition object_prototype : list string :=
  ["constructor"; "hasOwnProperty"; "isPrototypeOf"; "propertyIsEnumerable";
   "toLocaleString"; "toString"; "valueOf"; "__defineGetter__";
   "__defineSetter__"; "__lookupGetter__"; "__lookupSetter__"; "__proto__"].

Definition inherited (k : string) : bool :=
  existsb (String.eqb k) object_prototype.

End JsObject.

(* ====================================================================== *)
(** ** createReport.mjs *)
(* ====================================================================== *)

Module CreateReport.

(** [{ name, email, type: 'Individual User' }] *)
Record User : Type := { user_name : string; user_email : string; user_type : string }.

(** [{ name, type: 'Group' }] *)
Record Group : Type := { group_name : string; group_type : string }.

(** The value stored in [projectMap] for a project. *)
Record Entry : Type := {
  projectName : string;
  projectId : string;
  type : option string;
  branches : list string;
  users : list User;
  groups : list Group
}.

(** [projectMap]: its own properties, and the entry that became its
    prototype if one was assigned to the key [__proto__] (the setter of
    [Object.prototype] turns that assignment into a change of prototype
    and creates no property). *)
Record ProjectMap : Type := {
  own : JsObject.props Entry;
  proto : option Entry
}.

Definition empty_map : ProjectMap := {| own := []; proto := None |}.

(** The callback of [allProjects.reduce] (lines 27-37). *)
Definition add_project (map : ProjectMap) (project : Project) : ProjectMap :=
  let entry := {| projectName := proj_name project;
                  projectId := proj_id project;
                  type := proj_type project;
                  branches := []; users := []; groups := [] |} in
  if String.eqb (proj_id project) "__proto__"
  then {| own := own map; proto := Some entry |}
  else {| own := JsObject.set_own (proj_id project) entry (own map);
          proto := proto map |}.

(** What [projectMap[k]] evaluates to, as far as the script can tell. *)
Inductive Looked : Type :=
| Found       (* the entry that is the own property [k] *)
| Prototype   (* the entry installed as prototype, read through [__proto__] *)
| Foreign     (* a truthy value that is no entry: an inherited function,
                 [Object.prototype], or a property of the prototype entry *)
| Missing.    (* [undefined], or an inherited falsy value *)

(** The properties of an entry, seen through the prototype chain. *)
Definition entry_property (e : Entry) (k : string) : option bool :=
  if String.eqb k "projectName" then Some (JsString.truthy (projectName e))
  else if String.eqb k "projectId" then Some (JsString.truthy (projectId e))
  else if String.eqb k "type" then Some (some_truthy (type e))
  else if String.eqb k "branches" then Some true
  else if String.eqb k "users" then Some true
  else if String.eqb k "groups" then Some true
  else None.

Definition of_object_prototype (k : string) : Looked :=
  if JsObject.inherited k then Foreign else Missing.

Definition lookup (map : ProjectMap) (k : string) : Looked :=
  if JsObject.has_own k (own map) then Found
  else if String.eqb k "__proto__" then
    match proto map with Some _ => Prototype | None => Foreign end
  else
    match proto map with
    | Some e =>
        match entry_property e k with
        | Some true => Foreign
        | Some false => Missing
        | None => of_object_prototype k
        end
    | None => of_object_prototype k
    end.

(** A change of the entry that [projectMap[k]] refers to. *)
Definition change (map : ProjectMap) (k : string) (f : Entry -> Entry)
    : outcome ProjectMap :=
  match lookup map k with
  | Found => Ok {| own := JsObject.update_own k f (own map); proto := proto map |}
  | Prototype => Ok {| own := own map; proto := option_map f (proto map) |}
  | Foreign => Throw TypeError
  | Missing => Ok map
  end.

Definition push_branch (branchName : string) (e : Entry) : Entry :=
  {| projectName := projectName e; projectId := projectId e; type := type e;
     branches := branches e ++ [branchName]; users := users e; groups := groups e |}.

Definition push_user (u : User) (e : Entry) : Entry :=
  {| projectName := projectName e; projectId := projectId e; type := type e;
     branches := branches e; users := users e ++ [u]; groups := groups e |}.

Definition push_group (g : Group) (e : Entry) : Entry :=
  {| projectName := projectName e; projectId := projectId e; type := type e;
     branches := branches e; users := users e; groups := groups e ++ [g] |}.

(** The callback of [allBranches.data.forEach] (lines 39-44): on a truthy
    [projectMap[projectId]] that has no [branches] array, [push] is read
    on [undefined]. *)
Definition add_branch (map : ProjectMap) (branch : Net.Resource) : outcome ProjectMap :=
  change map (Net.r_project branch) (push_branch (Net.r_name branch)).

(** The callback of [allDetails.forEach] (lines 46-55). *)
Definition add_detail (map : ProjectMap) (detail : Detail) : outcome ProjectMap :=
  match lookup map (d_projectId detail) with
  | Missing => Ok map
  | _ =>
      if String.eqb (d_userType detail) "User" then
        change map (d_projectId detail)
          (push_user {| user_name := d_name detail; user_email := d_email detail;
                        user_type := "Individual User" |})
      else if String.eqb (d_userType detail) "GroupName" then
        change map (d_projectId detail)
          (push_group {| group_name := d_name detail; group_type := "Group" |})
      else Ok map
  end.

(** [forEach] with a callback that may throw. *)
Fixpoint for_each {A S} (f : S -> A -> outcome S) (l : list A) (s : S) : outcome S :=
  match l with
  | [] => Ok s
  | a :: l' =>
      match f s a with
      | Ok s' => for_each f l' s'
      | Throw e => Throw e
      end
  end.

(** [applicationMap]; a string assigned to [__proto__] changes nothing. *)
Definition link_project (map : ProjectMap) (applicationName : string)
    (amap : JsObject.props string) (projectId : string) : JsObject.props string :=
  match lookup map projectId with
  | Missing => amap
  | _ =>
      if String.eqb projectId "__proto__" then amap
      else JsObject.set_own projectId applicationName amap
  end.

Definition add_application (map : ProjectMap) (amap : JsObject.props string)
    (application : Application) : JsObject.props string :=
  fold_left (link_project map (app_name application)) (app_projects application) amap.

Definition applicationMap (map : ProjectMap) (allApplications : list Application)
    : JsObject.props string :=
  fold_left (add_application map) allApplications [].

(** The value of the column [applicationName]: a text, or what an object
    inherits under that key when the script reads it from
    [applicationMap]. *)
Inductive AppName : Type :=
| Named (text : string)
| InheritedValue (key : string).

(** [applicationMap[project.projectId] || 'No Application Name'] *)
Definition applicationName_of (amap : JsObject.props string) (k : string) : AppName :=
  match JsObject.get_own k amap with
  | Some n => if JsString.truthy n then Named n else Named "No Application Name"
  | None =>
      if JsObject.inherited k then InheritedValue k
      else Named "No Application Name"
  end.

(** An element of [csvData]; [branchNames] holds the values of
    [branchName1], [branchName2], ... in that order. *)
Record Row : Type := {
  row_applicationName : AppName;
  row_projectName : string;
  row_projectId : string;
  row_type : string;
  row_name : string;
  row_email : string;
  row_branchNames : list string
}.

Definition maxBranches : nat := 5.

(** [while (branches.length < maxBranches) branches.push('')] *)
Definition pad (bs : list string) : list string :=
  bs ++ repeat "" (maxBranches - List.length bs).

Definition user_row (applicationName : AppName) (project : Entry)
    (bs : list string) (user : User) : Row :=
  {| row_applicationName := applicationName;
     row_projectName := projectName project;
     row_projectId := projectId project;
     row_type := user_type user;
     row_name := user_name user;
     row_email := user_email user;
     row_branchNames := bs |}.

Definition group_row (applicationName : AppName) (project : Entry)
    (bs : list string) (group : Group) : Row :=
  {| row_applicationName := applicationName;
     row_projectName := projectName project;
     row_projectId := projectId project;
     row_type := group_type group;
     row_name := group_name group;
     row_email := "";
     row_branchNames := bs |}.

(** The callback of [Object.values(projectMap).forEach] (lines 67-103). *)
Definition project_rows (amap : JsObject.props string) (project : Entry) : list Row :=
  let bs := pad (firstn maxBranches (branches project)) in
  let applicationName := applicationName_of amap (projectId project) in
  map (user_row applicationName project bs) (users project)
  ++ map (group_row applicationName project bs) (groups project).

(** [csvData] of [combineDataAndGenerateCsv], from the four parsed files;
    [allBranches] is the [data] array of [branchesList.json], [None] when
    the file has none.  A [Throw] is what the [catch] of the function
    receives: no report is written. *)
Definition csvData (allProjects : list Project) (allDetails : list Detail)
    (allBranches : option (list Net.Resource)) (allApplications : list Application)
    : outcome (list Row) :=
  let projectMap := fold_left add_project allProjects empty_map in
  match allBranches with
  | None => Throw TypeError
  | Some branchData =>
      match for_each add_branch branchData projectMap with
      | Throw e => Throw e
      | Ok projectMap =>
          match for_each add_detail allDetails projectMap with
          | Throw e => Throw e
          | Ok projectMap =>
              let amap := applicationMap projectMap allApplications in
              Ok (flat_map (project_rows amap) (JsObject.values (own projectMap)))
          end
      end
  end.

End CreateReport.

(* ====================================================================== *)
(** ** Vocabulary of the properties *)
(* ====================================================================== *)

Module Paging.

(** The request of turn [i] (from 0) of a paginated fetch. *)
Definition page_request (base bearer : string) (limit : N) (i : nat) : Net.Request :=
  Net.GetPage base limit (N.of_nat i * limit) bearer.

(** The request of turn [i] of the fetch of the branches. *)
Definition branch_request (template bearer : string) (i : nat) : Net.Request :=
  Net.GetTemplate template (N.of_nat i * 500) bearer.

(** A reply with status 200 that carries exactly [limit] items. *)
Definition full_page (limit : N) (reply : Net.Reply) (items : list Net.Resource) : Prop :=
  exists r, reply = Net.Resolved r /\ Net.status r = 200%Z
            /\ Net.data r = Some items /\ N.of_nat (List.length items) = limit.

(** A reply with status 200 whose item count is not [limit]. *)
Definition other_page (limit : N) (reply : Net.Reply) (items : list Net.Resource) : Prop :=
  exists r, reply = Net.Resolved r /\ Net.status r = 200%Z
            /\ Net.data r = Some items /\ N.of_nat (List.length items) <> limit.

(** A resolved reply with a status other than 200; under the default
    [validateStatus] of axios its status is one of 201 to 299. *)
Definition refusal (reply : Net.Reply) : Prop :=
  exists r, reply = Net.Resolved r /\ Net.status r <> 200%Z.

(** What the last reply of a fetch adds to the result. *)
Definition closes (limit : N) (reply : Net.Reply) (items : list Net.Resource) : Prop :=
  other_page limit reply items \/ (refusal reply /\ items = []).

(** A reply with status 200 and no [data] array. *)
Definition malformed (reply : Net.Reply) : Prop :=
  exists r, reply = Net.Resolved r /\ Net.status r = 200%Z /\ Net.data r = None.

(** The same for the branches, whose loop also survives a rejected
    request and a reply it cannot read. *)
Definition closes_branches (reply : Net.Reply) (items : list Net.Resource) : Prop :=
  other_page 500 reply items
  \/ ((refusal reply \/ malformed reply \/ exists s, reply = Net.Rejected s)
      /\ items = []).

(** The sum of the lengths of the pages. *)
Definition total_length {A} (pages : list (list A)) : nat :=
  list_sum (map (@List.length A) pages).

End Paging.

(** The requests of a world that came after those of an earlier one. *)
Definition sent_since (w w' : World) (qs : list Net.Request) : Prop :=
  requests w' = requests w ++ qs.

(** The character [c] does not occur in [s]. *)
Fixpoint lacks (c : ascii) (s : string) : bool :=
  match s with
  | EmptyString => true
  | String a s' => negb (Ascii.eqb a c) && lacks c s'
  end.

(** The request of turn [i] of a loop that is at offset [off]. *)
Definition turn_request (base bearer : string) (limit off : N) (i : nat) : Net.Request :=
  Net.GetPage base limit (off + N.of_nat i * limit) bearer.

(** Every request that [m] adds to the world satisfies [P]. *)
Definition sends (P : Net.Request -> Prop) {A} (m : M A) : Prop :=
  forall w w' o, m w = Some (w', o) ->
    exists qs, requests w' = requests w ++ qs /\ Forall P qs.

(** The requests that are not page requests, and the page requests for
    pages of [size] items. *)
Definition asks_pages_of (size : N) (q : Net.Request) : Prop :=
  match q with
  | Net.GetPage _ page_limit _ _ => page_limit = size
  | _ => True
  end.

(** The request for the role assignments of a project. *)
Definition role_request (cust bearer : string) (project : Project) : Net.Request :=
  Net.GetRoleAssignments cust (proj_id project) bearer.

(** What the reply to the request of a project adds to the details. *)
Definition contribution (project : Project) (r : Net.Response) : list Detail :=
  if (Net.status r =? 200)%Z then
    match Net.included r with
    | Some incl => role_details project incl
    | None => []
    end
  else [].

(** The server resolves the requests of [projects], sent from request
    number [n] on, with [replies], those of status 200 carrying an
    [included] array. *)
Fixpoint answered (server : Net.Server) (cust bearer : string) (n : nat)
    (projects : list Project) (replies : list Net.Response) : Prop :=
  match projects, replies with
  | [], [] => True
  | project :: projects', r :: replies' =>
      server n (role_request cust bearer project) = Net.Resolved r
      /\ (Net.status r = 200%Z -> Net.included r <> None)
      /\ answered server cust bearer (S n) projects' replies'
  | _, _ => False
  end.

(** The details of all the replies, project by project. *)
Definition contributions (projects : list Project) (replies : list Net.Response)
    : list Detail :=
  flat_map (fun pr => contribution (fst pr) (snd pr)) (combine projects replies).

(** The world after one more question. *)
Definition asking (question : string) (w : World) : World :=
  {| requests := requests w; asked := asked w ++ [question];
     files := files w; rl_open := rl_open w |}.

(** The artifact [path] exists in [w]. *)
Definition exists_in (w : World) (path : string) : bool :=
  existsb (String.eqb path) (files w).

(** The first prompt of the applications stage of main.mjs is declined:
    the JSON artifact exists, or it does not and the CSV artifact exists, and
    the first answer is not a yes. *)
Definition first_prompt_declined (answers : nat -> string) (w : World) : Prop :=
  (exists_in w Main.applicationsListPath = true
   \/ (exists_in w Main.applicationsListPath = false
       /\ exists_in w Main.applicationsCsvPath = true))
  /\ declines (answers (List.length (asked w))) = true.

Module KeyOrder.

(** Insertion sort of keys by the number they denote as array indices. *)
Fixpoint insert_key (k : string) (sorted : list string) : list string :=
  match sorted with
  | [] => [k]
  | q :: sorted' =>
      if (JsObject.index_of k <=? JsObject.index_of q)%N then k :: q :: sorted'
      else q :: insert_key k sorted'
  end.

Fixpoint sort_keys (ks : list string) : list string :=
  match ks with
  | [] => []
  | k :: ks' => insert_key k (sort_keys ks')
  end.

(** The order in which an object with the keys [ks], created in that
    order, lists them: array indices first, ascending, then the rest as
    created. *)
Definition key_order (ks : list string) : list string :=
  sort_keys (filter JsObject.is_index ks)
  ++ filter (fun k => negb (JsObject.is_index k)) ks.

(** The keys in order of first appearance; [seen] are those met before. *)
Fixpoint first_seen (seen ids : list string) : list string :=
  match ids with
  | [] => []
  | k :: ids' =>
      if existsb (String.eqb k) seen then first_seen seen ids'
      else k :: first_seen (k :: seen) ids'
  end.

End KeyOrder.

(** The words of the properties of the report. *)
Module ReportFacts.
Import CreateReport.

(** [k] is not the key [__proto__]. *)
Definition not_proto (k : string) : bool := negb (String.eqb k "__proto__").

(** The keys of [projectMap] as created: the project ids in order of
    first appearance; the id [__proto__] creates no key. *)
Definition created_keys (allProjects : list Project) : list string :=
  KeyOrder.first_seen [] (filter not_proto (map proj_id allProjects)).

(** The keys of [projectMap] as [Object.values] visits them. *)
Definition project_keys (allProjects : list Project) : list string :=
  KeyOrder.key_order (created_keys allProjects).

(** An entry as [reduce] creates it for the key [k]. *)
Definition fresh_entry (p : string * Entry) : Prop :=
  projectId (snd p) = fst p /\ branches (snd p) = []
  /\ users (snd p) = [] /\ groups (snd p) = [].

(** What a branch and a detail do to the entry of the key [k]. *)
Definition with_branch (k : string) (e : Entry) (branch : Net.Resource) : Entry :=
  if String.eqb (Net.r_project branch) k then push_branch (Net.r_name branch) e else e.

Definition with_detail (k : string) (e : Entry) (detail : Detail) : Entry :=
  if String.eqb (d_projectId detail) k then
    if String.eqb (d_userType detail) "User" then
      push_user {| user_name := d_name detail; user_email := d_email detail;
                   user_type := "Individual User" |} e
    else if String.eqb (d_userType detail) "GroupName" then
      push_group {| group_name := d_name detail; group_type := "Group" |} e
    else e
  else e.

(** The entry of [k] when the rows are made. *)
Definition completed (allBranches : list Net.Resource) (allDetails : list Detail)
    (p : string * Entry) : Entry :=
  fold_left (with_detail (fst p)) allDetails
    (fold_left (with_branch (fst p)) allBranches (snd p)).

(** The records of the snapshots that belong to the project [k]. *)
Definition branch_names (allBranches : list Net.Resource) (k : string) : list string :=
  map Net.r_name (filter (fun b => String.eqb (Net.r_project b) k) allBranches).

(** The details of kind User, and of kind GroupName, of the project [k]. *)
Definition users_of (allDetails : list Detail) (k : string) : list Detail :=
  filter (fun d => String.eqb (d_projectId d) k && String.eqb (d_userType d) "User")
         allDetails.

Definition groups_of (allDetails : list Detail) (k : string) : list Detail :=
  filter (fun d => String.eqb (d_projectId d) k && String.eqb (d_userType d) "GroupName")
         allDetails.

(** The objects that the script pushes for a detail. *)
Definition as_user (d : Detail) : User :=
  {| user_name := d_name d; user_email := d_email d; user_type := "Individual User" |}.

Definition as_group (d : Detail) : Group :=
  {| group_name := d_name d; group_type := "Group" |}.

(** The last application of the snapshot that lists the project [k]. *)
Definition owner (allApplications : list Application) (k : string) : option Application :=
  find (fun a => existsb (String.eqb k) (app_projects a)) (rev allApplications).

(** The map that [reduce] leaves. *)
Definition reduced (allProjects : list Project) : ProjectMap :=
  fold_left add_project allProjects empty_map.

(** The pushes keep what a lookup can see of an entry. *)
Definition keeps_identity (f : Entry -> Entry) : Prop :=
  forall e, projectName (f e) = projectName e /\ projectId (f e) = projectId e
            /\ type (f e) = type e.

End ReportFacts.

(** What a row says about its principal: project id, type, name, email. *)
Definition summary (row : CreateReport.Row) : string * string * string * string :=
  (CreateReport.row_projectId row, CreateReport.row_type row,
   CreateReport.row_name row, CreateReport.row_email row).

(** The rows that the principals of the project [k] are due, users first. *)
Definition principal_rows (allDetails : list Detail) (k : string)
    : list (string * string * string * string) :=
  map (fun d => (k, "Individual User", d_name d, d_email d))
      (ReportFacts.users_of allDetails k)
  ++ map (fun d => (k, "Group", d_name d, "")) (ReportFacts.groups_of allDetails k).

(** No record refers to a key under which [projectMap] holds, or inherits,
    something that is not an entry. *)
Definition refers_to_entries (allProjects : list Project) (allDetails : list Detail)
    (allBranches : list Net.Resource) : Prop :=
  (forall b, In b allBranches ->
     CreateReport.lookup (ReportFacts.reduced allProjects) (Net.r_project b)
     <> CreateReport.Foreign)
  /\ (forall d, In d allDetails ->
        CreateReport.lookup (ReportFacts.reduced allProjects) (d_projectId d)
        <> CreateReport.Foreign).

(* ====================================================================== *)
(** ** Small environments and snapshots, for the examples *)
(* ====================================================================== *)

(** A configuration, by its two credentials. *)
Definition sample_config (pw tok : option JsString.ustring) : Config :=
  {| customer := "demo"; email := JsString.units "a@x.com";
     password := pw; accesstoken := tok;
     authUrlTemplate := Some "https://{customer}/auth/v1";
     authUrlV2Template := Some "https://{customer}/auth/v2";
     applicationsUrlTemplate := Some "https://{customer}/applications?x=1";
     projectsUrlTemplate := Some "https://{customer}/projects";
     branchesUrlTemplate := Some "https://{customer}/branches?o={offset}";
     setPropertyUrlTemplate := Some "https://{customer}/properties" |}.

(** A response, by the parts the scripts read. *)
Definition sample_response (code : Z) (cookies : option (list string))
    (body_jwt : option string) (items incl : option (list Net.Resource)) : Net.Response :=
  {| Net.status := code; Net.set_cookie := cookies; Net.jwt := body_jwt;
     Net.data := items; Net.included := incl |}.

(** A server that resolves every request with a session cookie among its
    cookies and a [jwt] in its body. *)
Definition cookie_server : Net.Server :=
  fun _ _ => Net.Resolved
    (sample_response 200 (Some ["sid=1; Path=/"; "access_token=abc.def; HttpOnly"])
       (Some "from-body") None None).

(** A resource with the id and name [n], and a page of resources. *)
Definition item (n : string) : Net.Resource :=
  {| Net.r_type := "item"; Net.r_id := n; Net.r_name := n; Net.r_description := "";
     Net.r_kind := None; Net.r_email := ""; Net.r_groupname := "";
     Net.r_properties := []; Net.r_projects := []; Net.r_project := "";
     Net.r_branches_link := "" |}.

Definition page_of (items : list Net.Resource) : Net.Reply :=
  Net.Resolved (sample_response 200 None None (Some items) None).

(** Two items per page up to offset 4, then one. *)
Definition short_tail_server : Net.Server :=
  fun _ q =>
    match q with
    | Net.GetPage _ _ off _ =>
        if (off <? 4)%N then page_of [item "a"; item "b"] else page_of [item "c"]
    | _ => Net.Rejected None
    end.

(** Three items on every page, whatever the page size asked for. *)
Definition generous_server : Net.Server :=
  fun _ _ => page_of [item "a"; item "b"; item "c"].

(** A server with a session cookie for every authentication, three items
    for every page request and one user for every project. *)
Definition demo_server : Net.Server :=
  fun _ q =>
    match q with
    | Net.PostForm _ _ =>
        Net.Resolved (sample_response 200 (Some ["access_token=abc.def; HttpOnly"])
                        None None None)
    | Net.GetRoleAssignments _ _ _ =>
        Net.Resolved (sample_response 200 None None None (Some [item "u"]))
    | _ => page_of [item "a"; item "b"; item "c"]
    end.

(** A [replace] that finds no pattern. *)
Definition simple_replace (s pattern replacement : string) : string := s.

(** The world after the run of getProjectProperties.mjs against
    [demo_server], from an empty output directory. *)
Definition after_project_properties : World :=
  {| requests :=
       [Net.PostForm "https://{customer}/auth/v1"
          [("email", JsString.units "a@x.com"); ("password", JsString.units "s3cret")];
        Net.GetPage "https://{customer}/projects" 5 0 "abc.def"];
     asked := [];
     files := ["../output"; "../output/projectList.json"; "../output/projectList.csv"];
     rl_open := false |}.

(** A user among the included resources of a role-assignments reply. *)
Definition person (n : string) : Net.Resource :=
  {| Net.r_type := "users"; Net.r_id := n; Net.r_name := n; Net.r_description := "";
     Net.r_kind := None; Net.r_email := String.append n "@x.com"; Net.r_groupname := "";
     Net.r_properties := []; Net.r_projects := []; Net.r_project := "";
     Net.r_branches_link := "" |}.

(** An entry of [projectList.json] as getProjectUserInformation.mjs writes it. *)
Definition snapshot_project (id nm : string) : Project :=
  {| proj_id := id; proj_name := nm; proj_type := None;
     proj_properties := None; proj_branches := None |}.

(** A server that answers 204, without content, for the project [p2] and
    200 with one user for every other project. *)
Definition moody_server : Net.Server :=
  fun _ q =>
    match q with
    | Net.GetRoleAssignments _ id _ =>
        if String.eqb id "p2"
        then Net.Resolved (sample_response 204 None None None None)
        else Net.Resolved (sample_response 200 None None None (Some [person id]))
    | _ => Net.Rejected None
    end.

(** Entries of the branches, details and applications snapshots, and a row
    of the report. *)
Definition branch (nm project : string) : Net.Resource :=
  {| Net.r_type := "branches"; Net.r_id := nm; Net.r_name := nm; Net.r_description := "";
     Net.r_kind := None; Net.r_email := ""; Net.r_groupname := "";
     Net.r_properties := []; Net.r_projects := []; Net.r_project := project;
     Net.r_branches_link := "" |}.

Definition detail (project kind nm mail : string) : Detail :=
  {| d_projectName := ""; d_projectId := project; d_userType := kind;
     d_name := nm; d_email := mail |}.

Definition application (nm : string) (projects : list string) : Application :=
  {| app_id := nm; app_name := nm; app_description := ""; app_projects := projects |}.

Definition report_row (app : CreateReport.AppName) (pname pid kind nm mail : string)
    (slots : list string) : CreateReport.Row :=
  {| CreateReport.row_applicationName := app;
     CreateReport.row_projectName := pname;
     CreateReport.row_projectId := pid;
     CreateReport.row_type := kind;
     CreateReport.row_name := nm;
     CreateReport.row_email := mail;
     CreateReport.row_branchNames := slots |}.

(** Seven branches of the project P1, and one of another project among
    them. *)
Definition seven_branches : list Net.Resource :=
  [branch "b1" "P1"; branch "b2" "P1"; branch "x" "P2"; branch "b3" "P1";
   branch "b4" "P1"; branch "b5" "P1"; branch "b6" "P1"; branch "b7" "P1"].

(* ====================================================================== *)
(** ** Further vocabulary *)
(* ====================================================================== *)

(** The world after the artifact [path] is deleted. *)
Definition removing (path : string) (w : World) : World :=
  {| requests := requests w; asked := asked w;
     files := filter (fun p => negb (String.eqb path p)) (files w);
     rl_open := rl_open w |}.

(** The requests that are not page requests. *)
Definition no_page_request (q : Net.Request) : Prop :=
  match q with
  | Net.GetPage _ _ _ _ => False
  | _ => True
  end.

(** [config.json] lacks one of the four properties that
    fetchApplicationsWithAuth requires. *)
Definition lacks_required (cfg : Config) : Prop :=
  some_truthy (authUrlTemplate cfg) = false
  \/ some_truthy (authUrlV2Template cfg) = false
  \/ some_truthy (applicationsUrlTemplate cfg) = false
  \/ JsString.truthy (customer cfg) = false.

(** A configuration whose [customer] is the empty string. *)
Definition config_without_customer : Config :=
  {| customer := ""; email := JsString.units "a@x.com";
     password := Some (JsString.units "s3cret"); accesstoken := None;
     authUrlTemplate := Some "https://{customer}/auth/v1";
     authUrlV2Template := Some "https://{customer}/auth/v2";
     applicationsUrlTemplate := Some "https://{customer}/applications";
     projectsUrlTemplate := Some "https://{customer}/projects";
     branchesUrlTemplate := Some "https://{customer}/branches?o={offset}";
     setPropertyUrlTemplate := None |}.

(** The world in which [dir] exists: after [ensureOutputDirectoryExists],
    or after a write to that path. *)
Definition prepared (dir : string) (w : World) : World :=
  {| requests := requests w; asked := asked w;
     files := if existsb (String.eqb dir) (files w) then files w else files w ++ [dir];
     rl_open := rl_open w |}.

(** A reply that ends a loop with an error [e]: a rejected request, or a
    reply with status 200 that lacks the array the loop reads. *)
Definition breaks (part : Net.Response -> option (list Net.Resource))
    (reply : Net.Reply) (e : exn) : Prop :=
  (exists s, reply = Net.Rejected s /\ e = AxiosError s)
  \/ (exists r, reply = Net.Resolved r /\ Net.status r = 200%Z /\ part r = None
                /\ e = TypeError).

(** [config.json] has the properties that the applications stage needs. *)
Definition ready (cfg : Config) (t1 t2 t3 : string) : Prop :=
  authUrlTemplate cfg = Some t1 /\ authUrlV2Template cfg = Some t2
  /\ applicationsUrlTemplate cfg = Some t3
  /\ JsString.truthy t1 = true /\ JsString.truthy t2 = true
  /\ JsString.truthy t3 = true /\ JsString.truthy (customer cfg) = true.

(** A server that authenticates every session, gives one full page of 25
    items at offset 0 and rejects every later page request. *)
Definition failing_server : Net.Server :=
  fun _ q =>
    match q with
    | Net.PostForm _ _ =>
        Net.Resolved (sample_response 200 (Some ["access_token=abc.def; HttpOnly"])
                        None None None)
    | Net.GetPage _ _ off _ =>
        if (off =? 0)%N then page_of (map item (repeat "a" 25))
        else Net.Rejected (Some 500%Z)
    | Net.GetRoleAssignments _ id _ =>
        if String.eqb id "p2" then Net.Rejected (Some 503%Z)
        else Net.Resolved (sample_response 200 None None None (Some [person id]))
    | _ => Net.Rejected None
    end.

(** The world of a first run once the session of [sample_config] with the
    password "s3cret" is open: the output directory exists and one request
    was sent. *)
Definition authenticated_world (dirs : list string) : World :=
  sent (Net.PostForm "https://{customer}/auth/v1"
          [("email", JsString.units "a@x.com"); ("password", JsString.units "s3cret")])
       (fresh_world dirs).

(** The part of [s] before the first [c]; all of [s] when it has none. *)
Fixpoint until (c : ascii) (s : string) : string :=
  match s with
  | EmptyString => EmptyString
  | String a s' => if Ascii.eqb a c then EmptyString else String a (until c s')
  end.

(** The answers to a prompt that let the stage go on. *)
Definition accepted_answers : list string :=
  ["yes"; "yeS"; "yEs"; "yES"; "Yes"; "YeS"; "YEs"; "YES"; "y"; "Y"].

(** The stored project has a [properties] object with at least one key. *)
Definition has_properties (p : Project) : Prop :=
  exists kv rest, proj_properties p = Some (kv :: rest).

(** A configuration without [setPropertyUrlTemplate]. *)
Definition config_without_property_url : Config :=
  {| customer := "demo"; email := JsString.units "a@x.com";
     password := Some (JsString.units "s3cret"); accesstoken := None;
     authUrlTemplate := Some "https://{customer}/auth/v1";
     authUrlV2Template := Some "https://{customer}/auth/v2";
     applicationsUrlTemplate := Some "https://{customer}/applications";
     projectsUrlTemplate := Some "https://{customer}/projects";
     branchesUrlTemplate := Some "https://{customer}/branches?o={offset}";
     setPropertyUrlTemplate := None |}.

(* ====================================================================== *)
(** ** createReport.mjs: reading the snapshots *)
(* ====================================================================== *)

Module Snapshots.

(** [readLocalFiles(filePath)] (lines 10-18): the parsed content of the
    file, and the empty array when the file cannot be read or parsed.
    [content] is what [fs.readFile] and [JSON.parse] give, [None] for an
    error. *)
Definition readLocalFiles {A} (content : option (list A)) : list A :=
  match content with
  | Some parsed => parsed
  | None => []
  end.

(** [allBranches.data] (line 39): [branchesList.json] holds an object,
    whose [data] property may be missing; on the empty array that
    [readLocalFiles] returns after an error, [data] is [undefined]. *)
Definition branches_data (content : option (option (list Net.Resource)))
    : option (list Net.Resource) :=
  match content with
  | Some parsed => parsed
  | None => None
  end.

(** [csvData] of [combineDataAndGenerateCsv], from the four files. *)
Definition csvData (projectList : option (list Project))
    (userDetailsList : option (list Detail))
    (branchesList : option (option (list Net.Resource)))
    (applicationsList : option (list Application)) : outcome (list CreateReport.Row) :=
  CreateReport.csvData (readLocalFiles projectList) (readLocalFiles userDetailsList)
    (branches_data branchesList) (readLocalFiles applicationsList).

End Snapshots.

(** The details that the report has a row for: those of kind User or
    GroupName whose project id is a key of [projectMap]. *)
Definition reported (allProjects : list Project) (d : Detail) : bool :=
  existsb (String.eqb (d_projectId d)) (ReportFacts.created_keys allProjects)
  && (String.eqb (d_userType d) "User" || String.eqb (d_userType d) "GroupName").

(** What the row of a detail says about its principal. *)
Definition summary_of (d : Detail) : string * string * string * string :=
  if String.eqb (d_userType d) "User"
  then (d_projectId d, "Individual User", d_name d, d_email d)
  else (d_projectId d, "Group", d_name d, "").

(** The last record of the projects snapshot with the id [k]. *)
Definition last_project (allProjects : list Project) (k : string) : option Project :=
  find (fun p => String.eqb (proj_id p) k) (rev allProjects).

(* ====================================================================== *)
(** ** main.mjs: the branches *)
(* ====================================================================== *)

Module Branches.

Definition branchesListPath := "./output/branchesList.json".
Definition outputCsvPath := "./output/projectBranches.csv".

Section Stage.
Variable server : Net.Server.
Variable replace : string -> string -> string -> string.
(** [askQuestion] as this stage finds it.  In [main] the applications
    stage has closed the readline interface by then, and what [rl.question]
    does on a closed interface is up to the version of Node; the stage is
    modelled for any behaviour of the prompt. *)
Variable question : string -> M string.

(** [config.t?.replace('{customer}', config.customer)]. *)
Definition fill_optional (template : option string) (cfg : Config) : option string :=
  option_map (fun t => replace t "{customer}" (customer cfg)) template.

(** Lines 701-825, after the guard. *)
Definition fetch_and_store (fuel : nat) (config : option Config) : M (list Net.Resource) :=
  cfg <- read_config config ;;
  match fill_optional (authUrlTemplate cfg) cfg,
        fill_optional (authUrlV2Template cfg) cfg,
        fill_optional (branchesUrlTemplate cfg) cfg with
  | Some authUrl, Some authUrlV2, Some branchesUrlTemplate =>
      if negb (JsString.truthy authUrl) || negb (JsString.truthy authUrlV2)
         || negb (JsString.truthy branchesUrlTemplate)
      then throw (Error "One or more URL templates are missing or not correctly defined in the config.")
      else
        token <- authenticate server cfg authUrl authUrlV2 ;;
        allBranches <- branch_loop server fuel branchesUrlTemplate token
                         (page_start Net.Resource) ;;
        writeFile branchesListPath ;;;
        ret allBranches
  | _, _, _ =>
      throw (Error "One or more URL templates are missing or not correctly defined in the config.")
  end.

(** [fetchBranchesWithAuth] (lines 675-840). *)
Definition fetchBranchesWithAuth (fuel : nat) (config : option Config)
    : M (list Net.Resource) :=
  try_finally
    (try_catch
       (ensureOutputDirectoryExists Main.outputDirectory ;;;
        fileExists <- file_exists branchesListPath ;;
        go <- (if fileExists then
                 answer <- question "branchesList.json already exists. Do you want to delete it? [ yes | no ]: " ;;
                 if declines answer then close_rl ;;; ret false
                 else unlink branchesListPath ;;; ret true
               else ret true) ;;
        if negb go then ret [] else fetch_and_store fuel config)
       (fun _ => ret []))
    rl_close.
End Stage.

(** The value stored in [projectMap] for a project: [{ name, branches }]. *)
Record Entry : Type := { name : string; branches : list string }.

(** [projectMap], as in createReport.mjs: its own properties, and the entry
    that an assignment to the key [__proto__] made its prototype. *)
Record ProjectMap : Type := {
  own : JsObject.props Entry;
  proto : option Entry
}.

Definition empty_map : ProjectMap := {| own := []; proto := None |}.

(** The callback of [allProjects.reduce] (lines 845-848). *)
Definition add_project (map : ProjectMap) (project : Project) : ProjectMap :=
  let entry := {| name := proj_name project; branches := [] |} in
  if String.eqb (proj_id project) "__proto__"
  then {| own := own map; proto := Some entry |}
  else {| own := JsObject.set_own (proj_id project) entry (own map);
          proto := proto map |}.

(** The properties of an entry, seen through the prototype chain. *)
Definition entry_property (e : Entry) (k : string) : option bool :=
  if String.eqb k "name" then Some (JsString.truthy (name e))
  else if String.eqb k "branches" then Some true
  else None.

(** What [projectMap[k]] evaluates to, as far as the script can tell. *)
Definition lookup (map : ProjectMap) (k : string) : CreateReport.Looked :=
  if JsObject.has_own k (own map) then CreateReport.Found
  else if String.eqb k "__proto__" then
    match proto map with
    | Some _ => CreateReport.Prototype
    | None => CreateReport.Foreign
    end
  else
    match proto map with
    | Some e =>
        match entry_property e k with
        | Some true => CreateReport.Foreign
        | Some false => CreateReport.Missing
        | None => CreateReport.of_object_prototype k
        end
    | None => CreateReport.of_object_prototype k
    end.

Definition push_branch (branchName : string) (e : Entry) : Entry :=
  {| name := name e; branches := branches e ++ [branchName] |}.

(** The callback of [allBranches.forEach] (lines 851-856). *)
Definition add_branch (map : ProjectMap) (branch : Net.Resource) : outcome ProjectMap :=
  match lookup map (Net.r_project branch) with
  | CreateReport.Found =>
      Ok {| own := JsObject.update_own (Net.r_project branch)
                     (push_branch (Net.r_name branch)) (own map);
            proto := proto map |}
  | CreateReport.Prototype =>
      Ok {| own := own map;
            proto := option_map (push_branch (Net.r_name branch)) (proto map) |}
  | CreateReport.Foreign => Throw TypeError
  | CreateReport.Missing => Ok map
  end.

(** An element of [csvData]: [projectName], and the values of
    [branchName1], [branchName2], ... in that order. *)
Record Row : Type := { row_projectName : string; row_branchNames : list string }.

Definition project_row (project : Entry) : Row :=
  {| row_projectName := name project; row_branchNames := branches project |}.

(** [csvData] (lines 845-867); a [Throw] is what the [catch] receives. *)
Definition csvData (allProjects : list Project) (allBranches : list Net.Resource)
    : outcome (list Row) :=
  let projectMap := fold_left add_project allProjects empty_map in
  match CreateReport.for_each add_branch allBranches projectMap with
  | Throw e => Throw e
  | Ok projectMap => Ok (map project_row (JsObject.values (own projectMap)))
  end.

(** [Math.max(...csvData.map(project => Object.keys(project).length - 1))]
    as the length of the array of branch columns: none for no row. *)
Definition branch_columns (rows : list Row) : nat :=
  fold_right Nat.max 0 (map (fun row => List.length (row_branchNames row)) rows).

(** [associateProjectsToBranches] (lines 842-882): the CSV is written when
    [csvData] is made, and an error is logged and swallowed. *)
Definition associateProjectsToBranches (allProjects : list Project)
    (allBranches : list Net.Resource) : M unit :=
  try_catch
    (match csvData allProjects allBranches with
     | Ok _ => writeFile outputCsvPath
     | Throw e => throw e
     end)
    (fun _ => ret tt).

End Branches.

(** Every run of [m] takes a world that satisfies [I] to one that does. *)
Definition preserves (I : World -> Prop) {A} (m : M A) : Prop :=
  forall w w' o, m w = Some (w', o) -> I w -> I w'.

(** The console is closed. *)
Definition console_closed (w : World) : Prop := rl_open w = false.

(** A server that opens every session, gives one full page of 500 branches
    at offset 0 and answers 502 to every later request for branches. *)
Definition branches_server : Net.Server :=
  fun _ q =>
    match q with
    | Net.PostForm _ _ =>
        Net.Resolved (sample_response 200 (Some ["access_token=abc.def; HttpOnly"])
                        None None None)
    | Net.GetTemplate _ off _ =>
        if (off =? 0)%N then page_of (repeat (branch "main" "p1") 500)
        else Net.Rejected (Some 502%Z)
    | _ => Net.Rejected None
    end.

(** A prompt on a closed console that throws. *)
Definition failing_question (query : string) : M string :=
  throw (Error "readline was closed").

(** The name under which the project map holds the key [k]: that of the
    last record of the snapshot with this id. *)
Definition name_of (allProjects : list Project) (k : string) : string :=
  match last_project allProjects k with
  | Some p => proj_name p
  | None => ""
  end.

(** The row of the branch table for the key [k]. *)
Definition branch_row (allProjects : list Project) (allBranches : list Net.Resource)
    (k : string) : Branches.Row :=
  {| Branches.row_projectName := name_of allProjects k;
     Branches.row_branchNames := ReportFacts.branch_names allBranches k |}.

(** What a branch does to the entry of the key [k] in the branch table. *)
Definition table_with_branch (k : string) (e : Branches.Entry) (b : Net.Resource)
    : Branches.Entry :=
  if String.eqb (Net.r_project b) k then Branches.push_branch (Net.r_name b) e else e.

(* ====================================================================== *)
(** ** The lines of applicationsList.csv *)
(* ====================================================================== *)

Module ApplicationsCsv.

(** An element of [csvData] (getApplicationList.mjs lines 212-222, main.mjs
    lines 356-366): the columns [id], [name], [description] and [project]. *)
Record Line : Type := {
  line_id : string;
  line_name : string;
  line_description : string;
  line_project : string
}.

(** [allApplications.forEach(application =>
      application.projects.forEach(project => csvData.push({...})))]. *)
Definition csvData (allApplications : list Application) : list Line :=
  flat_map
    (fun application =>
       map (fun project =>
              {| line_id := app_id application;
                 line_name := app_name application;
                 line_description := app_description application;
                 line_project := project |})
           (app_projects application))
    allApplications.

End ApplicationsCsv.

(** The world after the requests [qs]. *)
Definition sent_all (qs : list Net.Request) (w : World) : World :=
  {| requests := requests w ++ qs; asked := asked w;
     files := files w; rl_open := rl_open w |}.

(** A server that opens every session and has a full page of 25 items for
    every page request. *)
Definition endless_server : Net.Server :=
  fun _ q =>
    match q with
    | Net.PostForm _ _ =>
        Net.Resolved (sample_response 200 (Some ["access_token=abc.def; HttpOnly"])
                        None None None)
    | _ => page_of (map item (repeat "a" 25))
    end.

(** The world of getProjectUserInformation.mjs against [demo_server] when
    its second session is open: two authentications around one page request
    and the write of [projectList.json]. *)
Definition second_session_world : World :=
  sent (Net.PostForm "https://{customer}/auth/v1"
          [("email", JsString.units "a@x.com"); ("password", JsString.units "s3cret")])
       (prepared "../output/projectList.json"
          (sent_all [Net.GetPage "https://{customer}/projects" 500 0 "abc.def"]
             (authenticated_world ["../output"]))).

(** The artifact [path] exists. *)
Definition stored_at (path : string) (w : World) : Prop := exists_in w path = true.

(** A server that opens every session, has three items for every page
    request and one user for every project. *)
Definition staffed_server : Net.Server :=
  fun _ q =>
    match q with
    | Net.PostForm _ _ =>
        Net.Resolved (sample_response 200 (Some ["access_token=abc.def; HttpOnly"])
                        None None None)
    | Net.GetRoleAssignments _ id _ =>
        Net.Resolved (sample_response 200 None None None (Some [person id]))
    | _ => page_of [item "a"; item "b"; item "c"]
    end.

(** The world that the first three stages of main.mjs leave against
    [staffed_server], from an empty directory. *)
Definition after_three_stages : World :=
  {| requests :=
       [Net.PostForm "https://{customer}/auth/v1"
          [("email", JsString.units "a@x.com"); ("password", JsString.units "s3cret")];
        Net.GetPage "https://{customer}/applications" 25 0 "abc.def";
        Net.PostForm "https://{customer}/auth/v1"
          [("email", JsString.units "a@x.com"); ("password", JsString.units "s3cret")];
        Net.GetPage "https://{customer}/projects" 500 0 "abc.def";
        Net.PostForm "https://{customer}/auth/v1"
          [("email", JsString.units "a@x.com"); ("password", JsString.units "s3cret")];
        Net.GetRoleAssignments "demo" "a" "abc.def";
        Net.GetRoleAssignments "demo" "b" "abc.def";
        Net.GetRoleAssignments "demo" "c" "abc.def"];
     asked := [];
     files := ["./output"; "./output/applicationsList.json";
               "./output/applicationsList.csv"; "./output/projectList.json";
               "./output/userDetailsList.json"; "./output/userDetailsList.csv"];
     rl_open := false |}.

(* ---------------------------------------------------------------------- *)
(** ** The HTTP client *)

(** What [axios.request] makes of an HTTP exchange.  No script passes a
    [validateStatus] of its own, so the default one decides: the promise
    resolves for the statuses 200 to 299 and rejects, with the status in
    [error.response], for every other status; it rejects without a status
    when no answer arrives. *)
Module Axios.

Inductive Wire : Type :=
| Answer (r : Net.Response)   (* the server answered, with any status *)
| NoAnswer.                   (* network error or timeout *)

(** [validateStatus: status => status >= 200 && status < 300]. *)
Definition validateStatus (status : Z) : bool :=
  (200 <=? status)%Z && (status <? 300)%Z.

Definition settle (a : Wire) : Net.Reply :=
  match a with
  | Answer r =>
      if validateStatus (Net.status r) then Net.Resolved r
      else Net.Rejected (Some (Net.status r))
  | NoAnswer => Net.Rejected None
  end.

(** The server as the scripts meet it, over an HTTP server. *)
Definition over (http : nat -> Net.Request -> Wire) : Net.Server :=
  fun n q => settle (http n q).

End Axios.

(** An HTTP server that opens every session, answers the first page of a
    list with a full page (25 applications, 500 branches) and every later
    page with status 500. *)
Definition http_failing_pages : nat -> Net.Request -> Axios.Wire :=
  fun _ q =>
    match q with
    | Net.PostForm _ _ =>
        Axios.Answer (sample_response 200 (Some ["access_token=abc.def; HttpOnly"])
                        None None None)
    | Net.GetPage _ _ off _ =>
        if (off =? 0)%N
        then Axios.Answer (sample_response 200 None None
                             (Some (map item (repeat "a" 25))) None)
        else Axios.Answer (sample_response 500 None None None None)
    | Net.GetTemplate _ off _ =>
        if (off =? 0)%N
        then Axios.Answer (sample_response 200 None None
                             (Some (repeat (branch "main" "p1") 500)) None)
        else Axios.Answer (sample_response 500 None None None None)
    | Net.GetRoleAssignments _ _ _ => Axios.NoAnswer
    end.

(** An HTTP server that opens every session and knows the role assignments
    of every project but [p2], for which it answers with status 404. *)
Definition http_missing_project : nat -> Net.Request -> Axios.Wire :=
  fun _ q =>
    match q with
    | Net.PostForm _ _ =>
        Axios.Answer (sample_response 200 (Some ["access_token=abc.def; HttpOnly"])
                        None None None)
    | Net.GetRoleAssignments _ id _ =>
        if String.eqb id "p2"
        then Axios.Answer (sample_response 404 None None None None)
        else Axios.Answer (sample_response 200 None None None (Some [person id]))
    | _ => Axios.NoAnswer
    end.

(** The session request of [sample_config] with the password "s3cret". *)
Definition session_request : Net.Request :=
  Net.PostForm "https://{customer}/auth/v1"
    [("email", JsString.units "a@x.com"); ("password", JsString.units "s3cret")].

(* ====================================================================== *)
(** * Properties *)
(* ====================================================================== *)

(** ** The session authenticator *)

Lemma usable_spec (c : option JsString.ustring) :
  usable c = true <-> exists s, c = Some s /\ JsString.trim s <> [].
Proof.
  unfold usable. destruct c as [s|].
  - split.
    + intros H. exists s. split; [reflexivity|].
      apply andb_true_iff in H. destruct H as [_ H].
      destruct (JsString.trim s); [discriminate | discriminate].
    + intros [s' [E H]]. injection E as <-.
      apply andb_true_iff. split.
      * destruct s as [|c s]; [|reflexivity].
        exfalso. apply H. reflexivity.
      * destruct (JsString.trim s); [exfalso; apply H; reflexivity | reflexivity].
  - split; [discriminate|]. intros [s [E _]]. discriminate.
Qed.

Lemma axios_request_sends (server : Net.Server) (q : Net.Request) (w : World) :
  exists w' r, axios_request server q w = Some (w', r) /\ sent_since w w' [q]
               /\ asked w' = asked w /\ files w' = files w.
Proof.
  unfold axios_request, sent_since.
  destruct (server (List.length (requests w)) q); eexists; eexists;
    (split; [reflexivity|]); simpl; auto.
Qed.

Lemma extract_token_world (r : Net.Response) (w : World) :
  exists o, extract_token r w = Some (w, o).
Proof.
  unfold extract_token.
  destruct (negb (present (cookie_token r)) && present (Net.jwt r)).
  - destruct (Net.jwt r) as [t|]; [destruct (JsString.truthy t)|]; eexists; reflexivity.
  - destruct (cookie_token r) as [t|]; [destruct (JsString.truthy t)|]; eexists; reflexivity.
Qed.

Lemma authenticate_sends (server : Net.Server) (cfg : Config) (authUrl authUrlV2 : string)
    (q : Net.Request) (w : World) :
  authConfig cfg authUrl authUrlV2 w = Some (w, Ok q) ->
  exists w' o, authenticate server cfg authUrl authUrlV2 w = Some (w', o)
               /\ sent_since w w' [q].
Proof.
  intros H. unfold authenticate, bind. rewrite H.
  destruct (axios_request_sends server q w) as [w' [r [E [S _]]]].
  rewrite E. destruct r as [resp|e].
  - destruct (extract_token_world resp w') as [o Eo]. rewrite Eo.
    exists w', o. split; [reflexivity | exact S].
  - exists w', (Throw e). split; [reflexivity | exact S].
Qed.

(** *** The token of the response *)

Lemma lacks_append (c : ascii) (s t : string) :
  lacks c (String.append s t) = lacks c s && lacks c t.
Proof.
  induction s as [|a s IH]; simpl; [reflexivity|].
  rewrite IH. apply andb_assoc.
Qed.

Lemma split_lacks (c : ascii) (s : string) :
  lacks c s = true -> JsString.split c s = [s].
Proof.
  induction s as [|a s IH]; simpl; [reflexivity|].
  intros H. apply andb_true_iff in H. destruct H as [Ha Hs].
  apply negb_true_iff in Ha. rewrite Ha, (IH Hs). reflexivity.
Qed.

Lemma split_at_first (c : ascii) (s rest : string) :
  lacks c s = true ->
  JsString.split c (String.append s (String c rest)) = s :: JsString.split c rest.
Proof.
  induction s as [|a s IH]; simpl.
  - intros _. rewrite Ascii.eqb_refl. reflexivity.
  - intros H. apply andb_true_iff in H. destruct H as [Ha Hs].
    apply negb_true_iff in Ha. rewrite Ha, (IH Hs). reflexivity.
Qed.

(** The header path on a cookie of the expected form: the value between
    [access_token=] and the first [;]. *)
Lemma cookie_token_value (r : Net.Response) (cookies : list string) (v rest : string) :
  Net.set_cookie r = Some cookies ->
  find (fun cookie => JsString.startsWith cookie "access_token=") cookies
  = Some (String.append "access_token=" (String.append v rest)) ->
  lacks ";" v = true -> lacks "=" v = true ->
  (rest = "" \/ exists rest', rest = String ";" rest') ->
  cookie_token r = Some v.
Proof.
  intros Hc Hf Hs He Hr. unfold cookie_token. rewrite Hc, Hf.
  assert (Hfirst : JsString.at_index
            (JsString.split ";" (String.append "access_token=" (String.append v rest))) 0
          = Some (String.append "access_token=" v)).
  { destruct Hr as [-> | [rest' ->]].
    - rewrite split_lacks.
      + simpl. replace (String.append v "") with v; [reflexivity|].
        clear. induction v; simpl; [reflexivity | f_equal; assumption].
      + rewrite lacks_append, lacks_append, Hs. reflexivity.
    - replace (String.append "access_token=" (String.append v (String ";" rest')))
        with (String.append (String.append "access_token=" v) (String ";" rest'))
        by reflexivity.
      rewrite split_at_first; [reflexivity|].
      rewrite lacks_append, Hs. reflexivity. }
  rewrite Hfirst.
  change (String.append "access_token=" v)
    with (String.append "access_token" (String "=" v)).
  rewrite split_at_first by reflexivity.
  rewrite (split_lacks _ _ He). reflexivity.
Qed.

(** C4.  The token is taken from the header path when that path yields a
    non-empty text, whatever the body holds; only when the header path
    yields nothing is the [jwt] of the body taken; when neither yields a
    token the authenticator throws "No access token found in the response."
    and whatever the script would do next is not done: the run ends with
    that error, after the one authentication request.  The header path
    yields the value of the first [access_token] cookie, the text between
    [access_token=] and the next [;]. *)
Theorem token_from_header_then_body (r : Net.Response) (w : World) :
  (forall t, cookie_token r = Some t -> JsString.truthy t = true ->
     extract_token r w = Some (w, Ok t))
  /\ (forall j, present (cookie_token r) = false ->
        Net.jwt r = Some j -> JsString.truthy j = true ->
        extract_token r w = Some (w, Ok j))
  /\ (present (cookie_token r) = false -> present (Net.jwt r) = false ->
        extract_token r w
        = Some (w, Throw (Error "No access token found in the response."))
        /\ forall (server : Net.Server) (cfg : Config) (authUrl authUrlV2 : string)
                  (q : Net.Request) (w0 : World) (B : Type) (next : string -> M B),
             authConfig cfg authUrl authUrlV2 w0 = Some (w0, Ok q) ->
             server (List.length (requests w0)) q = Net.Resolved r ->
             bind (authenticate server cfg authUrl authUrlV2) next w0
             = Some (sent q w0, Throw (Error "No access token found in the response.")))
  /\ (forall (cookies : list string) (v rest : string),
        Net.set_cookie r = Some cookies ->
        find (fun cookie => JsString.startsWith cookie "access_token=") cookies
        = Some (String.append "access_token=" (String.append v rest)) ->
        lacks ";" v = true -> lacks "=" v = true ->
        (rest = EmptyString \/ exists rest', rest = String ";" rest') ->
        cookie_token r = Some v).
Proof.
  split; [|split; [|split]]; [| | |apply cookie_token_value].
  - intros t Hc Ht. unfold extract_token. rewrite Hc. simpl. rewrite Ht. simpl.
    rewrite Ht. reflexivity.
  - intros j Hc Hj Ht. unfold extract_token. rewrite Hc, Hj. simpl. rewrite Ht.
    simpl. rewrite Ht. reflexivity.
  - intros Hc Hj.
    assert (E : forall w1, extract_token r w1
                = Some (w1, Throw (Error "No access token found in the response."))).
    { intros w1. unfold extract_token. rewrite Hc, Hj. simpl.
      destruct (cookie_token r) as [t|]; [|reflexivity].
      simpl in Hc. rewrite Hc. reflexivity. }
    split; [apply E|].
    intros server cfg authUrl authUrlV2 q w0 B next Ha Hs.
    unfold bind, authenticate, bind. rewrite Ha. unfold axios_request. rewrite Hs.
    rewrite E. reflexivity.
Qed.

Lemma token_from_header_then_body_witness :
  extract_token
    (sample_response 200 (Some ["sid=1; Path=/"; "access_token=abc.def; HttpOnly"])
       (Some "from-body") None None) (fresh_world [])
  = Some (fresh_world [], Ok "abc.def").
Proof.
  apply (proj1 (token_from_header_then_body
                  (sample_response 200
                     (Some ["sid=1; Path=/"; "access_token=abc.def; HttpOnly"])
                     (Some "from-body") None None) (fresh_world []))).
  - reflexivity.
  - reflexivity.
Defined.

(** ** The paginated fetch *)

Lemma turn_request_shift (base bearer : string) (limit off : N) (i : nat) :
  turn_request base bearer limit (off + limit) i
  = turn_request base bearer limit off (S i).
Proof. unfold turn_request. f_equal. lia. Qed.

Lemma turn_requests_cons (base bearer : string) (limit off : N) (n : nat) :
  map (turn_request base bearer limit off) (seq 0 (S n))
  = Net.GetPage base limit off bearer
    :: map (turn_request base bearer limit (off + limit)) (seq 0 n).
Proof.
  cbn [seq map]. f_equal.
  - unfold turn_request. f_equal. lia.
  - rewrite <- seq_shift, map_map. apply map_ext. intros i.
    symmetry. apply turn_request_shift.
Qed.

Lemma page_request_is_turn (base bearer : string) (limit : N) (i : nat) :
  Paging.page_request base bearer limit i = turn_request base bearer limit 0 i.
Proof. reflexivity. Qed.

Lemma map_seq_shift {A} (f g : nat -> A) (n : nat) :
  (forall i, f i = g (S i)) ->
  map f (seq 0 n) = map g (seq 1 n).
Proof.
  intros H. rewrite <- seq_shift, map_map. apply map_ext. exact H.
Qed.

Section PageLoop.
Variable server : Net.Server.
Variable A : Type.
Variable format : Net.Resource -> A.
Variables base bearer : string.
Variable limit : N.

Lemma page_loop_done (fuel : nat) (st : PageState A) (w : World) :
  more st = false ->
  page_loop server fuel base bearer limit format st w = Some (w, Ok (all st)).
Proof. intros H. destruct fuel; simpl; rewrite H; reflexivity. Qed.

(** The loop, turn by turn: as long as the replies are full pages the loop
    asks for the next offset, and the first reply that is not makes it
    return what it has. *)
Lemma page_loop_run (pages : list (list Net.Resource)) :
  forall (last : list Net.Resource) (st : PageState A) (w : World) (fuel : nat),
    more st = true ->
    (forall i, i < List.length pages ->
       Paging.full_page limit
         (server (List.length (requests w) + i)
                 (turn_request base bearer limit (offset st) i))
         (nth i pages [])) ->
    Paging.closes limit
      (server (List.length (requests w) + List.length pages)
              (turn_request base bearer limit (offset st) (List.length pages)))
      last ->
    List.length pages < fuel ->
    exists w',
      page_loop server fuel base bearer limit format st w
      = Some (w', Ok (all st ++ map format (List.concat pages ++ last)))
      /\ sent_since w w'
           (map (turn_request base bearer limit (offset st))
                (seq 0 (S (List.length pages))))
      /\ asked w' = asked w /\ files w' = files w /\ rl_open w' = rl_open w.
Proof.
  assert (T0 : forall off, turn_request base bearer limit off 0
                           = Net.GetPage base limit off bearer).
  { intros off. unfold turn_request. f_equal. lia. }
  induction pages as [|page pages IH]; intros last st w fuel Hmore Hfull Hlast Hfuel.
  - destruct fuel as [|fuel]; [inversion Hfuel|].
    cbn [List.length] in Hlast. rewrite Nat.add_0_r, T0 in Hlast.
    cbn [page_loop]. rewrite Hmore. unfold bind, page_turn, bind, axios_request.
    destruct Hlast as [[r [E [Hs [Hd Hn]]]] | [[r [E Hs]] ->]].
    + rewrite E, Hs, Hd. cbn [Z.eqb Pos.eqb].
      apply N.eqb_neq in Hn. rewrite Hn. unfold ret. cbv beta iota.
      rewrite page_loop_done by reflexivity.
      eexists; split; [reflexivity|]. unfold sent_since. cbn. rewrite T0. auto.
    + rewrite E. apply Z.eqb_neq in Hs. rewrite Hs. unfold ret. cbv beta iota.
      rewrite page_loop_done by reflexivity.
      cbn. rewrite app_nil_r.
      eexists; split; [reflexivity|]. unfold sent_since. cbn. rewrite T0. auto.
  - destruct fuel as [|fuel]; [inversion Hfuel|].
    destruct (Hfull 0 ltac:(cbn; lia)) as [r [E [Hs [Hd Hn]]]].
    rewrite Nat.add_0_r, T0 in E. cbn [nth] in Hd, Hn.
    cbn [page_loop]. rewrite Hmore. unfold bind at 1. unfold page_turn, bind, axios_request.
    rewrite E, Hs, Hd. cbn [Z.eqb Pos.eqb].
    apply N.eqb_eq in Hn. rewrite Hn. unfold ret. cbv beta iota.
    set (st' := {| offset := offset st + limit;
                   all := all st ++ map format page; more := true |}).
    destruct (IH last st' (sent (Net.GetPage base limit (offset st) bearer) w) fuel)
      as [w' [Erun [Hsent [Hasked [Hfiles Hrl]]]]].
    + reflexivity.
    + intros i Hi. cbn [offset st' requests sent]. rewrite turn_request_shift.
      rewrite length_app. cbn [List.length].
      replace (List.length (requests w) + 1 + i) with (List.length (requests w) + S i) by lia.
      apply (Hfull (S i)). cbn. lia.
    + cbn [offset st' requests sent]. rewrite turn_request_shift. rewrite length_app.
      cbn [List.length].
      replace (List.length (requests w) + 1 + List.length pages)
        with (List.length (requests w) + S (List.length pages)) by lia.
      exact Hlast.
    + cbn in Hfuel. lia.
    + exists w'. subst st'. cbn [all offset] in *. split.
      * rewrite Erun. cbn [List.concat]. rewrite !map_app, <- !app_assoc. reflexivity.
      * split; [|auto].
        unfold sent_since in *. rewrite Hsent. cbn [requests sent].
        rewrite <- app_assoc. cbn [List.length].
        rewrite (turn_requests_cons base bearer limit (offset st) (S (List.length pages))).
        reflexivity.
Qed.

(** Every request of the loop carries the page size and an offset that is
    a multiple of it further, whatever ends the loop. *)
Lemma page_loop_requests (fuel : nat) :
  forall (st : PageState A) (w w' : World) (o : outcome (list A)),
    page_loop server fuel base bearer limit format st w = Some (w', o) ->
    exists n, sent_since w w' (map (turn_request base bearer limit (offset st)) (seq 0 n)).
Proof.
  assert (T0 : forall off, turn_request base bearer limit off 0
                           = Net.GetPage base limit off bearer).
  { intros off. unfold turn_request. f_equal. lia. }
  induction fuel as [|fuel IH]; intros st w w' o H.
  - simpl in H. destruct (more st); [discriminate|].
    injection H as <- _. exists 0. unfold sent_since. simpl. symmetry. apply app_nil_r.
  - simpl in H. destruct (more st).
    + unfold bind at 1 in H. unfold page_turn, bind, axios_request in H.
      destruct (server (List.length (requests w)) (Net.GetPage base limit (offset st) bearer))
        as [r|s].
      * destruct (Net.status r =? 200)%Z.
        -- destruct (Net.data r) as [items|].
           ++ apply IH in H. destruct H as [n Hn]. exists (S n).
              unfold sent_since in *. rewrite Hn. cbn [requests sent offset].
              rewrite <- app_assoc, turn_requests_cons. reflexivity.
           ++ injection H as <- _. exists 1. unfold sent_since. simpl.
              rewrite T0. reflexivity.
        -- unfold ret in H. cbv beta iota in H.
           rewrite page_loop_done in H by reflexivity.
           injection H as <- _. exists 1. unfold sent_since. simpl.
           rewrite T0. reflexivity.
      * injection H as <- _. exists 1. unfold sent_since. simpl. rewrite T0. reflexivity.
    + injection H as <- _. exists 0. unfold sent_since. simpl. symmetry. apply app_nil_r.
Qed.

(** As long as the replies are full pages the loop has not returned: there
    is no cap on the number of pages. *)
Lemma page_loop_keeps_asking (fuel : nat) :
  forall (st : PageState A) (w : World),
    more st = true ->
    (forall i, i < fuel ->
       exists items,
         Paging.full_page limit
           (server (List.length (requests w) + i)
                   (turn_request base bearer limit (offset st) i))
           items) ->
    page_loop server fuel base bearer limit format st w = None.
Proof.
  induction fuel as [|fuel IH]; intros st w Hmore Hfull; cbn [page_loop]; rewrite Hmore.
  - reflexivity.
  - destruct (Hfull 0 ltac:(lia)) as [items [r [E [Hs [Hd Hn]]]]].
    rewrite Nat.add_0_r in E. unfold turn_request in E. cbn in E.
    replace (offset st + 0)%N with (offset st) in E by lia.
    unfold bind at 1. unfold page_turn, bind, axios_request.
    rewrite E, Hs, Hd. cbn [Z.eqb Pos.eqb].
    apply N.eqb_eq in Hn. rewrite Hn. unfold ret. cbv beta iota.
    apply IH; [reflexivity|].
    intros i Hi. cbn [offset requests sent]. rewrite turn_request_shift.
    rewrite length_app. cbn [List.length].
    replace (List.length (requests w) + 1 + i) with (List.length (requests w) + S i) by lia.
    apply Hfull. lia.
Qed.

End PageLoop.

Lemma branch_requests_cons (template bearer : string) (off : N) (n : nat) :
  map (fun i => Net.GetTemplate template (off + N.of_nat i * 500) bearer) (seq 0 (S n))
  = Net.GetTemplate template off bearer
    :: map (fun i => Net.GetTemplate template (off + 500 + N.of_nat i * 500) bearer) (seq 0 n).
Proof.
  cbn [seq map]. f_equal.
  - f_equal. lia.
  - rewrite <- seq_shift, map_map. apply map_ext. intros i. f_equal. lia.
Qed.

Section BranchLoop.
Variable server : Net.Server.
Variables template bearer : string.

Lemma branch_loop_done (fuel : nat) (st : PageState Net.Resource) (w : World) :
  more st = false ->
  branch_loop server fuel template bearer st w = Some (w, Ok (all st)).
Proof. intros H. destruct fuel; simpl; rewrite H; reflexivity. Qed.

(** One turn on a reply that ends the loop. *)
Lemma branch_turn_closes (st : PageState Net.Resource) (w : World)
    (last : list Net.Resource) :
  Paging.closes_branches
    (server (List.length (requests w)) (Net.GetTemplate template (offset st) bearer)) last ->
  exists st',
    branch_turn server template bearer st w
    = Some (sent (Net.GetTemplate template (offset st) bearer) w, Ok st')
    /\ more st' = false /\ all st' = all st ++ last.
Proof.
  unfold branch_turn, try_catch, bind, axios_request.
  intros [[r [E [Hs [Hd Hn]]]] | [[[r [E Hs]] | [[r [E [Hs Hd]]] | [s E]]] ->]];
    rewrite E.
  - rewrite Hs, Hd. cbn [Z.eqb Pos.eqb]. apply N.eqb_neq in Hn. rewrite Hn.
    eexists. split; [reflexivity|]. split; reflexivity.
  - apply Z.eqb_neq in Hs. rewrite Hs.
    eexists. split; [reflexivity|]. split; [reflexivity|]. cbn. symmetry. apply app_nil_r.
  - rewrite Hs, Hd. cbn [Z.eqb Pos.eqb].
    eexists. split; [reflexivity|]. split; [reflexivity|]. cbn. symmetry. apply app_nil_r.
  - eexists. split; [reflexivity|]. split; [reflexivity|]. cbn. symmetry. apply app_nil_r.
Qed.

Lemma branch_loop_run (pages : list (list Net.Resource)) :
  forall (last : list Net.Resource) (st : PageState Net.Resource) (w : World) (fuel : nat),
    more st = true ->
    (forall i, i < List.length pages ->
       Paging.full_page 500
         (server (List.length (requests w) + i)
                 (Net.GetTemplate template (offset st + N.of_nat i * 500) bearer))
         (nth i pages [])) ->
    Paging.closes_branches
      (server (List.length (requests w) + List.length pages)
              (Net.GetTemplate template
                 (offset st + N.of_nat (List.length pages) * 500) bearer))
      last ->
    List.length pages < fuel ->
    exists w',
      branch_loop server fuel template bearer st w
      = Some (w', Ok (all st ++ List.concat pages ++ last))
      /\ sent_since w w'
           (map (fun i => Net.GetTemplate template (offset st + N.of_nat i * 500) bearer)
                (seq 0 (S (List.length pages)))).
Proof.
  induction pages as [|page pages IH]; intros last st w fuel Hmore Hfull Hlast Hfuel.
  - destruct fuel as [|fuel]; [inversion Hfuel|].
    cbn [List.length] in Hlast. rewrite Nat.add_0_r in Hlast.
    replace (offset st + N.of_nat 0 * 500)%N with (offset st) in Hlast by lia.
    destruct (branch_turn_closes st w Hlast) as [st' [E [Hm Ha]]].
    cbn [branch_loop]. rewrite Hmore. unfold bind. rewrite E.
    rewrite branch_loop_done by exact Hm. rewrite Ha.
    eexists. split; [reflexivity|].
    unfold sent_since. cbn.
    replace (offset st + 0)%N with (offset st) by lia. reflexivity.
  - destruct fuel as [|fuel]; [inversion Hfuel|].
    destruct (Hfull 0 ltac:(cbn; lia)) as [r [E [Hs [Hd Hn]]]].
    rewrite Nat.add_0_r in E.
    replace (offset st + N.of_nat 0 * 500)%N with (offset st) in E by lia.
    cbn [nth] in Hd, Hn.
    cbn [branch_loop]. rewrite Hmore. unfold bind at 1.
    unfold branch_turn, try_catch, bind, axios_request.
    rewrite E, Hs, Hd. cbn [Z.eqb Pos.eqb].
    apply N.eqb_eq in Hn. rewrite Hn. unfold ret. cbv beta iota.
    set (st' := {| offset := offset st + 500; all := all st ++ page; more := true |}).
    destruct (IH last st' (sent (Net.GetTemplate template (offset st) bearer) w) fuel)
      as [w' [Erun Hsent]].
    + reflexivity.
    + intros i Hi. subst st'. cbn [offset requests sent].
      rewrite length_app. cbn [List.length].
      replace (List.length (requests w) + 1 + i) with (List.length (requests w) + S i) by lia.
      replace (offset st + 500 + N.of_nat i * 500)%N
        with (offset st + N.of_nat (S i) * 500)%N by lia.
      apply (Hfull (S i)). cbn. lia.
    + subst st'. cbn [offset requests sent]. rewrite length_app. cbn [List.length].
      replace (List.length (requests w) + 1 + List.length pages)
        with (List.length (requests w) + S (List.length pages)) by lia.
      replace (offset st + 500 + N.of_nat (List.length pages) * 500)%N
        with (offset st + N.of_nat (S (List.length pages)) * 500)%N by lia.
      exact Hlast.
    + cbn in Hfuel. lia.
    + exists w'. subst st'. cbn [all offset] in *. split.
      * rewrite Erun. cbn [List.concat]. rewrite <- !app_assoc. reflexivity.
      * unfold sent_since in *. rewrite Hsent. cbn [requests sent].
        rewrite <- app_assoc. cbn [List.length].
        rewrite (branch_requests_cons template bearer (offset st) (S (List.length pages))).
        reflexivity.
Qed.

End BranchLoop.

Lemma length_concat_total {A} (pages : list (list A)) :
  List.length (List.concat pages) = Paging.total_length pages.
Proof.
  unfold Paging.total_length.
  induction pages as [|p ps IH]; cbn; [reflexivity|].
  rewrite length_app, IH. reflexivity.
Qed.

(** The paginated fetch over the replies that axios resolves.  It starts
    at offset 0 and asks for the offsets 0, limit, 2 limit, ... one after the
    other: after every reply with status 200 that carries exactly [limit]
    items it asks for the next offset, and the first resolved reply that is
    anything else ends it, namely a reply with status 200 and an item count
    different from [limit] (fewer or more), or a reply with another status
    that axios resolves.  It then returns the items of all the pages with
    status 200, in order, so their number is the sum of the lengths of those
    pages.  The fetch of the branches does the same with the page size 500,
    and also ends, with the items gathered so far, on a rejected request and
    on a reply without a [data] array.  What a rejected request does to the
    other fetches is the matter of [page_loop_fails] and of the theorem on
    the HTTP errors below. *)
Lemma paginated_fetch_runs_to_first_other_page :
  (forall (server : Net.Server) (A : Type) (format : Net.Resource -> A)
          (base bearer : string) (limit : N)
          (pages : list (list Net.Resource)) (last : list Net.Resource)
          (w : World) (fuel : nat),
      (forall i, i < List.length pages ->
         Paging.full_page limit
           (server (List.length (requests w) + i)
                   (Paging.page_request base bearer limit i))
           (nth i pages [])) ->
      Paging.closes limit
        (server (List.length (requests w) + List.length pages)
                (Paging.page_request base bearer limit (List.length pages)))
        last ->
      List.length pages < fuel ->
      exists w',
        paginate server fuel base bearer limit format w
        = Some (w', Ok (map format (List.concat pages ++ last)))
        /\ sent_since w w'
             (map (Paging.page_request base bearer limit) (seq 0 (S (List.length pages))))
        /\ List.length (map format (List.concat pages ++ last))
           = Paging.total_length pages + List.length last)
  /\ (forall (server : Net.Server) (template bearer : string)
             (pages : list (list Net.Resource)) (last : list Net.Resource)
             (w : World) (fuel : nat),
      (forall i, i < List.length pages ->
         Paging.full_page 500
           (server (List.length (requests w) + i)
                   (Paging.branch_request template bearer i))
           (nth i pages [])) ->
      Paging.closes_branches
        (server (List.length (requests w) + List.length pages)
                (Paging.branch_request template bearer (List.length pages)))
        last ->
      List.length pages < fuel ->
      exists w',
        branch_loop server fuel template bearer (page_start Net.Resource) w
        = Some (w', Ok (List.concat pages ++ last))
        /\ sent_since w w'
             (map (Paging.branch_request template bearer) (seq 0 (S (List.length pages))))
        /\ List.length (List.concat pages ++ last)
           = Paging.total_length pages + List.length last).
Proof.
  split.
  - intros server A format base bearer limit pages last w fuel Hfull Hlast Hfuel.
    destruct (@page_loop_run server A format base bearer limit pages last
                (page_start A) w fuel) as [w' [E [S _]]];
      try assumption; try reflexivity.
    exists w'. split; [exact E|]. split; [exact S|].
    rewrite length_map, length_app, length_concat_total. reflexivity.
  - intros server template bearer pages last w fuel Hfull Hlast Hfuel.
    destruct (@branch_loop_run server template bearer pages last
                (page_start Net.Resource) w fuel) as [w' [E S]];
      try assumption; try reflexivity.
    exists w'. split; [exact E|]. split; [exact S|].
    rewrite length_app, length_concat_total. reflexivity.
Qed.

Lemma paginated_fetch_runs_to_first_other_page_witness :
  exists w',
    paginate short_tail_server 3 "base" "t" 2 (fun x => x) (fresh_world [])
    = Some (w', Ok (map (fun x => x)
                      (List.concat [[item "a"; item "b"]; [item "a"; item "b"]]
                       ++ [item "c"])))
    /\ sent_since (fresh_world []) w'
         (map (Paging.page_request "base" "t" 2) (seq 0 3))
    /\ List.length (map (fun x : Net.Resource => x)
                      (List.concat [[item "a"; item "b"]; [item "a"; item "b"]]
                       ++ [item "c"]))
       = Paging.total_length [[item "a"; item "b"]; [item "a"; item "b"]]
         + List.length [item "c"].
Proof.
  apply (proj1 paginated_fetch_runs_to_first_other_page
           short_tail_server Net.Resource (fun x => x) "base" "t" 2%N
           [[item "a"; item "b"]; [item "a"; item "b"]] [item "c"] (fresh_world []) 3).
  - intros i Hi. destruct i as [|[|i]].
    + eexists. repeat split; reflexivity.
    + eexists. repeat split; reflexivity.
    + simpl in Hi. lia.
  - left. eexists. split; [reflexivity|]. repeat split; try reflexivity.
    discriminate.
  - simpl. lia.
Defined.

(** The loop goes on when the item count equals the page size, not when
    it reaches it: a page of three items for a page size of two is not
    shorter than the page size and has status 200, and the server has more
    pages to give, yet the fetch ends after this one request. *)
Lemma oversized_page_ends_the_fetch :
  generous_server 0 (Net.GetPage "base" 2 0 "t")
  = page_of [item "a"; item "b"; item "c"]
  /\ generous_server 1 (Net.GetPage "base" 2 2 "t")
     = page_of [item "a"; item "b"; item "c"]
  /\ ~ (N.of_nat (List.length [item "a"; item "b"; item "c"]) < 2)%N
  /\ paginate generous_server 10 "base" "t" 2 (fun x => x) (fresh_world [])
     = Some (sent (Net.GetPage "base" 2 0 "t") (fresh_world []),
             Ok [item "a"; item "b"; item "c"]).
Proof.
  split; [reflexivity|]. split; [reflexivity|]. split; [|reflexivity].
  cbn. lia.
Qed.

(** C1.  An HTTP error loses the pages already received.  The HTTP server
    answers the first request for applications with a full page of 25 and
    the second with status 500.  axios turns that answer into a rejected
    request, so the pagination loop of getApplicationList.mjs ends with the
    error and not with the 25 applications it holds; the script, and the
    applications stage of main.mjs, leave by their [catch]: the stage
    returns the empty array, and neither writes an artifact.  The branches
    stage of main.mjs, whose loop catches the error itself, meets the same
    answer after a full page of 500, returns that page and stores it. *)
Theorem http_error_drops_the_pages :
  Axios.over http_failing_pages 1
    (Net.GetPage "https://{customer}/applications" 25 0 "abc.def")
  = page_of (map item (repeat "a" 25))
  /\ Axios.over http_failing_pages 2
       (Net.GetPage "https://{customer}/applications" 25 25 "abc.def")
     = Net.Rejected (Some 500%Z)
  /\ paginate (Axios.over http_failing_pages) 5 "https://{customer}/applications"
       "abc.def" 25 GetApplicationList.formatApplication
       (authenticated_world ["../output"])
     = Some ({| requests :=
                  [session_request;
                   Net.GetPage "https://{customer}/applications" 25 0 "abc.def";
                   Net.GetPage "https://{customer}/applications" 25 25 "abc.def"];
                asked := []; files := ["../output"]; rl_open := true |},
             Throw (AxiosError (Some 500%Z)))
  /\ GetApplicationList.fetchApplicationsWithAuth (Axios.over http_failing_pages)
       (fun _ => "yes") simple_replace 5
       (Some (sample_config (Some (JsString.units "s3cret")) None)) (fresh_world [])
     = Some ({| requests :=
                  [session_request;
                   Net.GetPage "https://{customer}/applications" 25 0 "abc.def";
                   Net.GetPage "https://{customer}/applications" 25 25 "abc.def"];
                asked := []; files := ["../output"]; rl_open := false |},
             Ok tt)
  /\ Main.fetchApplicationsWithAuth (Axios.over http_failing_pages)
       (fun _ => "yes") simple_replace 5
       (Some (sample_config (Some (JsString.units "s3cret")) None)) (fresh_world [])
     = Some ({| requests :=
                  [session_request;
                   Net.GetPage "https://{customer}/applications" 25 0 "abc.def";
                   Net.GetPage "https://{customer}/applications" 25 25 "abc.def"];
                asked := []; files := ["./output"]; rl_open := false |},
             Ok [])
  /\ Branches.fetchBranchesWithAuth (Axios.over http_failing_pages)
       simple_replace failing_question 5
       (Some (sample_config (Some (JsString.units "s3cret")) None)) (fresh_world [])
     = Some ({| requests :=
                  [session_request;
                   Net.GetTemplate "https://{customer}/branches?o={offset}" 0 "abc.def";
                   Net.GetTemplate "https://{customer}/branches?o={offset}" 500 "abc.def"];
                asked := [];
                files := ["./output"; "./output/branchesList.json"];
                rl_open := false |},
             Ok (repeat (branch "main" "p1") 500)).
Proof.
  split; [reflexivity|]. split; [reflexivity|].
  split; [vm_compute; reflexivity|]. split; [vm_compute; reflexivity|].
  split; vm_compute; reflexivity.
Qed.

(** ** What a script sends *)

Lemma sends_quiet (P : Net.Request -> Prop) {A} (m : M A) :
  (forall w w' o, m w = Some (w', o) -> requests w' = requests w) ->
  sends P m.
Proof.
  intros H w w' o E. exists []. split; [|constructor].
  rewrite (H _ _ _ E). symmetry. apply app_nil_r.
Qed.

Lemma sends_ret (P : Net.Request -> Prop) {A} (a : A) : sends P (ret a).
Proof. apply sends_quiet. intros w w' o E. injection E as <- _. reflexivity. Qed.

Lemma sends_throw (P : Net.Request -> Prop) {A} (e : exn) : sends P (@throw A e).
Proof. apply sends_quiet. intros w w' o E. injection E as <- _. reflexivity. Qed.

Lemma sends_bind (P : Net.Request -> Prop) {A B} (m : M A) (k : A -> M B) :
  sends P m -> (forall a, sends P (k a)) -> sends P (bind m k).
Proof.
  intros Hm Hk w w' o E. unfold bind in E.
  destruct (m w) as [[w1 [a|e]]|] eqn:Em; [| |discriminate].
  - destruct (Hm _ _ _ Em) as [qs [E1 F1]].
    destruct (Hk a _ _ _ E) as [qs' [E2 F2]].
    exists (qs ++ qs'). split.
    + rewrite E2, E1. symmetry. apply app_assoc.
    + apply Forall_app. split; assumption.
  - injection E as <- _. exact (Hm _ _ _ Em).
Qed.

Lemma sends_try_catch (P : Net.Request -> Prop) {A} (m : M A) (h : exn -> M A) :
  sends P m -> (forall e, sends P (h e)) -> sends P (try_catch m h).
Proof.
  intros Hm Hh w w' o E. unfold try_catch in E.
  destruct (m w) as [[w1 [a|e]]|] eqn:Em; [| |discriminate].
  - injection E as <- _. exact (Hm _ _ _ Em).
  - destruct (Hm _ _ _ Em) as [qs [E1 F1]].
    destruct (Hh e _ _ _ E) as [qs' [E2 F2]].
    exists (qs ++ qs'). split.
    + rewrite E2, E1. symmetry. apply app_assoc.
    + apply Forall_app. split; assumption.
Qed.

Lemma sends_try_finally (P : Net.Request -> Prop) {A} (m : M A) (f : World -> World) :
  sends P m -> (forall w, requests (f w) = requests w) -> sends P (try_finally m f).
Proof.
  intros Hm Hf w w' o E. unfold try_finally in E.
  destruct (m w) as [[w1 r]|] eqn:Em; [|discriminate].
  injection E as <- _. rewrite Hf. exact (Hm _ _ _ Em).
Qed.

Lemma sends_axios (P : Net.Request -> Prop) (server : Net.Server) (q : Net.Request) :
  P q -> sends P (axios_request server q).
Proof.
  intros Hq w w' o E. exists [q]. split; [|constructor; [exact Hq | constructor]].
  unfold axios_request in E.
  destruct (server (List.length (requests w)) q); injection E as <- _; reflexivity.
Qed.

Lemma sends_file_exists (P : Net.Request -> Prop) (path : string) :
  sends P (file_exists path).
Proof. apply sends_quiet. intros w w' o E. injection E as <- _. reflexivity. Qed.

Lemma sends_unlink (P : Net.Request -> Prop) (path : string) : sends P (unlink path).
Proof. apply sends_quiet. intros w w' o E. injection E as <- _. reflexivity. Qed.

Lemma sends_writeFile (P : Net.Request -> Prop) (path : string) : sends P (writeFile path).
Proof. apply sends_quiet. intros w w' o E. injection E as <- _. reflexivity. Qed.

Lemma sends_askQuestion (P : Net.Request -> Prop) (answers : nat -> string) (q : string) :
  sends P (askQuestion answers q).
Proof. apply sends_quiet. intros w w' o E. injection E as <- _. reflexivity. Qed.

Lemma sends_close_rl (P : Net.Request -> Prop) : sends P close_rl.
Proof. apply sends_quiet. intros w w' o E. injection E as <- _. reflexivity. Qed.

Ltac sends_step :=
  lazymatch goal with
  | |- sends _ (bind _ _) => apply sends_bind; [|intro]
  | |- sends _ (try_catch _ _) => apply sends_try_catch; [|intro]
  | |- sends _ (try_finally _ rl_close) => apply sends_try_finally; [|reflexivity]
  | |- sends _ (ret _) => apply sends_ret
  | |- sends _ (throw _) => apply sends_throw
  | |- sends _ (file_exists _) => apply sends_file_exists
  | |- sends _ (unlink _) => apply sends_unlink
  | |- sends _ (writeFile _) => apply sends_writeFile
  | |- sends _ (askQuestion _ _) => apply sends_askQuestion
  | |- sends _ close_rl => apply sends_close_rl
  | |- sends _ (axios_request _ _) => apply sends_axios
  | |- sends _ (if ?b then _ else _) => destruct b
  | |- sends _ (match ?x with _ => _ end) => destruct x
  end.

Lemma sends_guard (P : Net.Request -> Prop) (answers : nat -> string) (path question : string) :
  sends P (overwrite_guard answers path question).
Proof. unfold overwrite_guard. repeat sends_step. Qed.

Lemma sends_ensure (P : Net.Request -> Prop) (dir : string) :
  sends P (ensureOutputDirectoryExists dir).
Proof. unfold ensureOutputDirectoryExists. repeat sends_step. Qed.

Lemma sends_fill (P : Net.Request -> Prop) (replace : string -> string -> string -> string)
    (t : option string) (cfg : Config) :
  sends P (fill replace t cfg).
Proof. unfold fill. repeat sends_step. Qed.

Lemma sends_read_config (P : Net.Request -> Prop) (config : option Config) :
  sends P (read_config config).
Proof. unfold read_config. repeat sends_step. Qed.

Lemma sends_authenticate (size : N) (server : Net.Server) (cfg : Config) (u1 u2 : string) :
  sends (asks_pages_of size) (authenticate server cfg u1 u2).
Proof.
  assert (H : forall q, asks_pages_of size q ->
              sends (asks_pages_of size)
                (bind (ret q) (fun request =>
                   bind (axios_request server request) extract_token))).
  { intros q Hq w w' o E. change (bind (axios_request server q) extract_token w
                                   = Some (w', o)) in E.
    revert w w' o E. apply sends_bind; [apply sends_axios; exact Hq|].
    intros r. unfold extract_token. repeat sends_step. }
  unfold authenticate, authConfig.
  destruct (usable (password cfg)); [apply H; exact I|].
  destruct (usable (accesstoken cfg)); [apply H; exact I|].
  apply sends_quiet. intros w w' o E. injection E as <- _. reflexivity.
Qed.

Lemma sends_paginate (size : N) (server : Net.Server) {A} (format : Net.Resource -> A)
    (fuel : nat) (base bearer : string) :
  sends (asks_pages_of size) (paginate server fuel base bearer size format).
Proof.
  intros w w' o E. unfold paginate in E.
  destruct (page_loop_requests _ _ _ _ _ _ _ _ E) as [n Hn].
  eexists. split; [exact Hn|].
  apply Forall_forall. intros q Hq. apply in_map_iff in Hq.
  destruct Hq as [i [<- _]]. reflexivity.
Qed.

Lemma sends_role_loop (size : N) (server : Net.Server) (cust bearer : string)
    (ps : list Project) :
  forall acc, sends (asks_pages_of size) (role_loop server cust bearer ps acc).
Proof.
  induction ps as [|p ps IH]; intros acc; cbn [role_loop].
  - apply sends_ret.
  - repeat sends_step; try exact I; apply IH.
Qed.

Lemma branch_loop_requests (server : Net.Server) (template bearer : string) (fuel : nat) :
  forall (st : PageState Net.Resource) (w w' : World) (o : outcome (list Net.Resource)),
    branch_loop server fuel template bearer st w = Some (w', o) ->
    exists n,
      sent_since w w'
        (map (fun i => Net.GetTemplate template (offset st + N.of_nat i * 500) bearer)
             (seq 0 n)).
Proof.
  induction fuel as [|fuel IH]; intros st w w' o H.
  - simpl in H. destruct (more st); [discriminate|].
    injection H as <- _. exists 0. unfold sent_since. simpl. symmetry. apply app_nil_r.
  - cbn [branch_loop] in H. destruct (more st).
    + unfold bind at 1 in H. unfold branch_turn, try_catch, bind, axios_request in H.
      assert (One : sent_since w (sent (Net.GetTemplate template (offset st) bearer) w)
                      (map (fun i => Net.GetTemplate template
                                       (offset st + N.of_nat i * 500) bearer) (seq 0 1))).
      { unfold sent_since. cbn. replace (offset st + 0)%N with (offset st) by lia.
        reflexivity. }
      destruct (server (List.length (requests w)) (Net.GetTemplate template (offset st) bearer))
        as [r|s].
      * destruct (Net.status r =? 200)%Z.
        -- destruct (Net.data r) as [items|].
           ++ unfold ret in H. cbv beta iota in H.
              apply IH in H. destruct H as [n Hn]. exists (S n).
              unfold sent_since in *. rewrite Hn. cbn [requests sent offset].
              rewrite <- app_assoc, branch_requests_cons. reflexivity.
           ++ unfold throw, ret in H. cbv beta iota in H.
              rewrite branch_loop_done in H by reflexivity.
              injection H as <- _. exists 1. exact One.
        -- unfold ret in H. cbv beta iota in H.
           rewrite branch_loop_done in H by reflexivity.
           injection H as <- _. exists 1. exact One.
      * unfold ret in H. cbv beta iota in H.
        rewrite branch_loop_done in H by reflexivity.
        injection H as <- _. exists 1. exact One.
    + injection H as <- _. exists 0. unfold sent_since. simpl. symmetry. apply app_nil_r.
Qed.

Ltac sends_script :=
  repeat first
    [ apply sends_ensure | apply sends_guard | apply sends_read_config
    | apply sends_fill | apply sends_authenticate | apply sends_paginate
    | apply sends_role_loop | sends_step ].

(** Without a credential that counts, the authenticator throws and the
    script does not reach what follows. *)
Lemma sends_without_credentials (P : Net.Request -> Prop) (server : Net.Server)
    (cfg : Config) (u1 u2 : string) {B} (next : string -> M B) :
  usable (password cfg) = false -> usable (accesstoken cfg) = false ->
  sends P (bind (authenticate server cfg u1 u2) next).
Proof.
  intros Hp Ht. apply sends_quiet. intros w w' o E.
  unfold bind, authenticate, bind, authConfig in E. rewrite Hp, Ht in E.
  injection E as <- _. reflexivity.
Qed.

Lemma sends_nothing {A} (m : M A) (w w' : World) (o : outcome A) :
  sends (fun _ => False) m -> m w = Some (w', o) -> requests w' = requests w.
Proof.
  intros S E. destruct (S _ _ _ E) as [qs [Eq F]].
  destruct qs as [|q qs]; [rewrite Eq; apply app_nil_r|].
  inversion F as [|? ? Hq _]. contradiction Hq.
Qed.

Ltac sends_quietly Hp Ht :=
  repeat first
    [ apply sends_ensure | apply sends_guard | apply sends_fill
    | lazymatch goal with
      | |- sends ?P (bind (ret ?a) ?k) => change (sends P (k a)); cbv beta
      end
    | apply sends_without_credentials; [exact Hp | exact Ht]
    | sends_step ].

(** C3, as amended.  A credential counts when it is present and not blank,
    that is, when [trim] leaves something of it.  With a password that
    counts, the one request of the authenticator is a POST of [email] and
    [password] to the v1 URL; otherwise, with an access token that counts, it
    is a POST of [email] and [accesstoken] to the v2 URL; with neither, the
    authenticator throws "Neither password nor access token is provided in
    the config." and the world is as before: nothing was sent, and the
    scripts getApplicationList.mjs and getProjectUserInformation.mjs end
    without a request. *)
Theorem authenticator_chooses_endpoint
    (server : Net.Server) (cfg : Config) (authUrl authUrlV2 : string) (w : World) :
  (usable (password cfg) = true ->
     exists w' o,
       authenticate server cfg authUrl authUrlV2 w = Some (w', o)
       /\ sent_since w w'
            [Net.PostForm authUrl
               [("email", email cfg);
                ("password", credential_value (password cfg))]])
  /\ (usable (password cfg) = false -> usable (accesstoken cfg) = true ->
     exists w' o,
       authenticate server cfg authUrl authUrlV2 w = Some (w', o)
       /\ sent_since w w'
            [Net.PostForm authUrlV2
               [("email", email cfg);
                ("accesstoken", credential_value (accesstoken cfg))]])
  /\ (usable (password cfg) = false -> usable (accesstoken cfg) = false ->
     authenticate server cfg authUrl authUrlV2 w
     = Some (w, Throw (Error "Neither password nor access token is provided in the config."))
     /\ forall (answers : nat -> string) (replace : string -> string -> string -> string)
               (fuel : nat) (stored : outcome (list Project)) (w' : World)
               (o : outcome unit),
          (GetApplicationList.fetchApplicationsWithAuth server answers replace fuel
             (Some cfg) w = Some (w', o) -> requests w' = requests w)
          /\ (GetProjectUserInformation.fetchProjectsWithAuth server replace fuel
                (Some cfg) stored w = Some (w', o) -> requests w' = requests w)).
Proof.
  split; [|split].
  - intros Hp. apply authenticate_sends. unfold authConfig. rewrite Hp. reflexivity.
  - intros Hp Ht. apply authenticate_sends. unfold authConfig. rewrite Hp, Ht. reflexivity.
  - intros Hp Ht. split.
    + unfold authenticate, bind, authConfig. rewrite Hp, Ht. reflexivity.
    + intros answers replace fuel stored w' o. split; apply sends_nothing.
      * unfold GetApplicationList.fetchApplicationsWithAuth,
          GetApplicationList.fetch_and_store, read_config.
        sends_quietly Hp Ht.
      * unfold GetProjectUserInformation.fetchProjectsWithAuth,
          GetProjectUserInformation.fetch_projects,
          GetProjectUserInformation.fetch_details, read_config.
        sends_quietly Hp Ht.
Qed.

Lemma authenticator_chooses_endpoint_witness :
  usable (password (sample_config (Some (JsString.units "s3cret")) None)) = true
  /\ exists w' o,
       authenticate cookie_server
         (sample_config (Some (JsString.units "s3cret")) None) "v1" "v2" (fresh_world [])
       = Some (w', o)
       /\ sent_since (fresh_world []) w'
            [Net.PostForm "v1"
               [("email", JsString.units "a@x.com");
                ("password", JsString.units "s3cret")]].
Proof.
  split; [reflexivity|].
  apply (proj1 (authenticator_chooses_endpoint cookie_server
                  (sample_config (Some (JsString.units "s3cret")) None)
                  "v1" "v2" (fresh_world []))).
  reflexivity.
Defined.

(** C3 as stated fails: a password of one space is not empty, yet the
    request goes to the v2 URL with the access token. *)
Lemma blank_password_goes_to_token_endpoint :
  password (sample_config (Some [32%N]) (Some (JsString.units "tok"))) = Some [32%N]
  /\ JsString.utruthy [32%N] = true
  /\ exists w' o,
       authenticate cookie_server
         (sample_config (Some [32%N]) (Some (JsString.units "tok"))) "v1" "v2"
         (fresh_world [])
       = Some (w', o)
       /\ requests w'
          = [Net.PostForm "v2"
               [("email", JsString.units "a@x.com");
                ("accesstoken", JsString.units "tok")]].
Proof.
  split; [reflexivity|]. split; [reflexivity|].
  eexists; eexists. split; [vm_compute; reflexivity | reflexivity].
Qed.

(** C2, as amended.  The page size is a parameter of each fetch, and every
    page request of a fetch carries it: 25 in the two fetches of the
    applications, 500 in the fetch of the projects of
    getProjectUserInformation.mjs and of main.mjs, 5 in the fetch of the
    projects of getProjectProperties.mjs; the fetch of the branches moves its
    offset in steps of 500. *)
Theorem page_size_of_each_fetch
    (server : Net.Server) (answers : nat -> string)
    (replace : string -> string -> string -> string)
    (fuel : nat) (config : option Config) (stored : outcome (list Project)) :
  sends (asks_pages_of 25)
    (GetApplicationList.fetchApplicationsWithAuth server answers replace fuel config)
  /\ sends (asks_pages_of 25)
       (Main.fetchApplicationsWithAuth server answers replace fuel config)
  /\ sends (asks_pages_of 500)
       (GetProjectUserInformation.fetchProjectsWithAuth server replace fuel config stored)
  /\ sends (asks_pages_of 500)
       (Main.fetchProjectsWithAuth server replace fuel config stored)
  /\ sends (asks_pages_of 5)
       (GetProjectProperties.fetchProjectsWithAuth server answers replace fuel config)
  /\ (forall template bearer w w' o,
        branch_loop server fuel template bearer (page_start Net.Resource) w = Some (w', o) ->
        exists n, sent_since w w' (map (Paging.branch_request template bearer) (seq 0 n))).
Proof.
  repeat split.
  - unfold GetApplicationList.fetchApplicationsWithAuth, GetApplicationList.fetch_and_store.
    sends_script.
  - unfold Main.fetchApplicationsWithAuth, Main.applications_fetch_and_store.
    sends_script.
  - unfold GetProjectUserInformation.fetchProjectsWithAuth,
      GetProjectUserInformation.fetch_projects, GetProjectUserInformation.fetch_details.
    sends_script.
  - unfold Main.fetchProjectsWithAuth, Main.projects_fetch.
    sends_script.
  - unfold GetProjectProperties.fetchProjectsWithAuth, GetProjectProperties.fetch_and_store.
    sends_script.
  - intros template bearer w w' o H.
    exact (branch_loop_requests _ _ _ _ _ _ H).
Qed.

Lemma page_size_of_each_fetch_witness :
  exists qs,
    requests after_project_properties = requests (fresh_world []) ++ qs
    /\ Forall (asks_pages_of 5) qs.
Proof.
  apply (proj1 (proj2 (proj2 (proj2 (proj2
           (page_size_of_each_fetch demo_server (fun _ => "yes") simple_replace 3
              (Some (sample_config (Some (JsString.units "s3cret")) None))
              (Ok []))))))
           (fresh_world []) after_project_properties (Ok tt)).
  vm_compute. reflexivity.
Defined.

(** C2 as stated fails: the fetch of the projects of
    getProjectProperties.mjs asks for pages of 5, not of 500. *)
Lemma project_properties_asks_pages_of_five :
  GetProjectProperties.fetchProjectsWithAuth demo_server (fun _ => "yes")
    simple_replace 3 (Some (sample_config (Some (JsString.units "s3cret")) None))
    (fresh_world [])
  = Some (after_project_properties, Ok tt)
  /\ In (Net.GetPage "https://{customer}/projects" 5 0 "abc.def")
        (requests after_project_properties)
  /\ GetProjectProperties.limit <> 500%N.
Proof.
  split; [vm_compute; reflexivity|]. split.
  - right. left. reflexivity.
  - discriminate.
Qed.

(** ** The role assignments *)

Lemma role_loop_skips (server : Net.Server) (cust bearer : string)
    (project : Project) (rest : list Project) (acc : list Detail) (w : World)
    (r : Net.Response) :
  server (List.length (requests w)) (role_request cust bearer project) = Net.Resolved r ->
  Net.status r <> 200%Z ->
  role_loop server cust bearer (project :: rest) acc w
  = role_loop server cust bearer rest acc (sent (role_request cust bearer project) w).
Proof.
  intros E Hs. cbn [role_loop]. unfold bind, axios_request.
  unfold role_request in E. rewrite E.
  apply Z.eqb_neq in Hs. rewrite Hs. reflexivity.
Qed.

Lemma role_loop_run (server : Net.Server) (cust bearer : string)
    (projects : list Project) :
  forall (replies : list Net.Response) (acc : list Detail) (w : World),
    answered server cust bearer (List.length (requests w)) projects replies ->
    exists w',
      role_loop server cust bearer projects acc w
      = Some (w', Ok (acc ++ contributions projects replies))
      /\ sent_since w w' (map (role_request cust bearer) projects)
      /\ asked w' = asked w /\ files w' = files w /\ rl_open w' = rl_open w.
Proof.
  induction projects as [|p ps IH]; intros replies acc w H.
  - destruct replies; [|contradiction].
    exists w. cbn. rewrite app_nil_r. unfold sent_since. rewrite app_nil_r. auto.
  - destruct replies as [|r rs]; [contradiction|].
    destruct H as [E [Hincl Hrest]].
    cbn [role_loop]. unfold bind, axios_request.
    unfold role_request in E. rewrite E.
    unfold contributions. cbn [combine flat_map fst snd]. unfold contribution at 1.
    destruct (Net.status r =? 200)%Z eqn:Hs.
    + apply Z.eqb_eq in Hs. specialize (Hincl Hs).
      destruct (Net.included r) as [incl|]; [|contradiction Hincl; reflexivity].
      destruct (IH rs (acc ++ role_details p incl)
                  (sent (Net.GetRoleAssignments cust (proj_id p) bearer) w))
        as [w' [Erun [Hsent Hsame]]].
      * cbn [requests sent]. rewrite length_app. cbn [List.length].
        rewrite Nat.add_1_r. exact Hrest.
      * exists w'. split; [rewrite Erun, <- app_assoc; reflexivity|].
        split; [|exact Hsame].
        unfold sent_since in *. rewrite Hsent. cbn [requests sent map].
        rewrite <- app_assoc. reflexivity.
    + destruct (IH rs acc (sent (Net.GetRoleAssignments cust (proj_id p) bearer) w))
        as [w' [Erun [Hsent Hsame]]].
      * cbn [requests sent]. rewrite length_app. cbn [List.length].
        rewrite Nat.add_1_r. exact Hrest.
      * exists w'. split; [rewrite Erun; reflexivity|].
        split; [|exact Hsame].
        unfold sent_since in *. rewrite Hsent. cbn [requests sent map].
        rewrite <- app_assoc. reflexivity.
Qed.

(** The loop over the projects, over the replies that axios resolves.  A
    resolved reply whose status is not 200 adds nothing and the loop goes on
    with the remaining projects, in the world with that one request more.
    When every request is resolved, the loop sends one request per project, in
    order, and returns the details of the replies with status 200, in order;
    and [fetchRoleAssignments] of main.mjs, once authenticated, returns
    exactly these.  A rejected request, which is what axios makes of every
    status outside 200 to 299, ends the loop: see [role_loop_breaks] and the
    theorem on the HTTP errors below. *)
Lemma role_assignments_survive_refusal
    (server : Net.Server) (cust bearer : string) :
  (forall (project : Project) (rest : list Project) (acc : list Detail) (w : World)
          (r : Net.Response),
      server (List.length (requests w)) (role_request cust bearer project) = Net.Resolved r ->
      Net.status r <> 200%Z ->
      contribution project r = []
      /\ role_loop server cust bearer (project :: rest) acc w
         = role_loop server cust bearer rest acc (sent (role_request cust bearer project) w))
  /\ (forall (projects : list Project) (replies : list Net.Response) (w : World),
      answered server cust bearer (List.length (requests w)) projects replies ->
      exists w',
        role_loop server cust bearer projects [] w
        = Some (w', Ok (contributions projects replies))
        /\ sent_since w w' (map (role_request cust bearer) projects))
  /\ (forall (replace : string -> string -> string -> string) (cfg : Config)
             (t1 t2 : string) (projects : list Project) (replies : list Net.Response)
             (w w1 : World),
      customer cfg = cust ->
      authUrlTemplate cfg = Some t1 -> authUrlV2Template cfg = Some t2 ->
      authenticate server cfg (replace t1 "{customer}" cust) (replace t2 "{customer}" cust) w
      = Some (w1, Ok bearer) ->
      answered server cust bearer (List.length (requests w1)) projects replies ->
      exists w',
        Main.fetchRoleAssignments server replace (Some cfg) projects w
        = Some (w', Ok (contributions projects replies))
        /\ sent_since w1 w' (map (role_request cust bearer) projects)).
Proof.
  split; [|split].
  - intros project rest acc w r E Hs. split.
    + unfold contribution. apply Z.eqb_neq in Hs. rewrite Hs. reflexivity.
    + apply role_loop_skips with (r := r); assumption.
  - intros projects replies w H.
    destruct (role_loop_run server cust bearer projects replies [] w H)
      as [w' [E [S _]]].
    exists w'. split; [exact E | exact S].
  - intros replace cfg t1 t2 projects replies w w1 Hc H1 H2 Hauth Hans.
    destruct (role_loop_run server cust bearer projects replies [] w1 Hans)
      as [w' [E [S [Ha [Hf Hr]]]]].
    unfold Main.fetchRoleAssignments, try_catch, bind, read_config, ret, fill.
    rewrite H1, H2, Hc. unfold ret. rewrite Hauth, E.
    unfold writeFile. cbv beta iota.
    eexists. split; [reflexivity|].
    unfold sent_since in *. cbn [requests]. exact S.
Qed.

Lemma role_assignments_survive_refusal_witness :
  exists w',
    role_loop moody_server "demo" "t"
      [snapshot_project "p1" "one"; snapshot_project "p2" "two"; snapshot_project "p3" "three"]
      [] (fresh_world [])
    = Some (w', Ok (contributions
                      [snapshot_project "p1" "one"; snapshot_project "p2" "two";
                       snapshot_project "p3" "three"]
                      [sample_response 200 None None None (Some [person "p1"]);
                       sample_response 204 None None None None;
                       sample_response 200 None None None (Some [person "p3"])]))
    /\ sent_since (fresh_world []) w'
         (map (role_request "demo" "t")
              [snapshot_project "p1" "one"; snapshot_project "p2" "two";
               snapshot_project "p3" "three"]).
Proof.
  apply (proj1 (proj2 (role_assignments_survive_refusal moody_server "demo" "t"))).
  cbn. repeat split; try reflexivity; try discriminate.
Defined.

(** C10.  A failing request does stop the stage.  The HTTP server knows the
    role assignments of the projects [p1] and [p3] and answers the request of
    [p2] with status 404.  axios turns that answer into a rejected request,
    which leaves the loop by the [catch] of the stage: for the projects
    [p1], [p2], [p3] the stage of main.mjs returns the empty array, [p3] is
    never asked for, the user found for [p1] is dropped and no artifact is
    written, although the output directory exists.  For [p1] and [p3] alone
    the same stage returns the two users and writes both artifacts.  The
    script getProjectUserInformation.mjs, run on the three stored projects,
    ends in the same way, without either artifact of the details. *)
Theorem http_error_ends_the_role_assignments :
  Axios.over http_missing_project 2
    (role_request "demo" "abc.def" (snapshot_project "p2" "two"))
  = Net.Rejected (Some 404%Z)
  /\ Main.fetchRoleAssignments (Axios.over http_missing_project) simple_replace
       (Some (sample_config (Some (JsString.units "s3cret")) None))
       [snapshot_project "p1" "one"; snapshot_project "p2" "two";
        snapshot_project "p3" "three"]
       (fresh_world ["./output"])
     = Some ({| requests :=
                  [session_request;
                   Net.GetRoleAssignments "demo" "p1" "abc.def";
                   Net.GetRoleAssignments "demo" "p2" "abc.def"];
                asked := []; files := ["./output"]; rl_open := true |},
             Ok [])
  /\ Main.fetchRoleAssignments (Axios.over http_missing_project) simple_replace
       (Some (sample_config (Some (JsString.units "s3cret")) None))
       [snapshot_project "p1" "one"; snapshot_project "p3" "three"]
       (fresh_world ["./output"])
     = Some ({| requests :=
                  [session_request;
                   Net.GetRoleAssignments "demo" "p1" "abc.def";
                   Net.GetRoleAssignments "demo" "p3" "abc.def"];
                asked := [];
                files := ["./output"; "./output/userDetailsList.json";
                          "./output/userDetailsList.csv"];
                rl_open := true |},
             Ok [{| d_projectName := "one"; d_projectId := "p1"; d_userType := "User";
                    d_name := "p1"; d_email := "p1@x.com" |};
                 {| d_projectName := "three"; d_projectId := "p3"; d_userType := "User";
                    d_name := "p3"; d_email := "p3@x.com" |}])
  /\ GetProjectUserInformation.fetchProjectsWithAuth (Axios.over http_missing_project)
       simple_replace 5
       (Some (sample_config (Some (JsString.units "s3cret")) None))
       (Ok [snapshot_project "p1" "one"; snapshot_project "p2" "two";
            snapshot_project "p3" "three"])
       (fresh_world ["../output"; "../output/projectList.json"])
     = Some ({| requests :=
                  [session_request;
                   Net.GetRoleAssignments "demo" "p1" "abc.def";
                   Net.GetRoleAssignments "demo" "p2" "abc.def"];
                asked := [];
                files := ["../output"; "../output/projectList.json"];
                rl_open := false |},
             Ok tt).
Proof.
  split; [reflexivity|]. split; [vm_compute; reflexivity|].
  split; vm_compute; reflexivity.
Qed.

(** ** The overwrite prompt and the orchestrator *)

Lemma guard_absent (answers : nat -> string) (path question : string) (w : World) :
  exists_in w path = false ->
  overwrite_guard answers path question w = Some (w, Ok true).
Proof.
  intros H. unfold overwrite_guard, bind, file_exists. unfold exists_in in H.
  rewrite H. reflexivity.
Qed.

Lemma guard_declined (answers : nat -> string) (path question : string) (w : World) :
  exists_in w path = true ->
  declines (answers (List.length (asked w))) = true ->
  overwrite_guard answers path question w
  = Some (rl_close (asking question w), Ok false).
Proof.
  intros H D. unfold overwrite_guard, bind, file_exists, askQuestion.
  unfold exists_in in H. rewrite H, D. reflexivity.
Qed.

Lemma ensure_keeps (dir : string) (w : World) :
  exists w1,
    ensureOutputDirectoryExists dir w = Some (w1, Ok tt)
    /\ requests w1 = requests w /\ asked w1 = asked w /\ rl_open w1 = rl_open w
    /\ (forall path, exists_in w path = true -> exists_in w1 path = true)
    /\ (forall path, String.eqb path dir = false -> exists_in w1 path = exists_in w path).
Proof.
  unfold ensureOutputDirectoryExists, bind, file_exists.
  destruct (existsb (String.eqb dir) (files w)) eqn:E.
  - exists w. repeat split; auto.
  - unfold writeFile. rewrite E. eexists. split; [reflexivity|].
    cbn [requests asked rl_open]. repeat split.
    + intros path H. unfold exists_in in *. cbn [files].
      rewrite existsb_app, H. reflexivity.
    + intros path H. unfold exists_in. cbn [files].
      rewrite existsb_app. cbn [existsb]. rewrite H.
      cbn [orb]. apply orb_false_r.
Qed.

Section Halting.
Variables Apps Projects Details Branches : Type.
Variable fetchApplications : M (list Apps).
Variable fetchProjects : M (list Projects).
Variable fetchRoles : list Projects -> M (list Details).
Variable fetchBranches : M (list Branches).
Variable associate : list Projects -> list Branches -> M unit.

Let run := Main.main fetchApplications fetchProjects fetchRoles fetchBranches associate.

(** [main] ends in the world left by the first stage that returns an
    empty array; no later stage runs. *)
Lemma main_halts_on_empty (w : World) :
  (forall w1, fetchApplications w = Some (w1, Ok []) -> run w = Some (w1, Ok tt))
  /\ (forall w1 w2 apps,
        fetchApplications w = Some (w1, Ok apps) -> apps <> [] ->
        fetchProjects w1 = Some (w2, Ok []) -> run w = Some (w2, Ok tt))
  /\ (forall w1 w2 w3 apps projects,
        fetchApplications w = Some (w1, Ok apps) -> apps <> [] ->
        fetchProjects w1 = Some (w2, Ok projects) -> projects <> [] ->
        fetchRoles projects w2 = Some (w3, Ok []) -> run w = Some (w3, Ok tt))
  /\ (forall w1 w2 w3 w4 apps projects details,
        fetchApplications w = Some (w1, Ok apps) -> apps <> [] ->
        fetchProjects w1 = Some (w2, Ok projects) -> projects <> [] ->
        fetchRoles projects w2 = Some (w3, Ok details) -> details <> [] ->
        fetchBranches w3 = Some (w4, Ok []) -> run w = Some (w4, Ok tt)).
Proof.
  assert (NE : forall X (l : list X), l <> [] -> Main.is_empty l = false).
  { intros X l H. destruct l; [contradiction H; reflexivity | reflexivity]. }
  unfold run, Main.main, bind. repeat split.
  - intros w1 E. rewrite E. reflexivity.
  - intros w1 w2 apps E1 N1 E2. rewrite E1, (NE _ _ N1), E2. reflexivity.
  - intros w1 w2 w3 apps projects E1 N1 E2 N2 E3.
    rewrite E1, (NE _ _ N1), E2, (NE _ _ N2), E3. reflexivity.
  - intros w1 w2 w3 w4 apps projects details E1 N1 E2 N2 E3 N3 E4.
    rewrite E1, (NE _ _ N1), E2, (NE _ _ N2), E3, (NE _ _ N3), E4. reflexivity.
Qed.
End Halting.

Lemma applications_stage_declined
    (server : Net.Server) (answers : nat -> string)
    (replace : string -> string -> string -> string)
    (fuel : nat) (config : option Config) (w : World) :
  first_prompt_declined answers w ->
  exists w',
    Main.fetchApplicationsWithAuth server answers replace fuel config w
    = Some (w', Ok [])
    /\ requests w' = requests w
    /\ List.length (asked w') = S (List.length (asked w))
    /\ rl_open w' = false
    /\ (forall path, exists_in w path = true -> exists_in w' path = true).
Proof.
  intros [Hex Hd].
  destruct (ensure_keeps Main.outputDirectory w) as [w1 [E [Hr [Ha [Hrl [Hk Hsame]]]]]].
  unfold Main.fetchApplicationsWithAuth, try_finally, try_catch.
  unfold bind at 1. rewrite E. unfold bind at 1.
  destruct Hex as [Hjson | [Hjson Hcsv]].
  - rewrite (guard_declined answers _ _ w1 (Hk _ Hjson)) by (rewrite Ha; exact Hd).
    cbn [negb]. unfold ret. eexists. split; [reflexivity|].
    cbn [requests asked rl_open rl_close asking]. rewrite Hr, Ha, length_app.
    repeat split; [cbn; lia|].
    intros path H. unfold exists_in. cbn [files rl_close asking]. apply (Hk _ H).
  - rewrite (guard_absent answers _ _ w1)
      by (rewrite Hsame; [exact Hjson | reflexivity]).
    cbn [negb]. unfold bind at 1.
    rewrite (guard_declined answers _ _ w1 (Hk _ Hcsv)) by (rewrite Ha; exact Hd).
    cbn [negb]. unfold ret. eexists. split; [reflexivity|].
    cbn [requests asked rl_open rl_close asking]. rewrite Hr, Ha, length_app.
    repeat split; [cbn; lia|].
    intros path H. unfold exists_in. cbn [files rl_close asking]. apply (Hk _ H).
Qed.

(** C8.  When an artifact of the applications stage of main.mjs exists and
    the answer to its prompt is anything but "yes" or "y" (in any letter
    case), the stage returns the empty array, not an exception, without
    having sent a request or deleted a file; and [main] stops after any stage
    that returns an empty array: it ends in the world that stage left, so
    after the declined prompt nothing else runs. *)
Theorem declined_prompt_stops_the_pipeline
    (server : Net.Server) (answers : nat -> string)
    (replace : string -> string -> string -> string)
    (fuel : nat) (config : option Config)
    (Projects Details Branches : Type)
    (fetchProjects : M (list Projects))
    (fetchRoles : list Projects -> M (list Details))
    (fetchBranches : M (list Branches))
    (associate : list Projects -> list Branches -> M unit)
    (w : World) :
  (first_prompt_declined answers w ->
   exists w',
     Main.fetchApplicationsWithAuth server answers replace fuel config w = Some (w', Ok [])
     /\ Main.main (Main.fetchApplicationsWithAuth server answers replace fuel config)
          fetchProjects fetchRoles fetchBranches associate w
        = Some (w', Ok tt)
     /\ requests w' = requests w
     /\ (forall path, exists_in w path = true -> exists_in w' path = true))
  /\ (forall (Apps : Type) (fetchApplications : M (list Apps)),
      let run := Main.main fetchApplications fetchProjects fetchRoles fetchBranches
                   associate in
      (forall w1, fetchApplications w = Some (w1, Ok []) -> run w = Some (w1, Ok tt))
      /\ (forall w1 w2 apps,
            fetchApplications w = Some (w1, Ok apps) -> apps <> [] ->
            fetchProjects w1 = Some (w2, Ok []) -> run w = Some (w2, Ok tt))
      /\ (forall w1 w2 w3 apps projects,
            fetchApplications w = Some (w1, Ok apps) -> apps <> [] ->
            fetchProjects w1 = Some (w2, Ok projects) -> projects <> [] ->
            fetchRoles projects w2 = Some (w3, Ok []) -> run w = Some (w3, Ok tt))
      /\ (forall w1 w2 w3 w4 apps projects details,
            fetchApplications w = Some (w1, Ok apps) -> apps <> [] ->
            fetchProjects w1 = Some (w2, Ok projects) -> projects <> [] ->
            fetchRoles projects w2 = Some (w3, Ok details) -> details <> [] ->
            fetchBranches w3 = Some (w4, Ok []) -> run w = Some (w4, Ok tt))).
Proof.
  split.
  - intros Hd.
    destruct (@applications_stage_declined server answers replace fuel config w Hd)
      as [w' [E [Hr [_ [_ Hf]]]]].
    exists w'. split; [exact E|]. split; [|split; assumption].
    apply (proj1 (main_halts_on_empty _ fetchProjects fetchRoles fetchBranches associate w)).
    exact E.
  - intros Apps fetchApplications run.
    apply (main_halts_on_empty fetchApplications fetchProjects fetchRoles fetchBranches
             associate w).
Qed.

Lemma declined_prompt_stops_the_pipeline_witness :
  exists w',
    Main.fetchApplicationsWithAuth demo_server (fun _ => "No") simple_replace 3
      (Some (sample_config (Some (JsString.units "s3cret")) None))
      (fresh_world ["./output"; "./output/applicationsList.json"])
    = Some (w', Ok [])
    /\ Main.main
         (Main.fetchApplicationsWithAuth demo_server (fun _ => "No") simple_replace 3
            (Some (sample_config (Some (JsString.units "s3cret")) None)))
         (ret [snapshot_project "p1" "one"])
         (fun ps => role_loop demo_server "demo" "t" ps [])
         (ret [item "main"])
         (fun _ _ => writeFile "./output/projectBranches.csv")
         (fresh_world ["./output"; "./output/applicationsList.json"])
       = Some (w', Ok tt)
    /\ requests w' = requests (fresh_world ["./output"; "./output/applicationsList.json"])
    /\ (forall path,
          exists_in (fresh_world ["./output"; "./output/applicationsList.json"]) path = true ->
          exists_in w' path = true).
Proof.
  apply (proj1 (declined_prompt_stops_the_pipeline demo_server (fun _ => "No")
                  simple_replace 3
                  (Some (sample_config (Some (JsString.units "s3cret")) None))
                  (ret [snapshot_project "p1" "one"])
                  (fun ps => role_loop demo_server "demo" "t" ps [])
                  (ret [item "main"])
                  (fun _ _ => writeFile "./output/projectBranches.csv")
                  (fresh_world ["./output"; "./output/applicationsList.json"]))).
  split; [left; reflexivity | reflexivity].
Defined.

(** ** Plain objects: the order of the keys *)

Section ObjectFacts.
Variable V : Type.

Lemma has_own_keys (k : string) (o : JsObject.props V) :
  JsObject.has_own k o = existsb (String.eqb k) (map fst o).
Proof.
  unfold JsObject.has_own.
  induction o as [|[k' v] o IH]; cbn; [reflexivity|].
  destruct (String.eqb k k'); [reflexivity | exact IH].
Qed.

Lemma has_own_In (k : string) (o : JsObject.props V) :
  JsObject.has_own k o = true <-> In k (map fst o).
Proof.
  rewrite has_own_keys, existsb_exists. split.
  - intros [x [Hx E]]. apply String.eqb_eq in E. subst. exact Hx.
  - intros H. exists k. split; [exact H | apply String.eqb_refl].
Qed.

Lemma keys_set_own (k : string) (v : V) (o : JsObject.props V) :
  map fst (JsObject.set_own k v o)
  = if JsObject.has_own k o then map fst o else map fst o ++ [k].
Proof.
  unfold JsObject.has_own.
  induction o as [|[k' v'] o IH]; cbn; [reflexivity|].
  destruct (String.eqb k k') eqn:E; cbn; [reflexivity|].
  rewrite IH. destruct (JsObject.get_own k o); reflexivity.
Qed.

Lemma get_own_set_same (k : string) (v : V) (o : JsObject.props V) :
  JsObject.get_own k (JsObject.set_own k v o) = Some v.
Proof.
  induction o as [|[k' v'] o IH]; cbn.
  - rewrite String.eqb_refl. reflexivity.
  - destruct (String.eqb k k') eqn:E; cbn; rewrite E; [reflexivity | exact IH].
Qed.

Lemma get_own_set_other (k k2 : string) (v : V) (o : JsObject.props V) :
  String.eqb k k2 = false ->
  JsObject.get_own k (JsObject.set_own k2 v o) = JsObject.get_own k o.
Proof.
  intros N. induction o as [|[k' v'] o IH]; cbn.
  - rewrite N. reflexivity.
  - destruct (String.eqb k2 k') eqn:E; cbn.
    + apply String.eqb_eq in E. subst k'. rewrite N. reflexivity.
    + destruct (String.eqb k k'); [reflexivity | exact IH].
Qed.

Lemma set_own_Forall (P : string * V -> Prop) (k : string) (v : V)
    (o : JsObject.props V) :
  P (k, v) -> Forall P o -> Forall P (JsObject.set_own k v o).
Proof.
  intros Hv H. induction H as [|[k' v'] o Hp Ho IH]; cbn.
  - constructor; [exact Hv | constructor].
  - destruct (String.eqb k k') eqn:E.
    + apply String.eqb_eq in E. subst k'. constructor; assumption.
    + constructor; assumption.
Qed.

Lemma set_own_NoDup (k : string) (v : V) (o : JsObject.props V) :
  NoDup (map fst o) -> NoDup (map fst (JsObject.set_own k v o)).
Proof.
  intros H. rewrite keys_set_own.
  destruct (JsObject.has_own k o) eqn:E; [exact H|].
  apply NoDup_app; [exact H | constructor; [intros []| constructor] |].
  intros x Hx [<-|[]].
  apply has_own_In in Hx. congruence.
Qed.

(** With distinct keys, a change through the reference of [k] touches the
    entry of [k] and no other. *)
Lemma update_own_map (k : string) (f : V -> V) (o : JsObject.props V) :
  NoDup (map fst o) ->
  JsObject.update_own k f o
  = map (fun p => (fst p, if String.eqb k (fst p) then f (snd p) else snd p)) o.
Proof.
  induction o as [|[k' v'] o IH]; cbn; [reflexivity|].
  intros H. inversion H as [|? ? Hn Hd]; subst.
  destruct (String.eqb k k') eqn:E.
  - f_equal. apply String.eqb_eq in E. subst k'.
    clear IH H Hd. induction o as [|[k2 v2] o IH]; cbn; [reflexivity|].
    cbn in Hn. destruct (String.eqb k k2) eqn:E2.
    + apply String.eqb_eq in E2. subst. exfalso. apply Hn. left. reflexivity.
    + f_equal. apply IH. intros Hin. apply Hn. right. exact Hin.
  - f_equal. apply IH. exact Hd.
Qed.

Lemma untouched_map (k : string) (f : V -> V) (o : JsObject.props V) :
  JsObject.has_own k o = false ->
  o = map (fun p => (fst p, if String.eqb k (fst p) then f (snd p) else snd p)) o.
Proof.
  unfold JsObject.has_own.
  induction o as [|[k' v'] o IH]; cbn; [reflexivity|].
  destruct (String.eqb k k') eqn:E; [discriminate|].
  intros H. f_equal. apply IH. exact H.
Qed.
End ObjectFacts.

Section OrderFacts.
Variables V W : Type.

Lemma keys_insert_index (p : string * V) (l : JsObject.props V) :
  map fst (JsObject.insert_index p l) = KeyOrder.insert_key (fst p) (map fst l).
Proof.
  induction l as [|q l IH]; cbn; [reflexivity|].
  destruct (JsObject.index_of (fst p) <=? JsObject.index_of (fst q))%N; cbn;
    [reflexivity | rewrite IH; reflexivity].
Qed.

Lemma keys_sort_indices (l : JsObject.props V) :
  map fst (JsObject.sort_indices l) = KeyOrder.sort_keys (map fst l).
Proof.
  induction l as [|p l IH]; cbn; [reflexivity|].
  rewrite keys_insert_index, IH. reflexivity.
Qed.

Lemma keys_filter (f : string -> bool) (l : JsObject.props V) :
  map fst (filter (fun p => f (fst p)) l) = filter f (map fst l).
Proof.
  induction l as [|p l IH]; cbn; [reflexivity|].
  destruct (f (fst p)); cbn; rewrite IH; reflexivity.
Qed.

(** [Object.keys] of an object is the key order of its keys as created. *)
Lemma keys_ordered (o : JsObject.props V) :
  map fst (JsObject.ordered o) = KeyOrder.key_order (map fst o).
Proof.
  unfold JsObject.ordered, KeyOrder.key_order.
  rewrite map_app, keys_sort_indices.
  rewrite (keys_filter JsObject.is_index).
  rewrite (keys_filter (fun k => negb (JsObject.is_index k))). reflexivity.
Qed.

Variable g : string * V -> string * W.
Hypothesis g_key : forall p, fst (g p) = fst p.

Lemma insert_index_map (p : string * V) (l : JsObject.props V) :
  JsObject.insert_index (g p) (map g l) = map g (JsObject.insert_index p l).
Proof.
  induction l as [|q l IH]; cbn; [reflexivity|].
  rewrite !g_key.
  destruct (JsObject.index_of (fst p) <=? JsObject.index_of (fst q))%N; cbn;
    [reflexivity | rewrite IH; reflexivity].
Qed.

Lemma sort_indices_map (l : JsObject.props V) :
  JsObject.sort_indices (map g l) = map g (JsObject.sort_indices l).
Proof.
  induction l as [|p l IH]; cbn; [reflexivity|].
  rewrite IH. apply insert_index_map.
Qed.

Lemma filter_key_map (f : string -> bool) (l : JsObject.props V) :
  filter (fun p => f (fst p)) (map g l) = map g (filter (fun p => f (fst p)) l).
Proof.
  induction l as [|p l IH]; cbn; [reflexivity|].
  rewrite g_key. destruct (f (fst p)); cbn; rewrite IH; reflexivity.
Qed.

(** A change of the values that keeps the keys keeps the order. *)
Lemma ordered_map (o : JsObject.props V) :
  JsObject.ordered (map g o) = map g (JsObject.ordered o).
Proof.
  unfold JsObject.ordered.
  rewrite (filter_key_map JsObject.is_index).
  rewrite (filter_key_map (fun k => negb (JsObject.is_index k))).
  rewrite sort_indices_map, map_app. reflexivity.
Qed.
End OrderFacts.

Section OrderMembers.
Variable V : Type.

Lemma insert_index_In (p q : string * V) (l : JsObject.props V) :
  In q (JsObject.insert_index p l) <-> q = p \/ In q l.
Proof.
  induction l as [|r l IH]; cbn.
  - split; [intros [H|[]]; left; symmetry; exact H | intros [H|[]]; left; symmetry; exact H].
  - destruct (JsObject.index_of (fst p) <=? JsObject.index_of (fst r))%N; cbn.
    + split; [intros [H|H]; [left; symmetry; exact H | right; exact H]
             | intros [H|H]; [left; symmetry; exact H | right; exact H]].
    + rewrite IH. tauto.
Qed.

Lemma sort_indices_In (q : string * V) (l : JsObject.props V) :
  In q (JsObject.sort_indices l) <-> In q l.
Proof.
  induction l as [|p l IH]; cbn; [tauto|].
  rewrite insert_index_In, IH. split; intros [H|H]; auto.
Qed.

Lemma ordered_In (q : string * V) (o : JsObject.props V) :
  In q (JsObject.ordered o) <-> In q o.
Proof.
  unfold JsObject.ordered. rewrite in_app_iff, sort_indices_In, !filter_In.
  destruct (JsObject.is_index (fst q)); cbn; split; intros H; try tauto.
Qed.
End OrderMembers.

(** The key order is a rearrangement of the keys, with the array indices
    in ascending order. *)
Section KeyOrderFacts.

Let le_index (a b : string) : Prop := (JsObject.index_of a <= JsObject.index_of b)%N.

Lemma insert_key_sorted (k : string) (l : list string) :
  Sorted le_index l -> Sorted le_index (KeyOrder.insert_key k l).
Proof.
  induction l as [|q l IH]; intros H; cbn.
  - constructor; constructor.
  - destruct (JsObject.index_of k <=? JsObject.index_of q)%N eqn:E.
    + constructor; [exact H|]. constructor. apply N.leb_le. exact E.
    + apply Sorted_inv in H. destruct H as [Hs Hh].
      constructor; [apply IH; exact Hs|].
      apply N.leb_gt in E.
      destruct l as [|r l]; cbn.
      * constructor. unfold le_index. lia.
      * destruct (JsObject.index_of k <=? JsObject.index_of r)%N; constructor.
        -- unfold le_index. lia.
        -- inversion Hh. assumption.
Qed.

Lemma sort_keys_sorted (ks : list string) : Sorted le_index (KeyOrder.sort_keys ks).
Proof.
  induction ks as [|k ks IH]; cbn; [constructor|].
  apply insert_key_sorted. exact IH.
Qed.

Lemma insert_key_perm (k : string) (l : list string) :
  Permutation (KeyOrder.insert_key k l) (k :: l).
Proof.
  induction l as [|q l IH]; cbn; [apply Permutation_refl|].
  destruct (JsObject.index_of k <=? JsObject.index_of q)%N; [apply Permutation_refl|].
  apply perm_trans with (q :: k :: l); [apply perm_skip; exact IH | apply perm_swap].
Qed.

Lemma sort_keys_perm (ks : list string) : Permutation (KeyOrder.sort_keys ks) ks.
Proof.
  induction ks as [|k ks IH]; cbn; [apply Permutation_refl|].
  apply perm_trans with (k :: KeyOrder.sort_keys ks);
    [apply insert_key_perm | apply perm_skip; exact IH].
Qed.

Lemma key_order_indices_ascend (ks : list string) :
  Sorted le_index (KeyOrder.sort_keys (filter JsObject.is_index ks))
  /\ Permutation (KeyOrder.key_order ks) ks.
Proof.
  split; [apply sort_keys_sorted|].
  unfold KeyOrder.key_order.
  apply perm_trans with (filter JsObject.is_index ks
                         ++ filter (fun k => negb (JsObject.is_index k)) ks).
  - apply Permutation_app_tail. apply sort_keys_perm.
  - clear. induction ks as [|k ks IH]; cbn; [apply Permutation_refl|].
    destruct (JsObject.is_index k); cbn.
    + apply perm_skip. exact IH.
    + apply Permutation_sym. apply Permutation_cons_app.
      apply Permutation_sym. exact IH.
Qed.

End KeyOrderFacts.

(** The order of first appearance lists every key once. *)
Lemma first_seen_once (ids : list string) :
  forall seen,
    NoDup (KeyOrder.first_seen seen ids)
    /\ forall k, In k (KeyOrder.first_seen seen ids)
                 <-> In k ids /\ existsb (String.eqb k) seen = false.
Proof.
  induction ids as [|i ids IH]; intros seen; cbn.
  - split; [constructor|]. intros k. tauto.
  - destruct (existsb (String.eqb i) seen) eqn:E.
    + destruct (IH seen) as [N I]. split; [exact N|].
      intros k. rewrite I. split; [tauto|].
      intros [[<-|H] S]; [congruence | tauto].
    + destruct (IH (i :: seen)) as [N I]. split.
      * constructor; [|exact N]. rewrite I. cbn. rewrite String.eqb_refl.
        intros [_ H]. discriminate H.
      * intros k. cbn. rewrite I. cbn.
        destruct (String.eqb k i) eqn:Ek.
        -- apply String.eqb_eq in Ek. subst k. cbn. split; [tauto|].
           intros _. left. reflexivity.
        -- cbn. split.
           ++ intros [<-|[H S]]; [rewrite String.eqb_refl in Ek; discriminate | tauto].
           ++ intros [[<-|H] S]; [rewrite String.eqb_refl in Ek; discriminate | tauto].
Qed.

(** ** The report builder *)

Module ReportLemmas.
Import CreateReport ReportFacts.

(* ------------------------------------------------------------------ *)
(** *** The map after [reduce] *)

Lemma first_seen_ext (s1 s2 ids : list string) :
  (forall k, existsb (String.eqb k) s1 = existsb (String.eqb k) s2) ->
  KeyOrder.first_seen s1 ids = KeyOrder.first_seen s2 ids.
Proof.
  revert s1 s2. induction ids as [|k ids IH]; intros s1 s2 H; cbn; [reflexivity|].
  rewrite (H k). destruct (existsb (String.eqb k) s2).
  - apply IH. exact H.
  - f_equal. apply IH. intros k'. cbn. rewrite (H k'). reflexivity.
Qed.

Lemma reduce_keys (ps : list Project) :
  forall m : ProjectMap,
    map fst (own (fold_left add_project ps m))
    = map fst (own m)
      ++ KeyOrder.first_seen (map fst (own m)) (filter not_proto (map proj_id ps)).
Proof.
  induction ps as [|p ps IH]; intros m; cbn [fold_left map filter].
  - cbn. symmetry. apply app_nil_r.
  - rewrite IH. unfold add_project. unfold not_proto at 2.
    destruct (String.eqb (proj_id p) "__proto__") eqn:E; cbn [negb own].
    + reflexivity.
    + cbn [KeyOrder.first_seen]. rewrite keys_set_own, <- has_own_keys.
      destruct (JsObject.has_own (proj_id p) (own m)) eqn:H; [reflexivity|].
      rewrite <- app_assoc. cbn [app]. do 2 f_equal.
      apply first_seen_ext. intros k. rewrite existsb_app. cbn.
      rewrite orb_false_r. apply orb_comm.
Qed.

Lemma reduce_fresh (ps : list Project) :
  forall m : ProjectMap,
    Forall fresh_entry (own m) ->
    Forall fresh_entry (own (fold_left add_project ps m)).
Proof.
  induction ps as [|p ps IH]; intros m H; cbn [fold_left]; [exact H|].
  apply IH. unfold add_project.
  destruct (String.eqb (proj_id p) "__proto__"); cbn [own]; [exact H|].
  apply set_own_Forall; [|exact H].
  repeat split.
Qed.

Lemma reduce_NoDup (ps : list Project) :
  forall m : ProjectMap,
    NoDup (map fst (own m)) ->
    NoDup (map fst (own (fold_left add_project ps m))).
Proof.
  induction ps as [|p ps IH]; intros m H; cbn [fold_left]; [exact H|].
  apply IH. unfold add_project.
  destruct (String.eqb (proj_id p) "__proto__"); cbn [own]; [exact H|].
  apply set_own_NoDup. exact H.
Qed.

Lemma created_keys_of_map (ps : list Project) :
  map fst (own (fold_left add_project ps empty_map)) = created_keys ps.
Proof. rewrite reduce_keys. reflexivity. Qed.

Lemma first_seen_In (ids : list string) :
  forall seen k, In k (KeyOrder.first_seen seen ids) -> In k ids.
Proof.
  induction ids as [|i ids IH]; intros seen k H; cbn in H; [contradiction|].
  destruct (existsb (String.eqb i) seen).
  - right. exact (IH _ _ H).
  - destruct H as [<-|H]; [left; reflexivity | right; exact (IH _ _ H)].
Qed.

Lemma created_key_is_project_id (ps : list Project) (k : string) :
  In k (created_keys ps) -> In k (map proj_id ps) /\ String.eqb k "__proto__" = false.
Proof.
  intros H. apply first_seen_In in H. apply filter_In in H.
  destruct H as [H N]. split; [exact H|].
  unfold not_proto in N. apply negb_true_iff in N. exact N.
Qed.

(* ------------------------------------------------------------------ *)
(** *** The two [forEach] loops *)

Lemma lookup_Found (m : ProjectMap) (k : string) :
  lookup m k = Found <-> JsObject.has_own k (own m) = true.
Proof.
  unfold lookup. destruct (JsObject.has_own k (own m)); [tauto|].
  split; [|discriminate].
  destruct (String.eqb k "__proto__").
  - destruct (proto m); discriminate.
  - destruct (proto m) as [e|].
    + destruct (entry_property e k) as [[|]|]; try discriminate.
      unfold of_object_prototype. destruct (JsObject.inherited k); discriminate.
    + unfold of_object_prototype. destruct (JsObject.inherited k); discriminate.
Qed.

Lemma change_own (m m' : ProjectMap) (k : string) (f : Entry -> Entry) :
  NoDup (map fst (own m)) ->
  change m k f = Ok m' ->
  own m' = map (fun p => (fst p, if String.eqb k (fst p) then f (snd p) else snd p))
               (own m).
Proof.
  intros N H. unfold change in H.
  destruct (lookup m k) eqn:L.
  - injection H as <-. cbn [own]. apply update_own_map. exact N.
  - injection H as <-. cbn [own]. apply untouched_map.
    destruct (JsObject.has_own k (own m)) eqn:E; [|reflexivity].
    apply lookup_Found in E. congruence.
  - discriminate.
  - injection H as <-. apply untouched_map.
    destruct (JsObject.has_own k (own m)) eqn:E; [|reflexivity].
    apply lookup_Found in E. congruence.
Qed.

Lemma add_branch_own (m m' : ProjectMap) (b : Net.Resource) :
  NoDup (map fst (own m)) ->
  add_branch m b = Ok m' ->
  own m' = map (fun p => (fst p, with_branch (fst p) (snd p) b)) (own m).
Proof.
  intros N H. unfold add_branch in H. rewrite (@change_own _ _ _ _ N H).
  reflexivity.
Qed.

Lemma map_same (g : string * Entry -> Entry) (o : JsObject.props Entry) :
  (forall p, g p = snd p) -> o = map (fun p => (fst p, g p)) o.
Proof.
  intros H. induction o as [|[k e] o IH]; cbn; [reflexivity|].
  rewrite H. cbn. f_equal. exact IH.
Qed.

Lemma not_own_same (m : ProjectMap) (k : string) (f : Entry -> Entry) :
  lookup m k <> Found ->
  own m = map (fun p => (fst p, if String.eqb k (fst p) then f (snd p) else snd p))
              (own m).
Proof.
  intros L. apply untouched_map.
  destruct (JsObject.has_own k (own m)) eqn:E; [|reflexivity].
  apply lookup_Found in E. contradiction.
Qed.

Lemma add_detail_own (m m' : ProjectMap) (d : Detail) :
  NoDup (map fst (own m)) ->
  add_detail m d = Ok m' ->
  own m' = map (fun p => (fst p, with_detail (fst p) (snd p) d)) (own m).
Proof.
  intros N H. unfold add_detail in H. unfold with_detail.
  destruct (String.eqb (d_userType d) "User") eqn:U.
  - destruct (lookup m (d_projectId d)) eqn:L;
      try exact (@change_own _ _ _ _ N H).
    injection H as <-. apply not_own_same. rewrite L. discriminate.
  - destruct (String.eqb (d_userType d) "GroupName") eqn:G.
    + destruct (lookup m (d_projectId d)) eqn:L;
        try exact (@change_own _ _ _ _ N H).
      injection H as <-. apply not_own_same. rewrite L. discriminate.
    + assert (E : m = m').
      { destruct (lookup m (d_projectId d)); injection H as <-; reflexivity. }
      subst m'. apply map_same. intros [k e]. cbn.
      destruct (String.eqb (d_projectId d) k); reflexivity.
Qed.

Lemma map_keys_kept {X} (g : string * Entry -> X) (o : JsObject.props Entry) :
  map fst (map (fun p => (fst p, g p)) o) = map fst o.
Proof. rewrite map_map. reflexivity. Qed.

Lemma branches_loop (bs : list Net.Resource) :
  forall m m',
    NoDup (map fst (own m)) ->
    for_each add_branch bs m = Ok m' ->
    own m' = map (fun p => (fst p, fold_left (with_branch (fst p)) bs (snd p))) (own m).
Proof.
  induction bs as [|b bs IH]; intros m m' N H; cbn [for_each] in H.
  - injection H as <-.
    apply (map_same (fun p => fold_left (with_branch (fst p)) [] (snd p))).
    intros p. reflexivity.
  - destruct (add_branch m b) as [m1|] eqn:E; [|discriminate].
    pose proof (@add_branch_own _ _ _ N E) as O1.
    rewrite (IH m1 m'); [|rewrite O1, map_keys_kept; exact N | exact H].
    rewrite O1, map_map. reflexivity.
Qed.

Lemma details_loop (ds : list Detail) :
  forall m m',
    NoDup (map fst (own m)) ->
    for_each add_detail ds m = Ok m' ->
    own m' = map (fun p => (fst p, fold_left (with_detail (fst p)) ds (snd p))) (own m).
Proof.
  induction ds as [|d ds IH]; intros m m' N H; cbn [for_each] in H.
  - injection H as <-.
    apply (map_same (fun p => fold_left (with_detail (fst p)) [] (snd p))).
    intros p. reflexivity.
  - destruct (add_detail m d) as [m1|] eqn:E; [|discriminate].
    pose proof (@add_detail_own _ _ _ N E) as O1.
    rewrite (IH m1 m'); [|rewrite O1, map_keys_kept; exact N | exact H].
    rewrite O1, map_map. reflexivity.
Qed.

End ReportLemmas.

Module ReportRows.
Import CreateReport ReportFacts ReportLemmas.

(** *** The entries when the rows are made *)

Lemma with_branches (k : string) (bs : list Net.Resource) :
  forall e,
    let e' := fold_left (with_branch k) bs e in
    projectId e' = projectId e /\ projectName e' = projectName e
    /\ branches e' = branches e ++ branch_names bs k
    /\ users e' = users e /\ groups e' = groups e.
Proof.
  unfold branch_names.
  induction bs as [|b bs IH]; intros e; cbn [fold_left filter map].
  - cbn. rewrite app_nil_r. auto.
  - destruct (IH (with_branch k e b)) as [H1 [H2 [H3 [H4 H5]]]].
    cbv zeta. rewrite H1, H2, H3, H4, H5. unfold with_branch.
    destruct (String.eqb (Net.r_project b) k); cbn;
      [rewrite <- app_assoc|]; auto.
Qed.

Lemma with_details (k : string) (ds : list Detail) :
  forall e,
    let e' := fold_left (with_detail k) ds e in
    projectId e' = projectId e /\ projectName e' = projectName e
    /\ branches e' = branches e
    /\ users e' = users e ++ map as_user (users_of ds k)
    /\ groups e' = groups e ++ map as_group (groups_of ds k).
Proof.
  unfold users_of, groups_of.
  induction ds as [|d ds IH]; intros e; cbn [fold_left filter map].
  - cbn. rewrite !app_nil_r. auto.
  - destruct (IH (with_detail k e d)) as [H1 [H2 [H3 [H4 H5]]]].
    cbv zeta. rewrite H1, H2, H3, H4, H5. unfold with_detail.
    destruct (String.eqb (d_projectId d) k); cbn [andb]; [|auto].
    destruct (String.eqb (d_userType d) "User") eqn:U.
    + apply String.eqb_eq in U. rewrite U. cbn. rewrite <- app_assoc. auto.
    + destruct (String.eqb (d_userType d) "GroupName") eqn:G; cbn;
        [rewrite <- app_assoc|]; auto.
Qed.

Lemma completed_fresh (bs : list Net.Resource) (ds : list Detail) (p : string * Entry) :
  fresh_entry p ->
  projectId (completed bs ds p) = fst p
  /\ branches (completed bs ds p) = branch_names bs (fst p)
  /\ users (completed bs ds p) = map as_user (users_of ds (fst p))
  /\ groups (completed bs ds p) = map as_group (groups_of ds (fst p)).
Proof.
  intros [F1 [F2 [F3 F4]]]. unfold completed.
  destruct (with_details (fst p) ds (fold_left (with_branch (fst p)) bs (snd p)))
    as [D1 [_ [D3 [D4 D5]]]].
  destruct (with_branches (fst p) bs (snd p)) as [B1 [_ [B3 [B4 B5]]]].
  cbv zeta in *. rewrite D1, D3, D4, D5, B1, B3, B4, B5, F1, F2, F3, F4.
  auto.
Qed.

(** *** The rows *)

Lemma csvData_rows (ps : list Project) (ds : list Detail) (bs : list Net.Resource)
    (apps : list Application) (rows : list Row) :
  csvData ps ds (Some bs) apps = Ok rows ->
  exists final : ProjectMap,
    own final = map (fun p => (fst p, completed bs ds p)) (own (reduced ps))
    /\ rows = flat_map (project_rows (applicationMap final apps))
                (map (completed bs ds) (JsObject.ordered (own (reduced ps)))).
Proof.
  unfold csvData. fold (reduced ps). intros H.
  assert (N : NoDup (map fst (own (reduced ps)))).
  { apply reduce_NoDup. constructor. }
  destruct (for_each add_branch bs (reduced ps)) as [m2|] eqn:E2; [|discriminate].
  destruct (for_each add_detail ds m2) as [m3|] eqn:E3; [|discriminate].
  injection H as <-.
  pose proof (@branches_loop bs _ _ N E2) as O2.
  assert (N2 : NoDup (map fst (own m2))).
  { rewrite O2, map_keys_kept. exact N. }
  pose proof (@details_loop ds _ _ N2 E3) as O3.
  assert (O : own m3 = map (fun p => (fst p, completed bs ds p)) (own (reduced ps))).
  { rewrite O3, O2, map_map. reflexivity. }
  exists m3. split; [exact O|].
  unfold JsObject.values. rewrite O.
  rewrite (ordered_map (fun p => (fst p, completed bs ds p))) by reflexivity.
  rewrite map_map. reflexivity.
Qed.

Lemma ordered_reduced_fresh (ps : list Project) (p : string * Entry) :
  In p (JsObject.ordered (own (reduced ps))) ->
  fresh_entry p /\ In (fst p) (created_keys ps).
Proof.
  intros H. apply (proj1 (ordered_In p (own (reduced ps)))) in H. split.
  - assert (F : Forall fresh_entry (own (reduced ps))).
    { apply reduce_fresh. constructor. }
    rewrite Forall_forall in F. apply F. exact H.
  - unfold reduced in H. rewrite <- created_keys_of_map.
    apply in_map. exact H.
Qed.

Lemma keys_of_ordered_reduced (ps : list Project) :
  map fst (JsObject.ordered (own (reduced ps))) = project_keys ps.
Proof.
  rewrite keys_ordered. unfold reduced. rewrite created_keys_of_map. reflexivity.
Qed.

(** *** The application names *)

Lemma find_snoc {X} (f : X -> bool) (l : list X) (a : X) :
  find f (l ++ [a])
  = match find f l with
    | Some x => Some x
    | None => if f a then Some a else None
    end.
Proof.
  induction l as [|x l IH]; cbn; [reflexivity|].
  destruct (f x); [reflexivity | exact IH].
Qed.

Lemma last_listing (k : string) (apps : list Application) :
  forall start : option string,
    fold_left (fun o a => if existsb (String.eqb k) (app_projects a)
                          then Some (app_name a) else o) apps start
    = match owner apps k with
      | Some a => Some (app_name a)
      | None => start
      end.
Proof.
  unfold owner.
  induction apps as [|a apps IH]; intros start; cbn [fold_left rev]; [reflexivity|].
  rewrite IH, find_snoc.
  destruct (find (fun a0 => existsb (String.eqb k) (app_projects a0)) (rev apps));
    [reflexivity|].
  cbn [find]. destruct (existsb (String.eqb k) (app_projects a)); reflexivity.
Qed.

Lemma link_projects (m : ProjectMap) (nm k : string) (projs : list string) :
  lookup m k = Found -> String.eqb k "__proto__" = false ->
  forall amap,
    JsObject.get_own k (fold_left (link_project m nm) projs amap)
    = if existsb (String.eqb k) projs then Some nm else JsObject.get_own k amap.
Proof.
  intros L P.
  induction projs as [|pid projs IH]; intros amap; cbn [fold_left existsb]; [reflexivity|].
  rewrite IH. destruct (existsb (String.eqb k) projs);
    [rewrite orb_true_r; reflexivity|].
  rewrite orb_false_r. unfold link_project.
  destruct (String.eqb k pid) eqn:E.
  - apply String.eqb_eq in E. subst pid. rewrite L, P.
    apply get_own_set_same.
  - destruct (lookup m pid); try reflexivity;
      (destruct (String.eqb pid "__proto__"); [reflexivity|];
       apply get_own_set_other; exact E).
Qed.

Lemma application_of_key (m : ProjectMap) (k : string) (apps : list Application) :
  lookup m k = Found -> String.eqb k "__proto__" = false ->
  JsObject.get_own k (applicationMap m apps)
  = option_map app_name (owner apps k).
Proof.
  intros L P. unfold applicationMap.
  assert (G : forall amap,
            JsObject.get_own k (fold_left (add_application m) apps amap)
            = fold_left (fun o a => if existsb (String.eqb k) (app_projects a)
                                    then Some (app_name a) else o)
                        apps (JsObject.get_own k amap)).
  { induction apps as [|a apps IH]; intros amap; cbn [fold_left]; [reflexivity|].
    rewrite IH. unfold add_application.
    rewrite (@link_projects m (app_name a) k (app_projects a) L P). reflexivity. }
  rewrite G, last_listing. cbn. destruct (owner apps k); reflexivity.
Qed.

End ReportRows.

Module ReportTheorems.
Import CreateReport ReportFacts ReportLemmas ReportRows.

Lemma row_origin (ps : list Project) (ds : list Detail) (bs : list Net.Resource)
    (apps : list Application) (rows : list Row) (row : Row) :
  csvData ps ds (Some bs) apps = Ok rows -> In row rows ->
  exists (final : ProjectMap) (p : string * Entry),
    own final = map (fun p => (fst p, completed bs ds p)) (own (reduced ps))
    /\ In p (own (reduced ps))
    /\ fresh_entry p /\ In (fst p) (created_keys ps)
    /\ In row (project_rows (applicationMap final apps) (completed bs ds p)).
Proof.
  intros H Hin. destruct (@csvData_rows _ _ _ _ _ H) as [final [O R]].
  subst rows. apply in_flat_map in Hin. destruct Hin as [e [He Hrow]].
  apply in_map_iff in He. destruct He as [p [<- Hp]].
  destruct (@ordered_reduced_fresh _ _ Hp) as [F K].
  exists final, p. repeat split; try assumption; try apply F.
  apply (proj1 (ordered_In p (own (reduced ps)))). exact Hp.
Qed.

Lemma row_fields (amap : JsObject.props string) (e : Entry) (row : Row) :
  In row (project_rows amap e) ->
  row_projectId row = projectId e
  /\ row_branchNames row = pad (firstn maxBranches (branches e))
  /\ row_applicationName row = applicationName_of amap (projectId e).
Proof.
  unfold project_rows. intros H. apply in_app_iff in H.
  destruct H as [H|H]; apply in_map_iff in H; destruct H as [x [<- _]];
    repeat split.
Qed.

Lemma pad_slots (names : list string) :
  List.length (pad (firstn maxBranches names)) = 5
  /\ forall i, i < 5 ->
       nth_error (pad (firstn maxBranches names)) i = Some (nth i names "").
Proof.
  unfold pad, maxBranches.
  destruct names as [|a [|b [|c [|d [|e names]]]]]; cbn; (split; [reflexivity|]);
    intros i Hi;
    (destruct i as [|[|[|[|[|i]]]]]; [reflexivity..|lia]).
Qed.
End ReportTheorems.

(** C6.  In every row of the report, the branch-name slots are the first
    five branch names of the row's project, in the order of the branches
    snapshot, followed by empty strings up to five slots: slot [i] (counted
    from 0) holds the [i]-th branch name of the project when the project has
    more than [i] branches and the empty string otherwise, and a sixth or
    later branch appears in no slot. *)
Theorem branch_slots_are_first_five
    (allProjects : list Project) (allDetails : list Detail)
    (allBranches : list Net.Resource) (allApplications : list Application)
    (rows : list CreateReport.Row) (row : CreateReport.Row) :
  CreateReport.csvData allProjects allDetails (Some allBranches) allApplications = Ok rows ->
  In row rows ->
  let names := ReportFacts.branch_names allBranches (CreateReport.row_projectId row) in
  CreateReport.row_branchNames row = CreateReport.pad (firstn 5 names)
  /\ List.length (CreateReport.row_branchNames row) = 5
  /\ forall i, i < 5 ->
       nth_error (CreateReport.row_branchNames row) i = Some (nth i names "").
Proof.
  intros H Hin names.
  destruct (@ReportTheorems.row_origin _ _ _ _ _ _ H Hin)
    as [final [p [O [Hp [F [K Hrow]]]]]].
  destruct (@ReportTheorems.row_fields _ _ _ Hrow) as [R1 [R2 _]].
  destruct (@ReportRows.completed_fresh allBranches allDetails _ F) as [C1 [C2 _]].
  assert (E : CreateReport.row_branchNames row
              = CreateReport.pad (firstn CreateReport.maxBranches names)).
  { rewrite R2, C2. unfold names. rewrite R1, C1. reflexivity. }
  split; [exact E|]. rewrite E.
  apply ReportTheorems.pad_slots.
Qed.

Module ReportOrder.
Import CreateReport ReportFacts ReportLemmas ReportRows.

Lemma key_order_plain (ks : list string) :
  (forall k, In k ks -> JsObject.is_index k = false) ->
  KeyOrder.key_order ks = ks.
Proof.
  intros H. unfold KeyOrder.key_order.
  assert (E1 : filter JsObject.is_index ks = []).
  { induction ks as [|k ks IH]; cbn; [reflexivity|].
    rewrite (H k (or_introl eq_refl)). apply IH.
    intros k' Hk. apply H. right. exact Hk. }
  assert (E2 : filter (fun k => negb (JsObject.is_index k)) ks = ks).
  { clear E1. induction ks as [|k ks IH]; cbn; [reflexivity|].
    rewrite (H k (or_introl eq_refl)). cbn. f_equal. apply IH.
    intros k' Hk. apply H. right. exact Hk. }
  rewrite E1, E2. reflexivity.
Qed.

Lemma summary_of_entry (amap : JsObject.props string) (ds : list Detail)
    (bs : list Net.Resource) (p : string * Entry) :
  fresh_entry p ->
  map summary (project_rows amap (completed bs ds p)) = principal_rows ds (fst p).
Proof.
  intros F. destruct (@completed_fresh bs ds p F) as [C1 [_ [C3 C4]]].
  unfold project_rows, principal_rows.
  rewrite map_app, !map_map, C3, C4, !map_map.
  f_equal; apply map_ext; intros d; unfold summary; cbn; rewrite C1; reflexivity.
Qed.

Lemma summaries (ps : list Project) (ds : list Detail) (bs : list Net.Resource)
    (apps : list Application) (rows : list Row) :
  csvData ps ds (Some bs) apps = Ok rows ->
  map summary rows = flat_map (principal_rows ds) (project_keys ps).
Proof.
  intros H. destruct (@csvData_rows _ _ _ _ _ H) as [final [_ ->]].
  rewrite <- keys_of_ordered_reduced.
  rewrite !flat_map_concat_map, concat_map, !map_map.
  f_equal. apply map_ext_in. intros p Hp.
  apply summary_of_entry.
  apply (@ordered_reduced_fresh ps p Hp).
Qed.

(** *** When the rows are made *)

Lemma has_own_update (k k' : string) (f : Entry -> Entry) (o : JsObject.props Entry) :
  JsObject.has_own k' (JsObject.update_own k f o) = JsObject.has_own k' o.
Proof.
  unfold JsObject.has_own.
  induction o as [|[k2 e] o IH]; cbn; [reflexivity|].
  destruct (String.eqb k k2); cbn; destruct (String.eqb k' k2); auto.
Qed.

Lemma lookup_after_change (m m' : ProjectMap) (k : string) (f : Entry -> Entry) :
  keeps_identity f -> change m k f = Ok m' ->
  forall k', lookup m' k' = lookup m k'.
Proof.
  intros Kf H k'. unfold change in H.
  destruct (lookup m k); try discriminate; injection H as <-; try reflexivity.
  - unfold lookup. cbn [own proto]. rewrite has_own_update. reflexivity.
  - unfold lookup. cbn [own proto].
    destruct (JsObject.has_own k' (own m)); [reflexivity|].
    destruct (proto m) as [e|]; cbn [option_map]; [|reflexivity].
    destruct (Kf e) as [K1 [K2 K3]].
    unfold entry_property. rewrite K1, K2, K3. reflexivity.
Qed.

Lemma change_succeeds (m : ProjectMap) (k : string) (f : Entry -> Entry) :
  lookup m k <> Foreign -> exists m', change m k f = Ok m'.
Proof.
  intros H. unfold change. destruct (lookup m k); try (eexists; reflexivity).
  contradiction H. reflexivity.
Qed.

Lemma branches_succeed (bs : list Net.Resource) :
  forall m,
    (forall b, In b bs -> lookup m (Net.r_project b) <> Foreign) ->
    exists m', for_each add_branch bs m = Ok m'
               /\ forall k, lookup m' k = lookup m k.
Proof.
  induction bs as [|b bs IH]; intros m H; cbn [for_each].
  - exists m. split; reflexivity.
  - destruct (@change_succeeds m (Net.r_project b) (push_branch (Net.r_name b))
                (H b (or_introl eq_refl))) as [m1 E].
    unfold add_branch. rewrite E.
    assert (L1 : forall k, lookup m1 k = lookup m k).
    { apply (@lookup_after_change m m1 (Net.r_project b) (push_branch (Net.r_name b)));
        [|exact E].
      intros e. repeat split. }
    destruct (IH m1) as [m' [E' L']].
    + intros b' Hb. rewrite L1. apply H. right. exact Hb.
    + exists m'. split; [exact E'|]. intros k. rewrite L', L1. reflexivity.
Qed.

Lemma details_succeed (ds : list Detail) :
  forall m,
    (forall d, In d ds -> lookup m (d_projectId d) <> Foreign) ->
    exists m', for_each add_detail ds m = Ok m'.
Proof.
  induction ds as [|d ds IH]; intros m H; cbn [for_each].
  - exists m. reflexivity.
  - assert (S : exists m1, add_detail m d = Ok m1
                           /\ forall k, lookup m1 k = lookup m k).
    { unfold add_detail.
      pose proof (H d (or_introl eq_refl)) as Hd.
      destruct (lookup m (d_projectId d)) eqn:L;
        try (exists m; split; reflexivity);
        try (contradiction Hd; reflexivity);
        (destruct (String.eqb (d_userType d) "User");
         [|destruct (String.eqb (d_userType d) "GroupName");
           [|exists m; split; reflexivity]]);
        match goal with
        | |- exists m1, change m ?k ?f = Ok m1 /\ _ =>
            destruct (@change_succeeds m k f) as [m1 E];
            [rewrite L; discriminate|];
            exists m1; split; [exact E|];
            apply (@lookup_after_change m m1 k f); [|exact E];
            intros e; repeat split
        end. }
    destruct S as [m1 [E L1]]. rewrite E.
    apply IH. intros d' Hd'. rewrite L1. apply H. right. exact Hd'.
Qed.

Lemma rows_are_made (ps : list Project) (ds : list Detail) (bs : list Net.Resource)
    (apps : list Application) :
  refers_to_entries ps ds bs -> exists rows, csvData ps ds (Some bs) apps = Ok rows.
Proof.
  intros [Hb Hd]. unfold csvData. fold (reduced ps).
  destruct (@branches_succeed bs (reduced ps) Hb) as [m2 [E2 L2]]. rewrite E2.
  destruct (@details_succeed ds m2) as [m3 E3].
  - intros d Hin. rewrite L2. apply Hd. exact Hin.
  - rewrite E3. eexists. reflexivity.
Qed.

(** Ids that are neither [__proto__] (as a project) nor the name of a
    property of [Object.prototype] (in a record) refer to entries or to
    nothing. *)
Lemma reduce_proto (ps : list Project) :
  forall m,
    proto m = None ->
    (forall p, In p ps -> String.eqb (proj_id p) "__proto__" = false) ->
    proto (fold_left add_project ps m) = None.
Proof.
  induction ps as [|p ps IH]; intros m Hm H; cbn [fold_left]; [exact Hm|].
  apply IH.
  - unfold add_project. rewrite (H p (or_introl eq_refl)). exact Hm.
  - intros p' Hp. apply H. right. exact Hp.
Qed.

Lemma plain_ids_refer_to_entries (ps : list Project) (ds : list Detail)
    (bs : list Net.Resource) :
  (forall p, In p ps -> String.eqb (proj_id p) "__proto__" = false) ->
  (forall b, In b bs -> JsObject.inherited (Net.r_project b) = false) ->
  (forall d, In d ds -> JsObject.inherited (d_projectId d) = false) ->
  refers_to_entries ps ds bs.
Proof.
  intros Hp Hb Hd.
  assert (P : proto (reduced ps) = None).
  { apply reduce_proto; [reflexivity | exact Hp]. }
  assert (L : forall k, JsObject.inherited k = false ->
                        lookup (reduced ps) k <> Foreign).
  { intros k Hk. unfold lookup. rewrite P.
    destruct (JsObject.has_own k (own (reduced ps))); [discriminate|].
    destruct (String.eqb k "__proto__") eqn:E.
    - apply String.eqb_eq in E. subst k. discriminate Hk.
    - unfold of_object_prototype. rewrite Hk. discriminate. }
  split; intros x Hx; apply L; [apply Hb | apply Hd]; exact Hx.
Qed.
End ReportOrder.


(** C5, as amended.  In every row of the report, a project that some
    application lists carries the name of the last application of the
    snapshot that lists it, or "No Application Name" when that name is empty;
    a project that no application lists, and whose id is not the name of a
    property of [Object.prototype], carries "No Application Name". *)
Theorem application_name_of_row
    (allProjects : list Project) (allDetails : list Detail)
    (allBranches : list Net.Resource) (allApplications : list Application)
    (rows : list CreateReport.Row) (row : CreateReport.Row) :
  CreateReport.csvData allProjects allDetails (Some allBranches) allApplications = Ok rows ->
  In row rows ->
  match ReportFacts.owner allApplications (CreateReport.row_projectId row) with
  | Some a =>
      In a allApplications /\ In (CreateReport.row_projectId row) (app_projects a)
      /\ CreateReport.row_applicationName row
         = CreateReport.Named (if JsString.truthy (app_name a) then app_name a
                               else "No Application Name")
  | None =>
      (forall a, In a allApplications ->
                 ~ In (CreateReport.row_projectId row) (app_projects a))
      /\ (JsObject.inherited (CreateReport.row_projectId row) = false ->
          CreateReport.row_applicationName row
          = CreateReport.Named "No Application Name")
  end.
Proof.
  intros H Hin.
  destruct (@ReportTheorems.row_origin _ _ _ _ _ _ H Hin)
    as [final [p [O [Hp [F [K Hrow]]]]]].
  destruct (@ReportTheorems.row_fields _ _ _ Hrow) as [R1 [_ R3]].
  destruct (@ReportRows.completed_fresh allBranches allDetails _ F) as [C1 _].
  rewrite C1 in R1, R3. rewrite R1.
  destruct (@ReportLemmas.created_key_is_project_id allProjects (fst p) K) as [_ NP].
  assert (L : CreateReport.lookup final (fst p) = CreateReport.Found).
  { apply ReportLemmas.lookup_Found. apply has_own_In. rewrite O, map_map. cbn.
    apply in_map. exact Hp. }
  pose proof (@ReportRows.application_of_key final (fst p) allApplications L NP) as G.
  unfold CreateReport.applicationName_of in R3. rewrite G in R3.
  unfold ReportFacts.owner in *.
  destruct (find (fun a => existsb (String.eqb (fst p)) (app_projects a))
                 (rev allApplications)) as [a|] eqn:E.
  - apply find_some in E. destruct E as [Ha Hk]. cbn [option_map] in R3.
    split; [apply in_rev; exact Ha|]. split.
    + apply existsb_exists in Hk. destruct Hk as [x [Hx Ex]].
      apply String.eqb_eq in Ex. subst x. exact Hx.
    + rewrite R3. destruct (JsString.truthy (app_name a)); reflexivity.
  - cbn [option_map] in R3. split.
    + intros a Ha Hk.
      pose proof (find_none _ _ E a (proj1 (in_rev _ _) Ha)) as N. cbn in N.
      assert (T : existsb (String.eqb (fst p)) (app_projects a) = true).
      { apply existsb_exists. exists (fst p). split; [exact Hk | apply String.eqb_refl]. }
      congruence.
    + intros I. rewrite I in R3. exact R3.
Qed.

(** Every row belongs to a project of the projects snapshot. *)
Lemma rows_belong_to_snapshot
    (allProjects : list Project) (allDetails : list Detail)
    (allBranches : list Net.Resource) (allApplications : list Application)
    (rows : list CreateReport.Row) (row : CreateReport.Row) :
  CreateReport.csvData allProjects allDetails (Some allBranches) allApplications = Ok rows ->
  In row rows ->
  In (CreateReport.row_projectId row) (map proj_id allProjects).
Proof.
  intros H Hin.
  destruct (@ReportTheorems.row_origin _ _ _ _ _ _ H Hin)
    as [final [p [O [Hp [F [K Hrow]]]]]].
  destruct (@ReportTheorems.row_fields _ _ _ Hrow) as [R1 _].
  destruct (@ReportRows.completed_fresh allBranches allDetails _ F) as [C1 _].
  rewrite R1, C1.
  apply (@ReportLemmas.created_key_is_project_id allProjects (fst p) K).
Qed.

(** A record whose project id is unknown to the map, own or inherited,
    changes nothing. *)
Lemma unknown_record_is_dropped (m : CreateReport.ProjectMap)
    (branch : Net.Resource) (detail : Detail) :
  (CreateReport.lookup m (Net.r_project branch) = CreateReport.Missing ->
   CreateReport.add_branch m branch = Ok m)
  /\ (CreateReport.lookup m (d_projectId detail) = CreateReport.Missing ->
      CreateReport.add_detail m detail = Ok m).
Proof.
  split; intros L.
  - unfold CreateReport.add_branch, CreateReport.change. rewrite L. reflexivity.
  - unfold CreateReport.add_detail. rewrite L. reflexivity.
Qed.

(** ** The report on small snapshots *)

(** The scenario of the specification: application A with project P1, its
    branches main and dev, the user Alice and the group QA. *)
Example end_to_end_scenario :
  CreateReport.csvData
    [snapshot_project "P1" "Project one"]
    [detail "P1" "User" "Alice" "alice@x.com"; detail "P1" "GroupName" "QA" ""]
    (Some [branch "main" "P1"; branch "dev" "P1"])
    [application "A" ["P1"]]
  = Ok [report_row (CreateReport.Named "A") "Project one" "P1" "Individual User"
          "Alice" "alice@x.com" ["main"; "dev"; ""; ""; ""];
        report_row (CreateReport.Named "A") "Project one" "P1" "Group"
          "QA" "" ["main"; "dev"; ""; ""; ""]].
Proof. reflexivity. Qed.

Lemma branch_slots_are_first_five_witness :
  CreateReport.row_branchNames
    (report_row (CreateReport.Named "No Application Name") "Project one" "P1"
       "Individual User" "Alice" "alice@x.com" ["b1"; "b2"; "b3"; "b4"; "b5"])
  = CreateReport.pad (firstn 5 ["b1"; "b2"; "b3"; "b4"; "b5"; "b6"; "b7"])
  /\ List.length
       (CreateReport.row_branchNames
          (report_row (CreateReport.Named "No Application Name") "Project one" "P1"
             "Individual User" "Alice" "alice@x.com" ["b1"; "b2"; "b3"; "b4"; "b5"]))
     = 5
  /\ forall i, i < 5 ->
       nth_error
         (CreateReport.row_branchNames
            (report_row (CreateReport.Named "No Application Name") "Project one" "P1"
               "Individual User" "Alice" "alice@x.com" ["b1"; "b2"; "b3"; "b4"; "b5"])) i
       = Some (nth i ["b1"; "b2"; "b3"; "b4"; "b5"; "b6"; "b7"] "").
Proof.
  apply (@branch_slots_are_first_five
           [snapshot_project "P1" "Project one"]
           [detail "P1" "User" "Alice" "alice@x.com"]
           seven_branches []
           [report_row (CreateReport.Named "No Application Name") "Project one" "P1"
              "Individual User" "Alice" "alice@x.com" ["b1"; "b2"; "b3"; "b4"; "b5"]]
           (report_row (CreateReport.Named "No Application Name") "Project one" "P1"
              "Individual User" "Alice" "alice@x.com" ["b1"; "b2"; "b3"; "b4"; "b5"])).
  - reflexivity.
  - left. reflexivity.
Defined.

Lemma application_name_of_row_witness :
  In (application "A" ["P1"]) [application "A" ["P1"]]
  /\ In "P1" (app_projects (application "A" ["P1"]))
  /\ CreateReport.row_applicationName
       (report_row (CreateReport.Named "A") "Project one" "P1" "Individual User"
          "Alice" "alice@x.com" ["main"; "dev"; ""; ""; ""])
     = CreateReport.Named "A".
Proof.
  apply (@application_name_of_row
           [snapshot_project "P1" "Project one"]
           [detail "P1" "User" "Alice" "alice@x.com"; detail "P1" "GroupName" "QA" ""]
           [branch "main" "P1"; branch "dev" "P1"]
           [application "A" ["P1"]]
           [report_row (CreateReport.Named "A") "Project one" "P1" "Individual User"
              "Alice" "alice@x.com" ["main"; "dev"; ""; ""; ""];
            report_row (CreateReport.Named "A") "Project one" "P1" "Group"
              "QA" "" ["main"; "dev"; ""; ""; ""]]
           (report_row (CreateReport.Named "A") "Project one" "P1" "Individual User"
              "Alice" "alice@x.com" ["main"; "dev"; ""; ""; ""])).
  - reflexivity.
  - left. reflexivity.
Defined.

(** C5 as stated fails: the project P is listed by an application whose
    name is empty, and its row carries "No Application Name", not that
    application's name. *)
Lemma nameless_application_gets_the_sentinel :
  In "P" (app_projects (application "" ["P"]))
  /\ CreateReport.csvData [snapshot_project "P" "p"] [detail "P" "User" "u" ""]
       (Some []) [application "" ["P"]]
     = Ok [report_row (CreateReport.Named "No Application Name") "p" "P"
             "Individual User" "u" "" [""; ""; ""; ""; ""]]
  /\ CreateReport.Named "No Application Name"
     <> CreateReport.Named (app_name (application "" ["P"])).
Proof.
  split; [left; reflexivity|]. split; [reflexivity | discriminate].
Qed.



(** A project with the id [__proto__] gets no row, and neither do its
    principals: the assignment sets the prototype of the map, and the detail
    is pushed to that prototype, which [Object.values] does not visit. *)
Lemma proto_project_gets_no_row :
  ReportFacts.project_keys [snapshot_project "__proto__" "hidden"; snapshot_project "P" "p"]
  = ["P"]
  /\ CreateReport.csvData
       [snapshot_project "__proto__" "hidden"; snapshot_project "P" "p"]
       [detail "__proto__" "User" "u" "u@x.com"; detail "P" "User" "v" "v@x.com"]
       (Some []) []
     = Ok [report_row (CreateReport.Named "No Application Name") "p" "P"
             "Individual User" "v" "v@x.com" [""; ""; ""; ""; ""]].
Proof. split; reflexivity. Qed.

(** C9: a branch whose project id is [constructor], an id that is not in
    the projects snapshot, is not dropped: [projectMap['constructor']] is the
    inherited function, [push] is read on [undefined], and the TypeError ends
    the run in the [catch]; the row of the project P is not made. *)
Theorem inherited_key_breaks_the_report :
  ~ In "constructor" (map proj_id [snapshot_project "P" "p"])
  /\ CreateReport.csvData [snapshot_project "P" "p"] [detail "P" "User" "u" ""]
       (Some [branch "main" "constructor"]) []
     = Throw TypeError
  /\ CreateReport.csvData [snapshot_project "P" "p"] [detail "P" "User" "u" ""]
       (Some []) []
     = Ok [report_row (CreateReport.Named "No Application Name") "p" "P"
             "Individual User" "u" "" [""; ""; ""; ""; ""]].
Proof.
  split; [|split; reflexivity].
  intros [H|[]]. discriminate H.
Qed.

(* ====================================================================== *)
(** * Further properties of the scripts *)
(* ====================================================================== *)

(** ** The boundary of a stage *)

Lemma try_catch_returns {A} (m : M A) (h : exn -> M A) :
  (forall e w w' o, h e w = Some (w', o) -> exists a, o = Ok a) ->
  forall w w' o, try_catch m h w = Some (w', o) -> exists a, o = Ok a.
Proof.
  intros Hh w w' o E. unfold try_catch in E.
  destruct (m w) as [[w1 [a|e]]|]; [| |discriminate].
  - injection E as _ <-. exists a. reflexivity.
  - exact (Hh _ _ _ _ E).
Qed.

Lemma try_finally_returns {A} (m : M A) (f : World -> World) :
  (forall w w' o, m w = Some (w', o) -> exists a, o = Ok a) ->
  forall w w' o, try_finally m f w = Some (w', o) -> exists a, o = Ok a.
Proof.
  intros Hm w w' o E. unfold try_finally in E.
  destruct (m w) as [[w1 r]|] eqn:Em; [|discriminate].
  injection E as _ <-. exact (Hm _ _ _ Em).
Qed.

Lemma ret_returns {A} (a : A) (w w' : World) (o : outcome A) :
  ret a w = Some (w', o) -> exists a', o = Ok a'.
Proof. intros E. injection E as _ <-. exists a. reflexivity. Qed.

(** X1.  No stage lets an error out: whatever the server, the console and
    the configuration do, a run of the applications, projects or
    role-assignments stage of main.mjs that ends, ends by returning and never
    with an exception, and a run of a stand-alone script that ends, ends
    normally: every throw inside is caught by the [catch] of the function.
    Nothing is said about the kind of value returned: the projects stage
    returns what an existing projectList.json holds, here an array. *)
Theorem stages_return_normally
    (server : Net.Server) (answers : nat -> string)
    (replace : string -> string -> string -> string)
    (fuel : nat) (config : option Config) (stored : outcome (list Project))
    (allProjects : list Project) (w w' : World) :
  (forall o, Main.fetchApplicationsWithAuth server answers replace fuel config w
             = Some (w', o) -> forall e, o <> Throw e)
  /\ (forall o, Main.fetchProjectsWithAuth server replace fuel config stored w
                = Some (w', o) -> forall e, o <> Throw e)
  /\ (forall o, Main.fetchRoleAssignments server replace config allProjects w
                = Some (w', o) -> forall e, o <> Throw e)
  /\ (forall o, GetApplicationList.fetchApplicationsWithAuth server answers replace
                  fuel config w = Some (w', o) -> o = Ok tt)
  /\ (forall o, GetProjectProperties.fetchProjectsWithAuth server answers replace
                  fuel config w = Some (w', o) -> o = Ok tt)
  /\ (forall o, GetProjectUserInformation.fetchProjectsWithAuth server replace
                  fuel config stored w = Some (w', o) -> o = Ok tt).
Proof.
  assert (U : forall o : outcome unit, (exists a, o = Ok a) -> o = Ok tt).
  { intros o [[] ->]. reflexivity. }
  assert (V : forall (A : Type) (o : outcome A),
             (exists a, o = Ok a) -> forall e, o <> Throw e).
  { intros A o [a ->] e. discriminate. }
  split; [|split; [|split; [|split; [|split]]]]; intros o E.
  - apply V. revert E. apply try_finally_returns. apply try_catch_returns.
    intros e. apply ret_returns.
  - apply V. revert E. apply try_catch_returns. intros e. apply ret_returns.
  - apply V. revert E. apply try_catch_returns. intros e. apply ret_returns.
  - apply U. revert E. apply try_finally_returns. apply try_catch_returns.
    intros e. apply ret_returns.
  - apply U. revert E. apply try_finally_returns. apply try_catch_returns.
    intros e. apply ret_returns.
  - apply U. revert E. apply try_finally_returns. apply try_catch_returns.
    intros e. apply ret_returns.
Qed.

Lemma stages_return_normally_witness :
  @Ok (list Detail) (contributions [snapshot_project "p1" "one"]
                       [sample_response 200 None None None (Some [item "u"])])
  <> Throw TypeError.
Proof.
  apply (proj1 (proj2 (proj2
           (stages_return_normally demo_server (fun _ => "yes") simple_replace 3
              (Some (sample_config (Some (JsString.units "s3cret")) None)) (Ok [])
              [snapshot_project "p1" "one"] (fresh_world [])
              {| requests :=
                   [Net.PostForm "https://{customer}/auth/v1"
                      [("email", JsString.units "a@x.com");
                       ("password", JsString.units "s3cret")];
                    Net.GetRoleAssignments "demo" "p1" "abc.def"];
                 asked := [];
                 files := ["./output/userDetailsList.json"; "./output/userDetailsList.csv"];
                 rl_open := true |})))).
  vm_compute. reflexivity.
Defined.

(** ** The output directory and the overwrite prompts *)

Lemma exists_in_removing (path other : string) (w : World) :
  exists_in (removing path w) other
  = negb (String.eqb path other) && exists_in w other.
Proof.
  unfold exists_in, removing. cbn [files].
  induction (files w) as [|f fs IH]; cbn.
  - apply eq_sym, andb_false_r.
  - destruct (String.eqb path f) eqn:E; cbn.
    + rewrite IH. apply String.eqb_eq in E. subst f.
      destruct (String.eqb other path) eqn:E2; [|reflexivity].
      apply String.eqb_eq in E2. subst other. rewrite String.eqb_refl. reflexivity.
    + rewrite IH. destruct (String.eqb other f) eqn:E2; [|reflexivity].
      apply String.eqb_eq in E2. subst other. rewrite E. reflexivity.
Qed.

Lemma guard_accepted (answers : nat -> string) (path question : string) (w : World) :
  exists_in w path = true ->
  declines (answers (List.length (asked w))) = false ->
  overwrite_guard answers path question w
  = Some (removing path (asking question w), Ok true).
Proof.
  intros H D. unfold overwrite_guard, bind, file_exists, askQuestion.
  unfold exists_in in H. rewrite H, D. reflexivity.
Qed.

(** X2.  [ensureOutputDirectoryExists] can be repeated: after it the
    directory exists, a second call changes nothing, and no artifact that
    existed is lost. *)
Theorem ensure_directory_is_idempotent (dir : string) (w : World) :
  exists w1,
    ensureOutputDirectoryExists dir w = Some (w1, Ok tt)
    /\ exists_in w1 dir = true
    /\ ensureOutputDirectoryExists dir w1 = Some (w1, Ok tt)
    /\ (forall path, exists_in w path = true -> exists_in w1 path = true)
    /\ (forall path, exists_in w1 path = true ->
                     exists_in w path = true \/ path = dir).
Proof.
  unfold ensureOutputDirectoryExists, bind, file_exists.
  destruct (existsb (String.eqb dir) (files w)) eqn:E.
  - exists w. unfold exists_in. rewrite E. repeat split; auto.
  - unfold writeFile. rewrite E. eexists. split; [reflexivity|].
    unfold exists_in. cbn [files].
    assert (Hd : existsb (String.eqb dir) (files w ++ [dir]) = true).
    { rewrite existsb_app. cbn. rewrite String.eqb_refl. apply orb_true_r. }
    rewrite Hd. repeat split.
    + intros path H. rewrite existsb_app, H. reflexivity.
    + intros path H. rewrite existsb_app in H. apply orb_true_iff in H.
      destruct H as [H|H]; [left; exact H|].
      right. cbn in H. rewrite orb_false_r in H. apply String.eqb_eq in H. exact H.
Qed.

(** X3.  In the applications stage of main.mjs, an accepted prompt for the
    JSON artifact followed by a declined prompt for the CSV artifact ends the
    stage with the empty array and without a request, but
    [applicationsList.json] is already deleted; the CSV artifact stays. *)
Theorem accepted_then_declined_loses_json
    (server : Net.Server) (answers : nat -> string)
    (replace : string -> string -> string -> string)
    (fuel : nat) (config : option Config) (w : World) :
  exists_in w Main.applicationsListPath = true ->
  exists_in w Main.applicationsCsvPath = true ->
  declines (answers (List.length (asked w))) = false ->
  declines (answers (S (List.length (asked w)))) = true ->
  exists w',
    Main.fetchApplicationsWithAuth server answers replace fuel config w
    = Some (w', Ok [])
    /\ exists_in w' Main.applicationsListPath = false
    /\ exists_in w' Main.applicationsCsvPath = true
    /\ requests w' = requests w
    /\ List.length (asked w') = 2 + List.length (asked w).
Proof.
  intros Hjson Hcsv Hyes Hno.
  destruct (ensure_keeps Main.outputDirectory w) as [w1 [E [Hr [Ha [Hrl [Hk Hsame]]]]]].
  unfold Main.fetchApplicationsWithAuth, try_finally, try_catch.
  unfold bind at 1. rewrite E. unfold bind at 1.
  rewrite (@guard_accepted answers _ _ w1 (Hk _ Hjson)) by (rewrite Ha; exact Hyes).
  cbn [negb]. unfold bind at 1.
  rewrite guard_declined.
  - cbn [negb]. unfold ret. eexists. split; [reflexivity|].
    cbn [requests asked rl_close asking removing].
    rewrite Hr, Ha, !length_app. cbn [List.length].
    repeat split; try lia.
    + change (exists_in
                (removing Main.applicationsListPath
                   (asking "applicationsList.json already exists. Do you want to delete it? [ yes | no ]: " w1))
                Main.applicationsListPath = false).
      rewrite exists_in_removing, String.eqb_refl. reflexivity.
    + change (exists_in
                (removing Main.applicationsListPath
                   (asking "applicationsList.json already exists. Do you want to delete it? [ yes | no ]: " w1))
                Main.applicationsCsvPath = true).
      rewrite exists_in_removing. cbn [negb andb].
      change (exists_in w1 Main.applicationsCsvPath = true). apply Hk. exact Hcsv.
  - rewrite exists_in_removing. cbn [negb andb].
    change (exists_in w1 Main.applicationsCsvPath = true). apply Hk. exact Hcsv.
  - cbn [asked removing asking]. rewrite length_app, Ha. cbn [List.length].
    rewrite Nat.add_1_r. exact Hno.
Qed.

Lemma accepted_then_declined_loses_json_witness :
  exists w',
    Main.fetchApplicationsWithAuth demo_server
      (fun n => match n with O => "Y" | S _ => "no" end) simple_replace 3 None
      (fresh_world ["./output"; "./output/applicationsList.json";
                    "./output/applicationsList.csv"])
    = Some (w', Ok [])
    /\ exists_in w' Main.applicationsListPath = false
    /\ exists_in w' Main.applicationsCsvPath = true
    /\ requests w'
       = requests (fresh_world ["./output"; "./output/applicationsList.json";
                                "./output/applicationsList.csv"])
    /\ List.length (asked w')
       = 2 + List.length (asked (fresh_world ["./output"; "./output/applicationsList.json";
                                              "./output/applicationsList.csv"])).
Proof.
  apply (@accepted_then_declined_loses_json demo_server
           (fun n => match n with O => "Y" | S _ => "no" end) simple_replace 3 None
           (fresh_world ["./output"; "./output/applicationsList.json";
                         "./output/applicationsList.csv"]));
    reflexivity.
Defined.

(** ** A configuration that cannot be used *)

Lemma guard_returns (answers : nat -> string) (path question : string) (w : World) :
  exists w' go,
    overwrite_guard answers path question w = Some (w', Ok go)
    /\ requests w' = requests w
    /\ (forall p, exists_in w' p = true -> exists_in w p = true).
Proof.
  unfold overwrite_guard, bind, file_exists, askQuestion.
  destruct (existsb (String.eqb path) (files w)).
  - destruct (declines (answers (List.length (asked w)))).
    + eexists. eexists. split; [reflexivity|]. split; [reflexivity|]. auto.
    + eexists. eexists. split; [reflexivity|]. split; [reflexivity|].
      intros p H. unfold exists_in in *. cbn [files] in H.
      apply existsb_exists in H. destruct H as [f [Hf E]].
      apply filter_In in Hf. apply existsb_exists. exists f. tauto.
  - eexists. eexists. split; [reflexivity|]. auto.
Qed.

Lemma ensure_adds_directory_only (dir : string) (w : World) :
  exists w1,
    ensureOutputDirectoryExists dir w = Some (w1, Ok tt)
    /\ requests w1 = requests w
    /\ (forall p, exists_in w1 p = true -> exists_in w p = true \/ p = dir).
Proof.
  destruct (ensure_keeps dir w) as [w1 [E [Hr [_ [_ [_ Hsame]]]]]].
  exists w1. split; [exact E|]. split; [exact Hr|].
  intros p H. destruct (String.eqb p dir) eqn:Ed.
  - right. apply String.eqb_eq. exact Ed.
  - left. rewrite <- (Hsame p Ed). exact H.
Qed.

Lemma applications_refused
    (server : Net.Server) (replace : string -> string -> string -> string)
    (fuel : nat) (config : option Config) (w : World) :
  (config = None \/ exists cfg, config = Some cfg /\ lacks_required cfg) ->
  (exists e, Main.applications_fetch_and_store server replace fuel config w
             = Some (w, Throw e))
  /\ (exists e, GetApplicationList.fetch_and_store server replace fuel config w
                = Some (w, Throw e)).
Proof.
  intros [-> | [cfg [-> H]]].
  - split; eexists; reflexivity.
  - assert (C : negb (some_truthy (authUrlTemplate cfg))
                || negb (some_truthy (authUrlV2Template cfg))
                || negb (some_truthy (applicationsUrlTemplate cfg))
                || negb (JsString.truthy (customer cfg)) = true).
    { destruct H as [H | [H | [H | H]]]; rewrite H; cbn;
        rewrite ?orb_true_r; reflexivity. }
    unfold Main.applications_fetch_and_store, GetApplicationList.fetch_and_store,
      read_config, bind, ret.
    rewrite C. split; eexists; reflexivity.
Qed.

(** X4.  Without a [config.json] that can be parsed, or with one that lacks
    one of [authUrlTemplate], [authUrlV2Template], [applicationsUrlTemplate]
    and [customer] (missing or empty), the applications stage of main.mjs
    returns the empty array and getApplicationList.mjs ends, in both cases
    without a request, with the console closed and with no artifact written
    (only the output directory may be new). *)
Theorem unusable_config_sends_nothing
    (server : Net.Server) (answers : nat -> string)
    (replace : string -> string -> string -> string)
    (fuel : nat) (config : option Config) (w : World) :
  (config = None \/ exists cfg, config = Some cfg /\ lacks_required cfg) ->
  (exists w',
     Main.fetchApplicationsWithAuth server answers replace fuel config w
     = Some (w', Ok [])
     /\ requests w' = requests w /\ rl_open w' = false
     /\ (forall p, exists_in w' p = true ->
                   exists_in w p = true \/ p = Main.outputDirectory))
  /\ (exists w',
        GetApplicationList.fetchApplicationsWithAuth server answers replace fuel config w
        = Some (w', Ok tt)
        /\ requests w' = requests w /\ rl_open w' = false
        /\ (forall p, exists_in w' p = true ->
                      exists_in w p = true \/ p = GetApplicationList.outputDirectory)).
Proof.
  intros H. split.
  - destruct (ensure_adds_directory_only Main.outputDirectory w) as [w1 [E [R1 F1]]].
    unfold Main.fetchApplicationsWithAuth, try_finally, try_catch.
    unfold bind at 1. rewrite E. unfold bind at 1.
    destruct (guard_returns answers Main.applicationsListPath
                "applicationsList.json already exists. Do you want to delete it? [ yes | no ]: "
                w1) as [w2 [go1 [E2 [R2 F2]]]].
    rewrite E2. destruct go1; cbn [negb].
    + unfold bind at 1.
      destruct (guard_returns answers Main.applicationsCsvPath
                  "applicationsList.csv already exists. Do you want to delete it? [ yes | no ]: "
                  w2) as [w3 [go2 [E3 [R3 F3]]]].
      rewrite E3. destruct go2; cbn [negb].
      * destruct (proj1 (@applications_refused server replace fuel config w3 H)) as [e Ee].
        rewrite Ee. unfold ret. eexists. split; [reflexivity|].
        cbn [requests rl_open rl_close]. rewrite R3, R2, R1.
        repeat split. intros p Hp. apply F1, F2, F3. exact Hp.
      * unfold ret. eexists. split; [reflexivity|].
        cbn [requests rl_open rl_close]. rewrite R3, R2, R1.
        repeat split. intros p Hp. apply F1, F2, F3. exact Hp.
    + unfold ret. eexists. split; [reflexivity|].
      cbn [requests rl_open rl_close]. rewrite R2, R1.
      repeat split. intros p Hp. apply F1, F2. exact Hp.
  - destruct (ensure_adds_directory_only GetApplicationList.outputDirectory w)
      as [w1 [E [R1 F1]]].
    unfold GetApplicationList.fetchApplicationsWithAuth, try_finally, try_catch.
    unfold bind at 1. rewrite E. unfold bind at 1.
    destruct (guard_returns answers GetApplicationList.applicationsListPath
                "applicationsList.json already exists. Do you want to delete it? [ yes | no ]: "
                w1) as [w2 [go1 [E2 [R2 F2]]]].
    rewrite E2. destruct go1; cbn [negb].
    + unfold bind at 1.
      destruct (guard_returns answers GetApplicationList.csvPath
                  "applicationsList.csv already exists. Do you want to delete it? [ yes | no ]: "
                  w2) as [w3 [go2 [E3 [R3 F3]]]].
      rewrite E3. destruct go2; cbn [negb].
      * destruct (proj2 (@applications_refused server replace fuel config w3 H)) as [e Ee].
        unfold bind at 1. rewrite Ee. unfold ret. eexists. split; [reflexivity|].
        cbn [requests rl_open rl_close]. rewrite R3, R2, R1.
        repeat split. intros p Hp. apply F1, F2, F3. exact Hp.
      * unfold ret. eexists. split; [reflexivity|].
        cbn [requests rl_open rl_close]. rewrite R3, R2, R1.
        repeat split. intros p Hp. apply F1, F2, F3. exact Hp.
    + unfold ret. eexists. split; [reflexivity|].
      cbn [requests rl_open rl_close]. rewrite R2, R1.
      repeat split. intros p Hp. apply F1, F2. exact Hp.
Qed.

Lemma unusable_config_sends_nothing_witness :
  (exists w',
     Main.fetchApplicationsWithAuth demo_server (fun _ => "yes") simple_replace 3
       (Some config_without_customer) (fresh_world [])
     = Some (w', Ok [])
     /\ requests w' = requests (fresh_world []) /\ rl_open w' = false
     /\ (forall p, exists_in w' p = true ->
                   exists_in (fresh_world []) p = true \/ p = Main.outputDirectory))
  /\ (exists w',
        GetApplicationList.fetchApplicationsWithAuth demo_server (fun _ => "yes")
          simple_replace 3 (Some config_without_customer) (fresh_world [])
        = Some (w', Ok tt)
        /\ requests w' = requests (fresh_world []) /\ rl_open w' = false
        /\ (forall p, exists_in w' p = true ->
                      exists_in (fresh_world []) p = true
                      \/ p = GetApplicationList.outputDirectory)).
Proof.
  apply (@unusable_config_sends_nothing demo_server (fun _ => "yes") simple_replace 3
           (Some config_without_customer) (fresh_world [])).
  right. exists config_without_customer. split; [reflexivity|].
  right. right. right. reflexivity.
Defined.

(** ** The stored list of projects *)

Lemma sends_authenticate_post (P : Net.Request -> Prop) (server : Net.Server)
    (cfg : Config) (u1 u2 : string) :
  (forall url form, P (Net.PostForm url form)) ->
  sends P (authenticate server cfg u1 u2).
Proof.
  intros HP.
  assert (H : forall q, P q ->
              sends P (bind (ret q) (fun request =>
                         bind (axios_request server request) extract_token))).
  { intros q Hq w w' o E. change (bind (axios_request server q) extract_token w
                                   = Some (w', o)) in E.
    revert w w' o E. apply sends_bind; [apply sends_axios; exact Hq|].
    intros r. unfold extract_token. repeat sends_step. }
  unfold authenticate, authConfig.
  destruct (usable (password cfg)); [apply H; apply HP|].
  destruct (usable (accesstoken cfg)); [apply H; apply HP|].
  apply sends_quiet. intros w w' o E. injection E as <- _. reflexivity.
Qed.

Lemma sends_role_requests (P : Net.Request -> Prop) (server : Net.Server)
    (cust bearer : string) (ps : list Project) :
  (forall c p b, P (Net.GetRoleAssignments c p b)) ->
  forall acc, sends P (role_loop server cust bearer ps acc).
Proof.
  intros HP. induction ps as [|p ps IH]; intros acc; cbn [role_loop].
  - apply sends_ret.
  - repeat sends_step; try apply HP; apply IH.
Qed.

(** X5.  [projectList.json] is a read-through cache.  When the file exists,
    the projects stage of main.mjs returns what the file holds, without a
    request and whatever [config.json] is, and the empty array when the file
    cannot be parsed; getProjectUserInformation.mjs then sends no page
    request at all. *)
Theorem stored_projects_are_reused
    (server : Net.Server) (replace : string -> string -> string -> string)
    (fuel : nat) (config : option Config) (w : World) :
  (exists_in w Main.projectListPath = true ->
   (forall ps, exists w',
      Main.fetchProjectsWithAuth server replace fuel config (Ok ps) w = Some (w', Ok ps)
      /\ requests w' = requests w)
   /\ (forall e, exists w',
         Main.fetchProjectsWithAuth server replace fuel config (Throw e) w
         = Some (w', Ok [])
         /\ requests w' = requests w))
  /\ (exists_in w GetProjectUserInformation.projectListPath = true ->
      forall stored w' o,
        GetProjectUserInformation.fetchProjectsWithAuth server replace fuel config stored w
        = Some (w', o) ->
        exists qs, requests w' = requests w ++ qs /\ Forall no_page_request qs).
Proof.
  split.
  - intros H.
    destruct (ensure_keeps Main.outputDirectory w) as [w1 [E [Hr [_ [_ [Hk _]]]]]].
    specialize (Hk _ H). unfold exists_in in Hk.
    split; [intros ps | intros e]; exists w1;
      unfold Main.fetchProjectsWithAuth, try_catch, bind, file_exists;
      rewrite E, Hk; (split; [reflexivity | exact Hr]).
  - intros H stored w' o Erun.
    destruct (ensure_keeps GetProjectUserInformation.outputDirectory w)
      as [w1 [E [Hr [_ [_ [Hk _]]]]]].
    specialize (Hk _ H). unfold exists_in in Hk.
    unfold GetProjectUserInformation.fetchProjectsWithAuth, try_finally in Erun.
    destruct (try_catch _ _ w) as [[w2 o2]|] eqn:Ebody; [|discriminate].
    injection Erun as <- <-. cbn [requests rl_close].
    unfold try_catch in Ebody. unfold bind at 1 in Ebody. rewrite E in Ebody.
    unfold bind at 1 in Ebody. unfold file_exists at 1 in Ebody. rewrite Hk in Ebody.
    rewrite <- Hr.
    assert (S : sends no_page_request
                  (try_catch
                     (bind (match stored with Ok ps => ret ps | Throw e => throw e end)
                        (fun allProjects =>
                           bind (GetProjectUserInformation.fetch_details server replace
                                   config allProjects)
                                (fun _ => ret tt)))
                     (fun _ => ret tt))).
    { unfold GetProjectUserInformation.fetch_details.
      repeat first
        [ apply sends_read_config | apply sends_fill
        | apply sends_authenticate_post; intros; exact I
        | apply sends_role_requests; intros; exact I
        | sends_step ]. }
    apply (S w1 w2 o2). unfold try_catch. exact Ebody.
Qed.

Lemma stored_projects_are_reused_witness :
  exists w',
    Main.fetchProjectsWithAuth demo_server simple_replace 3 None
      (Ok [snapshot_project "p1" "one"])
      (fresh_world ["./output"; "./output/projectList.json"])
    = Some (w', Ok [snapshot_project "p1" "one"])
    /\ requests w' = requests (fresh_world ["./output"; "./output/projectList.json"]).
Proof.
  apply (proj1 (proj1 (@stored_projects_are_reused demo_server simple_replace 3 None
                         (fresh_world ["./output"; "./output/projectList.json"]))
                  eq_refl)).
Defined.

(** ** A page request that fails *)

Lemma ensure_prepared (dir : string) (w : World) :
  ensureOutputDirectoryExists dir w = Some (prepared dir w, Ok tt).
Proof.
  unfold ensureOutputDirectoryExists, bind, file_exists, prepared.
  destruct (existsb (String.eqb dir) (files w)) eqn:E.
  - unfold ret. destruct w; reflexivity.
  - unfold writeFile. rewrite E. reflexivity.
Qed.

Lemma exists_in_prepared (dir path : string) (w : World) :
  exists_in (prepared dir w) path = exists_in w path || String.eqb path dir.
Proof.
  unfold exists_in, prepared. cbn [files].
  destruct (existsb (String.eqb dir) (files w)) eqn:E.
  - destruct (String.eqb path dir) eqn:Ed; [|symmetry; apply orb_false_r].
    apply String.eqb_eq in Ed. subst path. rewrite E. reflexivity.
  - rewrite existsb_app. cbn [existsb]. rewrite orb_false_r. reflexivity.
Qed.

Lemma writeFile_prepared (path : string) (w : World) :
  writeFile path w = Some (prepared path w, Ok tt).
Proof. reflexivity. Qed.

Section PageLoopSteps.
Variable server : Net.Server.
Variable A : Type.
Variable format : Net.Resource -> A.
Variables base bearer : string.
Variable limit : N.

(** After [pages] full pages the loop is where it would be had it started
    there. *)
Lemma page_loop_full_pages (pages : list (list Net.Resource)) :
  forall (st : PageState A) (w : World) (fuel : nat),
    more st = true ->
    (forall i, i < List.length pages ->
       Paging.full_page limit
         (server (List.length (requests w) + i)
                 (turn_request base bearer limit (offset st) i))
         (nth i pages [])) ->
    exists w1,
      page_loop server (List.length pages + fuel) base bearer limit format st w
      = page_loop server fuel base bearer limit format
          {| offset := offset st + N.of_nat (List.length pages) * limit;
             all := all st ++ map format (List.concat pages);
             more := true |} w1
      /\ sent_since w w1
           (map (turn_request base bearer limit (offset st)) (seq 0 (List.length pages)))
      /\ asked w1 = asked w /\ files w1 = files w /\ rl_open w1 = rl_open w.
Proof.
  induction pages as [|page pages IH]; intros st w fuel Hmore Hfull.
  - exists w. cbn [List.length List.concat map seq Nat.add].
    unfold sent_since. rewrite !app_nil_r.
    replace (offset st + N.of_nat 0 * limit)%N with (offset st) by lia.
    rewrite <- Hmore. destruct st; cbn. auto.
  - destruct (Hfull 0 ltac:(cbn; lia)) as [r [E [Hs [Hd Hn]]]].
    rewrite Nat.add_0_r in E. unfold turn_request in E.
    replace (offset st + N.of_nat 0 * limit)%N with (offset st) in E by lia.
    cbn [nth] in Hd, Hn.
    cbn [List.length Nat.add page_loop]. rewrite Hmore. unfold bind at 1.
    unfold page_turn, bind, axios_request.
    rewrite E, Hs, Hd. cbn [Z.eqb Pos.eqb].
    apply N.eqb_eq in Hn. rewrite Hn. unfold ret. cbv beta iota.
    set (st' := {| offset := offset st + limit;
                   all := all st ++ map format page; more := true |}).
    destruct (IH st' (sent (Net.GetPage base limit (offset st) bearer) w) fuel)
      as [w1 [Erun [Hsent Hsame]]].
    + reflexivity.
    + intros i Hi. cbn [offset st' requests sent]. rewrite turn_request_shift.
      rewrite length_app. cbn [List.length].
      replace (List.length (requests w) + 1 + i) with (List.length (requests w) + S i) by lia.
      apply (Hfull (S i)). cbn. lia.
    + exists w1. split.
      * rewrite Erun. subst st'. cbn [offset all List.concat].
        rewrite map_app, <- app_assoc. f_equal. f_equal. lia.
      * split; [|exact Hsame].
        unfold sent_since in *. rewrite Hsent. cbn [requests sent offset st'].
        rewrite <- app_assoc. rewrite turn_requests_cons. reflexivity.
Qed.

(** A turn whose request is rejected, or whose reply has no [data], throws
    out of the loop. *)
Lemma page_loop_breaks (fuel : nat) (st : PageState A) (w : World) (e : exn) :
  more st = true ->
  breaks Net.data
    (server (List.length (requests w)) (Net.GetPage base limit (offset st) bearer)) e ->
  page_loop server (S fuel) base bearer limit format st w
  = Some (sent (Net.GetPage base limit (offset st) bearer) w, Throw e).
Proof.
  intros Hmore H. cbn [page_loop]. rewrite Hmore.
  unfold bind at 1. unfold page_turn, bind, axios_request.
  destruct H as [[s [E ->]] | [r [E [Hs [Hd ->]]]]]; rewrite E.
  - reflexivity.
  - rewrite Hs, Hd. reflexivity.
Qed.

Lemma page_loop_fails (pages : list (list Net.Resource)) (e : exn)
    (w : World) (fuel : nat) :
  (forall i, i < List.length pages ->
     Paging.full_page limit
       (server (List.length (requests w) + i) (Paging.page_request base bearer limit i))
       (nth i pages [])) ->
  breaks Net.data
    (server (List.length (requests w) + List.length pages)
            (Paging.page_request base bearer limit (List.length pages))) e ->
  List.length pages < fuel ->
  exists w',
    paginate server fuel base bearer limit format w = Some (w', Throw e)
    /\ sent_since w w'
         (map (Paging.page_request base bearer limit) (seq 0 (S (List.length pages))))
    /\ asked w' = asked w /\ files w' = files w /\ rl_open w' = rl_open w.
Proof.
  intros Hfull Hbreak Hfuel.
  destruct (@page_loop_full_pages pages (page_start A) w (fuel - List.length pages)
              eq_refl Hfull) as [w1 [E [Hsent [Ha [Hf Hr]]]]].
  replace (List.length pages + (fuel - List.length pages)) with fuel in E by lia.
  destruct (fuel - List.length pages) as [|rest] eqn:Ef; [lia|].
  unfold paginate. rewrite E.
  unfold sent_since in Hsent.
  rewrite page_loop_breaks with (e := e).
  - eexists. split; [reflexivity|]. cbn [requests asked files rl_open sent offset].
    split; [|auto].
    unfold sent_since. cbn [requests sent]. rewrite Hsent, <- app_assoc. f_equal.
    rewrite seq_S, map_app. reflexivity.
  - reflexivity.
  - cbn [offset page_start]. rewrite Hsent, length_app, length_map, length_seq.
    exact Hbreak.
Qed.

End PageLoopSteps.

(** With no artifact in the way and a configuration that is ready, the
    applications stage of main.mjs is its authentication, its fetch and its
    two writes, run in the world with the output directory. *)
Lemma applications_stage_body
    (server : Net.Server) (answers : nat -> string)
    (replace : string -> string -> string -> string)
    (fuel : nat) (cfg : Config) (t1 t2 t3 : string) (w : World) :
  exists_in w Main.applicationsListPath = false ->
  exists_in w Main.applicationsCsvPath = false ->
  ready cfg t1 t2 t3 ->
  Main.fetchApplicationsWithAuth server answers replace fuel (Some cfg) w
  = try_finally
      (try_catch
         (token <- authenticate server cfg (replace t1 "{customer}" (customer cfg))
                     (replace t2 "{customer}" (customer cfg)) ;;
          allApplications <- paginate server fuel
                               (before_query (replace t3 "{customer}" (customer cfg)))
                               token Main.applications_limit
                               GetApplicationList.formatApplication ;;
          writeFile Main.applicationsListPath ;;;
          writeFile Main.applicationsCsvPath ;;;
          ret allApplications)
         (fun _ => ret []))
      rl_close (prepared Main.outputDirectory w).
Proof.
  intros Hjson Hcsv [H1 [H2 [H3 [T1 [T2 [T3 Tc]]]]]].
  unfold Main.fetchApplicationsWithAuth, try_finally, try_catch.
  unfold bind at 1. rewrite ensure_prepared. unfold bind at 1.
  rewrite guard_absent by (rewrite exists_in_prepared, Hjson; reflexivity).
  cbn [negb]. unfold bind at 1.
  rewrite guard_absent by (rewrite exists_in_prepared, Hcsv; reflexivity).
  cbn [negb].
  unfold Main.applications_fetch_and_store, read_config.
  unfold bind at 1. unfold ret at 1.
  rewrite H1, H2, H3. cbn [some_truthy fill]. rewrite T1, T2, T3, Tc.
  cbn [negb orb]. reflexivity.
Qed.

(** X6.  The applications stage of main.mjs keeps all or nothing.  After
    any number of full pages, a page request that is rejected, or answered
    with status 200 and no [data] array, makes the stage return the empty
    array: the applications gathered so far are dropped, neither artifact is
    written, and the console is closed. *)
Theorem failed_page_discards_the_applications
    (server : Net.Server) (answers : nat -> string)
    (replace : string -> string -> string -> string)
    (fuel : nat) (cfg : Config) (t1 t2 t3 bearer : string)
    (pages : list (list Net.Resource)) (e : exn) (w w1 : World) :
  exists_in w Main.applicationsListPath = false ->
  exists_in w Main.applicationsCsvPath = false ->
  ready cfg t1 t2 t3 ->
  authenticate server cfg (replace t1 "{customer}" (customer cfg))
    (replace t2 "{customer}" (customer cfg)) (prepared Main.outputDirectory w)
  = Some (w1, Ok bearer) ->
  (forall i, i < List.length pages ->
     Paging.full_page 25
       (server (List.length (requests w1) + i)
          (Paging.page_request (before_query (replace t3 "{customer}" (customer cfg)))
             bearer 25 i))
       (nth i pages [])) ->
  breaks Net.data
    (server (List.length (requests w1) + List.length pages)
       (Paging.page_request (before_query (replace t3 "{customer}" (customer cfg)))
          bearer 25 (List.length pages))) e ->
  List.length pages < fuel ->
  exists w',
    Main.fetchApplicationsWithAuth server answers replace fuel (Some cfg) w
    = Some (w', Ok [])
    /\ sent_since w1 w'
         (map (Paging.page_request (before_query (replace t3 "{customer}" (customer cfg)))
                 bearer 25)
              (seq 0 (S (List.length pages))))
    /\ files w' = files w1
    /\ rl_open w' = false.
Proof.
  intros Hjson Hcsv Hready Hauth Hfull Hbreak Hfuel.
  rewrite (@applications_stage_body server answers replace fuel cfg t1 t2 t3 w
             Hjson Hcsv Hready).
  destruct (@page_loop_fails server Application GetApplicationList.formatApplication
              (before_query (replace t3 "{customer}" (customer cfg))) bearer 25
              pages e w1 fuel Hfull Hbreak Hfuel)
    as [w' [E [Hsent [_ [Hf _]]]]].
  unfold try_finally, try_catch. unfold bind at 1. rewrite Hauth.
  unfold bind at 1. unfold Main.applications_limit. rewrite E.
  unfold ret. eexists. split; [reflexivity|].
  cbn [rl_close files rl_open]. unfold sent_since in *. cbn [requests].
  auto.
Qed.

(** X7.  The applications stage of main.mjs, when it succeeds: once
    authenticated it asks for pages of 25 up to the first reply that is not a
    full page, returns the applications of all the pages in order, and leaves
    both artifacts written and the console closed. *)
Theorem applications_stage_stores_what_it_returns
    (server : Net.Server) (answers : nat -> string)
    (replace : string -> string -> string -> string)
    (fuel : nat) (cfg : Config) (t1 t2 t3 bearer : string)
    (pages : list (list Net.Resource)) (last : list Net.Resource) (w w1 : World) :
  exists_in w Main.applicationsListPath = false ->
  exists_in w Main.applicationsCsvPath = false ->
  ready cfg t1 t2 t3 ->
  authenticate server cfg (replace t1 "{customer}" (customer cfg))
    (replace t2 "{customer}" (customer cfg)) (prepared Main.outputDirectory w)
  = Some (w1, Ok bearer) ->
  (forall i, i < List.length pages ->
     Paging.full_page 25
       (server (List.length (requests w1) + i)
          (Paging.page_request (before_query (replace t3 "{customer}" (customer cfg)))
             bearer 25 i))
       (nth i pages [])) ->
  Paging.closes 25
    (server (List.length (requests w1) + List.length pages)
       (Paging.page_request (before_query (replace t3 "{customer}" (customer cfg)))
          bearer 25 (List.length pages))) last ->
  List.length pages < fuel ->
  exists w',
    Main.fetchApplicationsWithAuth server answers replace fuel (Some cfg) w
    = Some (w', Ok (map GetApplicationList.formatApplication (List.concat pages ++ last)))
    /\ sent_since w1 w'
         (map (Paging.page_request (before_query (replace t3 "{customer}" (customer cfg)))
                 bearer 25)
              (seq 0 (S (List.length pages))))
    /\ exists_in w' Main.applicationsListPath = true
    /\ exists_in w' Main.applicationsCsvPath = true
    /\ rl_open w' = false.
Proof.
  intros Hjson Hcsv Hready Hauth Hfull Hlast Hfuel.
  rewrite (@applications_stage_body server answers replace fuel cfg t1 t2 t3 w
             Hjson Hcsv Hready).
  destruct (@page_loop_run server Application GetApplicationList.formatApplication
              (before_query (replace t3 "{customer}" (customer cfg))) bearer 25
              pages last (page_start Application) w1 fuel eq_refl Hfull Hlast Hfuel)
    as [w' [E [Hsent _]]].
  unfold try_finally, try_catch. unfold bind at 1. rewrite Hauth.
  unfold bind at 1. unfold paginate, Main.applications_limit. rewrite E.
  cbn [all page_start app].
  unfold bind at 1. rewrite writeFile_prepared.
  unfold bind at 1. rewrite writeFile_prepared.
  unfold ret. eexists. split; [reflexivity|].
  unfold sent_since in *. cbn [requests rl_close rl_open prepared].
  split; [exact Hsent|].
  change (exists_in (rl_close ?x) ?p) with (exists_in x p).
  rewrite !exists_in_prepared, String.eqb_refl, !orb_true_r.
  repeat split.
Qed.

Lemma failed_page_discards_the_applications_witness :
  exists w',
    Main.fetchApplicationsWithAuth failing_server (fun _ => "yes") simple_replace 5
      (Some (sample_config (Some (JsString.units "s3cret")) None)) (fresh_world [])
    = Some (w', Ok [])
    /\ sent_since (authenticated_world ["./output"]) w'
         (map (Paging.page_request
                 (before_query (simple_replace "https://{customer}/applications?x=1"
                                  "{customer}" "demo"))
                 "abc.def" 25)
              (seq 0 (S (List.length [map item (repeat "a" 25)]))))
    /\ files w' = files (authenticated_world ["./output"])
    /\ rl_open w' = false.
Proof.
  apply (@failed_page_discards_the_applications failing_server (fun _ => "yes")
           simple_replace 5 (sample_config (Some (JsString.units "s3cret")) None)
           "https://{customer}/auth/v1" "https://{customer}/auth/v2"
           "https://{customer}/applications?x=1" "abc.def"
           [map item (repeat "a" 25)] (AxiosError (Some 500%Z))
           (fresh_world []) (authenticated_world ["./output"])).
  - reflexivity.
  - reflexivity.
  - repeat split; reflexivity.
  - reflexivity.
  - intros i Hi. destruct i as [|i]; [|cbn in Hi; lia].
    eexists. repeat split; reflexivity.
  - left. eexists. split; reflexivity.
  - cbn. lia.
Defined.

Lemma applications_stage_stores_what_it_returns_witness :
  exists w',
    Main.fetchApplicationsWithAuth demo_server (fun _ => "yes") simple_replace 5
      (Some (sample_config (Some (JsString.units "s3cret")) None)) (fresh_world [])
    = Some (w', Ok (map GetApplicationList.formatApplication
                      (List.concat [] ++ [item "a"; item "b"; item "c"])))
    /\ sent_since (authenticated_world ["./output"]) w'
         (map (Paging.page_request
                 (before_query (simple_replace "https://{customer}/applications?x=1"
                                  "{customer}" "demo"))
                 "abc.def" 25)
              (seq 0 (S (@List.length (list Net.Resource) []))))
    /\ exists_in w' Main.applicationsListPath = true
    /\ exists_in w' Main.applicationsCsvPath = true
    /\ rl_open w' = false.
Proof.
  apply (@applications_stage_stores_what_it_returns demo_server (fun _ => "yes")
           simple_replace 5 (sample_config (Some (JsString.units "s3cret")) None)
           "https://{customer}/auth/v1" "https://{customer}/auth/v2"
           "https://{customer}/applications?x=1" "abc.def"
           [] [item "a"; item "b"; item "c"]
           (fresh_world []) (authenticated_world ["./output"])).
  - reflexivity.
  - reflexivity.
  - repeat split; reflexivity.
  - reflexivity.
  - intros i Hi. cbn in Hi. lia.
  - left. eexists. split; [reflexivity|]. repeat split; try reflexivity. discriminate.
  - cbn. lia.
Defined.

(** ** A role-assignments request that fails *)

Lemma role_loop_prefix (server : Net.Server) (cust bearer : string)
    (done : list Project) :
  forall (replies : list Net.Response) (rest : list Project) (acc : list Detail)
         (w : World),
    answered server cust bearer (List.length (requests w)) done replies ->
    exists w1,
      role_loop server cust bearer (done ++ rest) acc w
      = role_loop server cust bearer rest (acc ++ contributions done replies) w1
      /\ sent_since w w1 (map (role_request cust bearer) done)
      /\ asked w1 = asked w /\ files w1 = files w /\ rl_open w1 = rl_open w.
Proof.
  induction done as [|p ps IH]; intros replies rest acc w H.
  - destruct replies; [|contradiction].
    exists w. cbn. rewrite app_nil_r. unfold sent_since. rewrite app_nil_r. auto.
  - destruct replies as [|r rs]; [contradiction|].
    destruct H as [E [Hincl Hrest]].
    cbn [role_loop app]. unfold bind, axios_request.
    unfold role_request in E. rewrite E.
    unfold contributions. cbn [combine flat_map fst snd]. unfold contribution at 1.
    destruct (Net.status r =? 200)%Z eqn:Hs.
    + apply Z.eqb_eq in Hs. specialize (Hincl Hs).
      destruct (Net.included r) as [incl|]; [|contradiction Hincl; reflexivity].
      destruct (IH rs rest (acc ++ role_details p incl)
                  (sent (Net.GetRoleAssignments cust (proj_id p) bearer) w))
        as [w' [Erun [Hsent Hsame]]].
      * cbn [requests sent]. rewrite length_app. cbn [List.length].
        rewrite Nat.add_1_r. exact Hrest.
      * exists w'. split; [rewrite Erun, <- app_assoc; reflexivity|].
        split; [|exact Hsame].
        unfold sent_since in *. rewrite Hsent. cbn [requests sent map].
        rewrite <- app_assoc. reflexivity.
    + destruct (IH rs rest acc (sent (Net.GetRoleAssignments cust (proj_id p) bearer) w))
        as [w' [Erun [Hsent Hsame]]].
      * cbn [requests sent]. rewrite length_app. cbn [List.length].
        rewrite Nat.add_1_r. exact Hrest.
      * exists w'. split; [rewrite Erun; reflexivity|].
        split; [|exact Hsame].
        unfold sent_since in *. rewrite Hsent. cbn [requests sent map].
        rewrite <- app_assoc. reflexivity.
Qed.

Lemma role_loop_breaks (server : Net.Server) (cust bearer : string)
    (p : Project) (rest : list Project) (acc : list Detail) (w : World) (e : exn) :
  breaks Net.included
    (server (List.length (requests w)) (role_request cust bearer p)) e ->
  role_loop server cust bearer (p :: rest) acc w
  = Some (sent (role_request cust bearer p) w, Throw e).
Proof.
  intros H. cbn [role_loop]. unfold bind, axios_request. unfold role_request in *.
  destruct H as [[s [E ->]] | [r [E [Hs [Hd ->]]]]]; rewrite E.
  - reflexivity.
  - rewrite Hs, Hd. reflexivity.
Qed.

(** X8.  The role-assignments stage of main.mjs keeps all or nothing too.
    When the request of one project is rejected, or answered with status 200
    and no [included] array, the stage returns the empty array: the details
    of the projects before it are dropped, the projects after it are never
    asked about, and no artifact is written. *)
Theorem failed_role_request_discards_the_details
    (server : Net.Server) (replace : string -> string -> string -> string)
    (cfg : Config) (t1 t2 bearer : string)
    (done : list Project) (replies : list Net.Response)
    (project : Project) (rest : list Project) (e : exn) (w w1 : World) :
  authUrlTemplate cfg = Some t1 -> authUrlV2Template cfg = Some t2 ->
  authenticate server cfg (replace t1 "{customer}" (customer cfg))
    (replace t2 "{customer}" (customer cfg)) w
  = Some (w1, Ok bearer) ->
  answered server (customer cfg) bearer (List.length (requests w1)) done replies ->
  breaks Net.included
    (server (List.length (requests w1) + List.length done)
       (role_request (customer cfg) bearer project)) e ->
  exists w',
    Main.fetchRoleAssignments server replace (Some cfg) (done ++ project :: rest) w
    = Some (w', Ok [])
    /\ sent_since w1 w'
         (map (role_request (customer cfg) bearer) (done ++ [project]))
    /\ files w' = files w1.
Proof.
  intros H1 H2 Hauth Hdone Hbreak.
  destruct (@role_loop_prefix server (customer cfg) bearer done replies
              (project :: rest) [] w1 Hdone) as [w2 [E [Hsent [_ [Hf _]]]]].
  unfold sent_since in Hsent.
  unfold Main.fetchRoleAssignments, try_catch, bind, read_config, ret, fill.
  rewrite H1, H2. unfold ret. rewrite Hauth, E.
  rewrite role_loop_breaks with (e := e).
  - eexists. split; [reflexivity|].
    unfold sent_since. cbn [requests sent files].
    rewrite Hsent, map_app, <- app_assoc. auto.
  - rewrite Hsent, length_app, length_map. exact Hbreak.
Qed.

Lemma failed_role_request_discards_the_details_witness :
  exists w',
    Main.fetchRoleAssignments failing_server simple_replace
      (Some (sample_config (Some (JsString.units "s3cret")) None))
      ([snapshot_project "p1" "one"]
       ++ snapshot_project "p2" "two" :: [snapshot_project "p3" "three"])
      (fresh_world ["./output"])
    = Some (w', Ok [])
    /\ sent_since (authenticated_world ["./output"]) w'
         (map (role_request
                 (customer (sample_config (Some (JsString.units "s3cret")) None))
                 "abc.def")
              ([snapshot_project "p1" "one"] ++ [snapshot_project "p2" "two"]))
    /\ files w' = files (authenticated_world ["./output"]).
Proof.
  apply (@failed_role_request_discards_the_details failing_server simple_replace
           (sample_config (Some (JsString.units "s3cret")) None)
           "https://{customer}/auth/v1" "https://{customer}/auth/v2" "abc.def"
           [snapshot_project "p1" "one"]
           [sample_response 200 None None None (Some [person "p1"])]
           (snapshot_project "p2" "two") [snapshot_project "p3" "three"]
           (AxiosError (Some 503%Z)) (fresh_world ["./output"])
           (authenticated_world ["./output"])).
  - reflexivity.
  - reflexivity.
  - reflexivity.
  - cbn. repeat split; try reflexivity. discriminate.
  - left. eexists. split; reflexivity.
Defined.

Lemma ensure_directory_is_idempotent_witness :
  exists w1,
    ensureOutputDirectoryExists "./output" (fresh_world ["./config.json"])
    = Some (w1, Ok tt)
    /\ exists_in w1 "./output" = true
    /\ ensureOutputDirectoryExists "./output" w1 = Some (w1, Ok tt)
    /\ (forall path, exists_in (fresh_world ["./config.json"]) path = true ->
                     exists_in w1 path = true)
    /\ (forall path, exists_in w1 path = true ->
                     exists_in (fresh_world ["./config.json"]) path = true
                     \/ path = "./output").
Proof.
  apply (ensure_directory_is_idempotent "./output" (fresh_world ["./config.json"])).
Defined.

(** ** Cutting texts at a separator *)

Lemma split_first (c : ascii) (s : string) :
  JsString.at_index (JsString.split c s) 0 = Some (until c s).
Proof.
  unfold JsString.at_index.
  induction s as [|a s IH]; cbn [JsString.split until]; [reflexivity|].
  destruct (Ascii.eqb a c); [reflexivity|].
  destruct (JsString.split c s) as [|piece pieces]; [discriminate IH|].
  cbn in IH |- *. injection IH as ->. reflexivity.
Qed.

Lemma until_lacks (c : ascii) (s : string) : lacks c (until c s) = true.
Proof.
  induction s as [|a s IH]; cbn [until lacks]; [reflexivity|].
  destruct (Ascii.eqb a c) eqn:E; [reflexivity|].
  cbn [lacks]. rewrite E, IH. reflexivity.
Qed.

Lemma until_keeps_lacks (c d : ascii) (s : string) :
  lacks d s = true -> lacks d (until c s) = true.
Proof.
  induction s as [|a s IH]; cbn [until lacks]; [reflexivity|].
  intros H. apply andb_true_iff in H. destruct H as [Ha Hs].
  destruct (Ascii.eqb a c); [reflexivity|].
  cbn [lacks]. rewrite Ha, (IH Hs). reflexivity.
Qed.

Lemma until_append (c : ascii) (s t : string) :
  lacks c s = true -> until c (String.append s t) = String.append s (until c t).
Proof.
  induction s as [|a s IH]; cbn [until lacks String.append]; [reflexivity|].
  intros H. apply andb_true_iff in H. destruct H as [Ha Hs].
  apply negb_true_iff in Ha. rewrite Ha, (IH Hs). reflexivity.
Qed.

Lemma until_prefix (c : ascii) (s : string) :
  exists rest, s = String.append (until c s) rest.
Proof.
  induction s as [|a s [rest IH]]; cbn [until].
  - exists EmptyString. reflexivity.
  - destruct (Ascii.eqb a c).
    + exists (String a s). reflexivity.
    + exists rest. cbn. f_equal. exact IH.
Qed.

Lemma until_all (c : ascii) (s : string) : lacks c s = true -> until c s = s.
Proof.
  induction s as [|a s IH]; cbn [until lacks]; [reflexivity|].
  intros H. apply andb_true_iff in H. destruct H as [Ha Hs].
  apply negb_true_iff in Ha. rewrite Ha, (IH Hs). reflexivity.
Qed.

Lemma startsWith_append (s p : string) :
  JsString.startsWith s p = true -> exists v, s = String.append p v.
Proof.
  revert s. induction p as [|b p IH]; intros s H; cbn in H.
  - exists s. reflexivity.
  - destruct s as [|a s]; [discriminate|].
    apply andb_true_iff in H. destruct H as [Hab Hs].
    apply Ascii.eqb_eq in Hab. subst b.
    destruct (IH s Hs) as [v ->]. exists v. reflexivity.
Qed.

Lemma token_of_cookie (v : string) :
  match JsString.at_index
          (JsString.split ";" (String.append "access_token=" v)) 0 with
  | Some first => JsString.at_index (JsString.split "=" first) 1
  | None => None
  end = Some (until "=" (until ";" v)).
Proof.
  rewrite split_first.
  rewrite (@until_append ";" "access_token=" v eq_refl).
  change (String.append "access_token=" (until ";" v))
    with (String.append "access_token" (String "=" (until ";" v))).
  rewrite split_at_first by reflexivity.
  apply (split_first "=" (until ";" v)).
Qed.

(** X9.  The header path cuts the token at separators.  The token of the
    first cookie that starts with [access_token=] is what follows that
    prefix up to the first [;] and, within that, up to the first [=]: a
    cookie value that contains [=] is truncated there.  So a token that
    comes from the header path never contains [;] or [=]. *)
Theorem cookie_token_is_cut_at_separators (r : Net.Response) :
  (forall (cookies : list string) (v : string),
     Net.set_cookie r = Some cookies ->
     find (fun cookie => JsString.startsWith cookie "access_token=") cookies
     = Some (String.append "access_token=" v) ->
     cookie_token r = Some (until "=" (until ";" v)))
  /\ (forall t, cookie_token r = Some t ->
                lacks ";" t = true /\ lacks "=" t = true).
Proof.
  split.
  - intros cookies v Hc Hf. unfold cookie_token. rewrite Hc, Hf.
    apply token_of_cookie.
  - intros t H. unfold cookie_token in H.
    destruct (Net.set_cookie r) as [cookies|]; [|discriminate].
    destruct (find _ cookies) as [tokenCookie|] eqn:Hf; [|discriminate].
    apply find_some in Hf. destruct Hf as [_ Hs].
    destruct (startsWith_append _ _ Hs) as [v ->].
    rewrite token_of_cookie in H. injection H as <-. split.
    + apply until_keeps_lacks, until_lacks.
    + apply until_lacks.
Qed.

Lemma cookie_token_is_cut_at_separators_witness :
  cookie_token
    (sample_response 200 (Some ["sid=1"; "access_token=abc=def; HttpOnly"])
       None None None)
  = Some (until "=" (until ";" "abc=def; HttpOnly")).
Proof.
  apply (proj1 (cookie_token_is_cut_at_separators
                  (sample_response 200 (Some ["sid=1"; "access_token=abc=def; HttpOnly"])
                     None None None))
           ["sid=1"; "access_token=abc=def; HttpOnly"] "abc=def; HttpOnly");
    reflexivity.
Defined.

(** X10.  The base URL of a paginated fetch is the filled template up to
    its first [?]: it has no query, it is a prefix of the template, and a
    template without a query is taken whole.  Whatever query [config.json]
    gives is dropped and replaced by the page parameters. *)
Theorem before_query_drops_the_query (url : string) :
  before_query url = until "?" url
  /\ lacks "?" (before_query url) = true
  /\ (exists rest, url = String.append (before_query url) rest)
  /\ (lacks "?" url = true -> before_query url = url).
Proof.
  assert (E : before_query url = until "?" url).
  { unfold before_query. rewrite split_first. reflexivity. }
  rewrite E. split; [reflexivity|]. split; [apply until_lacks|].
  split; [apply until_prefix | apply until_all].
Qed.

Lemma before_query_drops_the_query_witness :
  before_query "https://demo/projects" = "https://demo/projects".
Proof.
  apply (proj2 (proj2 (proj2 (before_query_drops_the_query "https://demo/projects")))).
  reflexivity.
Defined.

(** ** Credentials and answers *)

Lemma trimStart_keeps (u : N) (s : JsString.ustring) :
  In u s -> JsString.is_white_space u = false -> In u (JsString.trimStart s).
Proof.
  intros Hin Hu. induction s as [|c s IH]; cbn [JsString.trimStart]; [exact Hin|].
  destruct (JsString.is_white_space c) eqn:E; [|exact Hin].
  destruct Hin as [-> | Hin]; [congruence | exact (IH Hin)].
Qed.

Lemma trimStart_blank (s : JsString.ustring) :
  Forall (fun u => JsString.is_white_space u = true) s -> JsString.trimStart s = [].
Proof.
  induction 1 as [|c s Hc _ IH]; cbn [JsString.trimStart]; [reflexivity|].
  rewrite Hc. exact IH.
Qed.

Lemma blank_or_not (s : JsString.ustring) :
  Forall (fun u => JsString.is_white_space u = true) s
  \/ exists u, In u s /\ JsString.is_white_space u = false.
Proof.
  induction s as [|c s [IH | [u [Hin Hu]]]].
  - left. constructor.
  - destruct (JsString.is_white_space c) eqn:E.
    + left. constructor; assumption.
    + right. exists c. split; [left; reflexivity | exact E].
  - right. exists u. split; [right; exact Hin | exact Hu].
Qed.

(** X11.  A credential counts exactly when it is present and holds a code
    unit that is not white space: white space around it does not matter,
    and a credential of white space only is as good as none. *)
Theorem usable_means_not_blank (credential : option JsString.ustring) :
  usable credential = true
  <-> exists s, credential = Some s
                /\ exists u, In u s /\ JsString.is_white_space u = false.
Proof.
  rewrite usable_spec. split; intros [s [E H]]; exists s; (split; [exact E|]).
  - destruct (blank_or_not s) as [B | N]; [|exact N].
    exfalso. apply H. unfold JsString.trim. rewrite (trimStart_blank B). reflexivity.
  - destruct H as [u [Hin Hu]]. intros T.
    assert (I : In u (JsString.trim s)).
    { unfold JsString.trim, JsString.trimEnd.
      apply -> in_rev. apply trimStart_keeps; [|exact Hu].
      apply -> in_rev. apply trimStart_keeps; assumption. }
    rewrite T in I. exact I.
Qed.

Lemma usable_means_not_blank_witness :
  usable (Some (JsString.units "  s3cret ")) = true.
Proof.
  apply (proj2 (usable_means_not_blank (Some (JsString.units "  s3cret ")))).
  exists (JsString.units "  s3cret "). split; [reflexivity|].
  exists 115%N. split; [vm_compute; tauto | reflexivity].
Defined.

Lemma lower_ascii_inv (a : ascii) :
  (JsString.lower_ascii a = "y"%char -> a = "y"%char \/ a = "Y"%char)
  /\ (JsString.lower_ascii a = "e"%char -> a = "e"%char \/ a = "E"%char)
  /\ (JsString.lower_ascii a = "s"%char -> a = "s"%char \/ a = "S"%char).
Proof.
  destruct a as [[|] [|] [|] [|] [|] [|] [|] [|]]; vm_compute;
    repeat split; intros H; try discriminate H; auto.
Qed.

(** X12.  A prompt is accepted by exactly ten answers: "yes" in any
    letter case, "y" and "Y".  Every other answer declines, among them the
    empty line and a "yes" with a blank before or after it, since the answer
    is not trimmed. *)
Theorem prompt_accepts_ten_answers (answer : string) :
  declines answer = false <-> In answer accepted_answers.
Proof.
  split.
  - unfold declines, JsString.includes. intros H. apply negb_false_iff in H.
    cbn [existsb] in H. rewrite orb_false_r in H. apply orb_true_iff in H.
    destruct H as [H | H]; apply String.eqb_eq in H.
    + destruct answer as [|a1 [|a2 [|a3 [|a4 rest]]]]; try discriminate H.
      cbn in H. injection H as H1 H2 H3.
      destruct (proj1 (lower_ascii_inv a1) H1) as [-> | ->];
        destruct (proj1 (proj2 (lower_ascii_inv a2)) H2) as [-> | ->];
        destruct (proj2 (proj2 (lower_ascii_inv a3)) H3) as [-> | ->];
        unfold accepted_answers; cbn; tauto.
    + destruct answer as [|a1 [|a2 rest]]; try discriminate H.
      cbn in H. injection H as H1.
      destruct (proj1 (lower_ascii_inv a1) H1) as [-> | ->];
        unfold accepted_answers; cbn; tauto.
  - unfold accepted_answers. intros H.
    repeat (destruct H as [<- | H]; [reflexivity|]). contradiction H.
Qed.

Lemma prompt_accepts_ten_answers_witness :
  declines "YeS" = false /\ ~ In "yes " accepted_answers.
Proof.
  split.
  - apply (proj2 (prompt_accepts_ten_answers "YeS")). vm_compute. tauto.
  - intros H. apply (proj2 (prompt_accepts_ten_answers "yes ")) in H. discriminate H.
Defined.

(** ** A template that is missing *)

(** A stage behind two overwrite prompts whose body throws at once. *)
Lemma guarded_stage_refused {A} (answers : nat -> string)
    (dir path1 question1 path2 question2 : string) (body : M A) (default : A)
    (w : World) :
  (forall w0, exists e, body w0 = Some (w0, Throw e)) ->
  exists w',
    try_finally
      (try_catch
         (ensureOutputDirectoryExists dir ;;;
          go <- overwrite_guard answers path1 question1 ;;
          if negb go then ret default else
          go <- overwrite_guard answers path2 question2 ;;
          if negb go then ret default else body)
         (fun _ => ret default))
      rl_close w
    = Some (w', Ok default)
    /\ requests w' = requests w /\ rl_open w' = false
    /\ (forall p, exists_in w' p = true -> exists_in w p = true \/ p = dir).
Proof.
  intros Hbody.
  destruct (ensure_adds_directory_only dir w) as [w1 [E [R1 F1]]].
  unfold try_finally, try_catch.
  unfold bind at 1. rewrite E. unfold bind at 1.
  destruct (guard_returns answers path1 question1 w1) as [w2 [go1 [E2 [R2 F2]]]].
  rewrite E2. destruct go1; cbn [negb].
  - unfold bind at 1.
    destruct (guard_returns answers path2 question2 w2) as [w3 [go2 [E3 [R3 F3]]]].
    rewrite E3. destruct go2; cbn [negb].
    + destruct (Hbody w3) as [e Ee]. rewrite Ee.
      unfold ret. eexists. split; [reflexivity|].
      cbn [requests rl_open rl_close]. rewrite R3, R2, R1.
      repeat split. intros p Hp. apply F1, F2, F3. exact Hp.
    + unfold ret. eexists. split; [reflexivity|].
      cbn [requests rl_open rl_close]. rewrite R3, R2, R1.
      repeat split. intros p Hp. apply F1, F2, F3. exact Hp.
  - unfold ret. eexists. split; [reflexivity|].
    cbn [requests rl_open rl_close]. rewrite R2, R1.
    repeat split. intros p Hp. apply F1, F2. exact Hp.
Qed.

(** X13.  A URL template that [config.json] lacks ends a stage before any
    request, because every template is filled before the session is opened:
    getProjectProperties.mjs sends nothing and writes nothing without
    [authUrlTemplate], [authUrlV2Template], [projectsUrlTemplate] or
    [setPropertyUrlTemplate], the last of which it fills and never uses; the
    projects stage of main.mjs, with no stored list, and its role-assignments
    stage return the empty array at once. *)
Theorem missing_template_sends_nothing
    (server : Net.Server) (answers : nat -> string)
    (replace : string -> string -> string -> string)
    (fuel : nat) (cfg : Config) (stored : outcome (list Project))
    (allProjects : list Project) (w : World) :
  (authUrlTemplate cfg = None \/ authUrlV2Template cfg = None
   \/ projectsUrlTemplate cfg = None \/ setPropertyUrlTemplate cfg = None ->
   exists w',
     GetProjectProperties.fetchProjectsWithAuth server answers replace fuel (Some cfg) w
     = Some (w', Ok tt)
     /\ requests w' = requests w /\ rl_open w' = false
     /\ (forall p, exists_in w' p = true ->
                   exists_in w p = true \/ p = GetProjectProperties.outputDirectory))
  /\ (authUrlTemplate cfg = None \/ authUrlV2Template cfg = None
      \/ projectsUrlTemplate cfg = None ->
      exists_in w Main.projectListPath = false ->
      Main.fetchProjectsWithAuth server replace fuel (Some cfg) stored w
      = Some (prepared Main.outputDirectory w, Ok []))
  /\ (authUrlTemplate cfg = None \/ authUrlV2Template cfg = None ->
      Main.fetchRoleAssignments server replace (Some cfg) allProjects w
      = Some (w, Ok [])).
Proof.
  split; [|split].
  - intros H. apply guarded_stage_refused. intros w0. exists TypeError.
    unfold GetProjectProperties.fetch_and_store, read_config, bind, ret, fill.
    destruct (authUrlTemplate cfg); [|reflexivity].
    destruct (authUrlV2Template cfg); [|reflexivity].
    destruct (setPropertyUrlTemplate cfg); [|reflexivity].
    destruct (projectsUrlTemplate cfg); [|reflexivity].
    destruct H as [H | [H | [H | H]]]; discriminate H.
  - intros H Hno.
    unfold Main.fetchProjectsWithAuth, try_catch. unfold bind at 1.
    rewrite ensure_prepared. unfold bind at 1. unfold file_exists.
    assert (E : existsb (String.eqb Main.projectListPath)
                  (files (prepared Main.outputDirectory w)) = false).
    { change (exists_in (prepared Main.outputDirectory w) Main.projectListPath = false).
      rewrite exists_in_prepared, Hno. reflexivity. }
    rewrite E.
    unfold Main.projects_fetch, read_config, bind, ret, fill.
    destruct (authUrlTemplate cfg); [|reflexivity].
    destruct (authUrlV2Template cfg); [|reflexivity].
    destruct (projectsUrlTemplate cfg); [|reflexivity].
    destruct H as [H | [H | H]]; discriminate H.
  - intros H.
    unfold Main.fetchRoleAssignments, try_catch, read_config, bind, ret, fill.
    destruct (authUrlTemplate cfg); [|reflexivity].
    destruct (authUrlV2Template cfg); [|reflexivity].
    destruct H as [H | H]; discriminate H.
Qed.

Lemma missing_template_sends_nothing_witness :
  exists w',
    GetProjectProperties.fetchProjectsWithAuth demo_server (fun _ => "yes")
      simple_replace 3 (Some config_without_property_url) (fresh_world [])
    = Some (w', Ok tt)
    /\ requests w' = requests (fresh_world []) /\ rl_open w' = false
    /\ (forall p, exists_in w' p = true ->
                  exists_in (fresh_world []) p = true
                  \/ p = GetProjectProperties.outputDirectory).
Proof.
  apply (proj1 (@missing_template_sends_nothing demo_server (fun _ => "yes")
                  simple_replace 3 config_without_property_url (Ok []) []
                  (fresh_world []))).
  right. right. right. reflexivity.
Defined.

(** ** The placeholder of the properties *)

Lemma page_loop_invariant (server : Net.Server) {A} (format : Net.Resource -> A)
    (base bearer : string) (limit : N) (Q : A -> Prop) :
  (forall r, Q (format r)) ->
  forall (fuel : nat) (st : PageState A) (w w' : World) (l : list A),
    Forall Q (all st) ->
    page_loop server fuel base bearer limit format st w = Some (w', Ok l) ->
    Forall Q l.
Proof.
  intros HQ. induction fuel as [|fuel IH]; intros st w w' l Hall H.
  - cbn in H. destruct (more st); [discriminate|]. injection H as _ <-. exact Hall.
  - cbn [page_loop] in H. destruct (more st).
    + unfold bind at 1 in H. unfold page_turn, bind, axios_request in H.
      destruct (server (List.length (requests w)) (Net.GetPage base limit (offset st) bearer))
        as [r|s]; [|discriminate].
      destruct (Net.status r =? 200)%Z.
      * destruct (Net.data r) as [items|]; [|discriminate].
        unfold ret in H. cbv beta iota in H.
        apply IH in H; [exact H|]. cbn [all].
        apply Forall_app. split; [exact Hall|].
        apply Forall_forall. intros x Hx. apply in_map_iff in Hx.
        destruct Hx as [r0 [<- _]]. apply HQ.
      * unfold ret in H. cbv beta iota in H.
        apply IH in H; [exact H | exact Hall].
    + injection H as _ <-. exact Hall.
Qed.

Lemma placeholder_is_not_empty (p : list (string * string)) :
  exists kv rest, GetProjectProperties.properties_or_placeholder p = kv :: rest.
Proof. destruct p as [|kv rest]; eexists; eexists; reflexivity. Qed.

(** X14.  Every project that a fetch of main.mjs or of
    getProjectProperties.mjs returns has a [properties] object with at least
    one key: a project that has none on the server is stored with the
    placeholder [{ key: 'value' }]. *)
Theorem fetched_projects_have_properties
    (server : Net.Server) (replace : string -> string -> string -> string)
    (fuel : nat) (config : option Config) (stored : outcome (list Project))
    (w w' : World) (ps : list Project) :
  (exists_in w Main.projectListPath = false ->
   Main.fetchProjectsWithAuth server replace fuel config stored w = Some (w', Ok ps) ->
   Forall has_properties ps)
  /\ (GetProjectProperties.fetch_and_store server replace fuel config w = Some (w', Ok ps) ->
      Forall has_properties ps).
Proof.
  assert (P1 : forall r, has_properties (Main.formatProject r)).
  { intros r. destruct (placeholder_is_not_empty (Net.r_properties r)) as [kv [rest E]].
    exists kv, rest. cbn. rewrite E. reflexivity. }
  assert (P2 : forall r, has_properties (GetProjectProperties.formatProject r)).
  { intros r. destruct (placeholder_is_not_empty (Net.r_properties r)) as [kv [rest E]].
    exists kv, rest. cbn. rewrite E. reflexivity. }
  split.
  - intros Hno H.
    unfold Main.fetchProjectsWithAuth, try_catch in H. unfold bind at 1 in H.
    rewrite ensure_prepared in H. unfold bind at 1 in H. unfold file_exists in H.
    assert (E : existsb (String.eqb Main.projectListPath)
                  (files (prepared Main.outputDirectory w)) = false).
    { change (exists_in (prepared Main.outputDirectory w) Main.projectListPath = false).
      rewrite exists_in_prepared, Hno. reflexivity. }
    rewrite E in H.
    destruct (Main.projects_fetch server replace fuel config
                (prepared Main.outputDirectory w)) as [[w1 [l|e]]|] eqn:Ef;
      [| |discriminate].
    + injection H as _ <-.
      unfold Main.projects_fetch, read_config in Ef.
      destruct config as [cfg|]; [|discriminate Ef].
      unfold bind at 1 in Ef. unfold ret at 1 in Ef.
      unfold fill, bind, ret, throw in Ef.
      destruct (authUrlTemplate cfg); [|discriminate Ef].
      destruct (authUrlV2Template cfg); [|discriminate Ef].
      destruct (projectsUrlTemplate cfg); [|discriminate Ef].
      destruct (authenticate _ _ _ _ _) as [[w2 [token|e]]|]; try discriminate Ef.
      unfold paginate in Ef.
      destruct (page_loop _ _ _ _ _ _ _ w2) as [[w3 [l3|e]]|] eqn:Ep; try discriminate Ef.
      unfold writeFile in Ef. injection Ef as _ <-.
      apply (@page_loop_invariant server Project Main.formatProject _ _ _ has_properties
               P1 _ _ _ _ _ (Forall_nil _ : Forall has_properties (all (page_start Project)))
               Ep).
    + unfold ret in H. injection H as _ <-. constructor.
  - intros Ef.
    unfold GetProjectProperties.fetch_and_store, read_config in Ef.
    destruct config as [cfg|]; [|discriminate Ef].
    unfold bind at 1 in Ef. unfold ret at 1 in Ef.
    unfold fill, bind, ret, throw in Ef.
    destruct (authUrlTemplate cfg); [|discriminate Ef].
    destruct (authUrlV2Template cfg); [|discriminate Ef].
    destruct (setPropertyUrlTemplate cfg); [|discriminate Ef].
    destruct (projectsUrlTemplate cfg); [|discriminate Ef].
    destruct (authenticate _ _ _ _ _) as [[w2 [token|e]]|]; try discriminate Ef.
    unfold paginate in Ef.
    destruct (page_loop _ _ _ _ _ _ _ w2) as [[w3 [l3|e]]|] eqn:Ep; try discriminate Ef.
    unfold writeFile in Ef. injection Ef as _ <-.
    apply (@page_loop_invariant server Project GetProjectProperties.formatProject _ _ _
             has_properties P2 _ _ _ _ _
             (Forall_nil _ : Forall has_properties (all (page_start Project))) Ep).
Qed.

Lemma fetched_projects_have_properties_witness :
  Forall has_properties
    [Main.formatProject (item "a"); Main.formatProject (item "b");
     Main.formatProject (item "c")].
Proof.
  apply (proj1 (@fetched_projects_have_properties demo_server simple_replace 3
                  (Some (sample_config (Some (JsString.units "s3cret")) None))
                  (Ok []) (fresh_world [])
                  (prepared "./output/projectList.json"
                     (sent (Net.GetPage "https://{customer}/projects" 500 0 "abc.def")
                        (authenticated_world ["./output"])))
                  [Main.formatProject (item "a"); Main.formatProject (item "b");
                   Main.formatProject (item "c")])).
  - reflexivity.
  - vm_compute. reflexivity.
Defined.

(** ** The orchestrator, when no stage comes back empty *)

(** X15.  When its four fetch stages return arrays that are not empty,
    [main] ends as [associateProjectsToBranches] does, called with the
    projects of the second stage and the branches of the fourth in the
    world the fourth left; each stage runs in the world its predecessor
    left, the roles stage is given the projects, and the applications and
    the details count only for not being empty. *)
Theorem nonempty_stages_reach_the_association
    (Apps Projects Details Branches : Type)
    (fetchApplications : M (list Apps)) (fetchProjects : M (list Projects))
    (fetchRoles : list Projects -> M (list Details))
    (fetchBranches : M (list Branches))
    (associate : list Projects -> list Branches -> M unit)
    (w w1 w2 w3 w4 : World)
    (apps : list Apps) (projects : list Projects) (details : list Details)
    (allBranches : list Branches) :
  fetchApplications w = Some (w1, Ok apps) -> apps <> [] ->
  fetchProjects w1 = Some (w2, Ok projects) -> projects <> [] ->
  fetchRoles projects w2 = Some (w3, Ok details) -> details <> [] ->
  fetchBranches w3 = Some (w4, Ok allBranches) -> allBranches <> [] ->
  Main.main fetchApplications fetchProjects fetchRoles fetchBranches associate w
  = associate projects allBranches w4.
Proof.
  assert (NE : forall X (l : list X), l <> [] -> Main.is_empty l = false).
  { intros X l H. destruct l; [contradiction H; reflexivity | reflexivity]. }
  intros E1 N1 E2 N2 E3 N3 E4 N4. unfold Main.main, bind.
  rewrite E1, (NE _ _ N1), E2, (NE _ _ N2), E3, (NE _ _ N3), E4, (NE _ _ N4).
  reflexivity.
Qed.

Lemma nonempty_stages_reach_the_association_witness :
  Main.main (ret [application "A" ["p1"]]) (ret [snapshot_project "p1" "one"])
    (fun ps => role_loop demo_server "demo" "t" ps [detail "p0" "User" "u" "u@x.com"])
    (ret [branch "main" "p1"])
    (fun _ _ => writeFile "./output/projectBranches.csv") (fresh_world ["./output"])
  = writeFile "./output/projectBranches.csv"
      (sent (Net.GetRoleAssignments "demo" "p1" "t") (fresh_world ["./output"])).
Proof.
  apply (@nonempty_stages_reach_the_association Application Project Detail Net.Resource
           (ret [application "A" ["p1"]]) (ret [snapshot_project "p1" "one"])
           (fun ps => role_loop demo_server "demo" "t" ps [detail "p0" "User" "u" "u@x.com"])
           (ret [branch "main" "p1"])
           (fun _ _ => writeFile "./output/projectBranches.csv")
           (fresh_world ["./output"]) (fresh_world ["./output"]) (fresh_world ["./output"])
           (sent (Net.GetRoleAssignments "demo" "p1" "t") (fresh_world ["./output"]))
           (sent (Net.GetRoleAssignments "demo" "p1" "t") (fresh_world ["./output"]))
           [application "A" ["p1"]] [snapshot_project "p1" "one"]
           [detail "p0" "User" "u" "u@x.com"] [branch "main" "p1"]);
    try reflexivity; discriminate.
Defined.

(** ** The rows and the details *)

Lemma filter_disjoint_perm {X} (p q : X -> bool) (l : list X) :
  (forall x, p x && q x = false) ->
  Permutation (filter p l ++ filter q l) (filter (fun x => p x || q x) l).
Proof.
  intros D. induction l as [|x l IH]; cbn [filter app]; [apply Permutation_refl|].
  specialize (D x).
  destruct (p x) eqn:Ep, (q x) eqn:Eq; cbn [orb app]; try discriminate D.
  - apply perm_skip. exact IH.
  - apply Permutation_sym, Permutation_cons_app, Permutation_sym. exact IH.
  - exact IH.
Qed.

Lemma existsb_perm {X} (f : X -> bool) (l l' : list X) :
  Permutation l l' -> existsb f l = existsb f l'.
Proof.
  induction 1 as [|x l l' _ IH|x y l|l l' l'' _ IH1 _ IH2]; cbn.
  - reflexivity.
  - rewrite IH. reflexivity.
  - destruct (f x), (f y); reflexivity.
  - rewrite IH1. exact IH2.
Qed.

Lemma principal_rows_perm (ds : list Detail) (k : string) :
  Permutation (principal_rows ds k)
    (map summary_of
       (filter (fun d => String.eqb (d_projectId d) k
                         && (String.eqb (d_userType d) "User"
                             || String.eqb (d_userType d) "GroupName")) ds)).
Proof.
  unfold principal_rows, ReportFacts.users_of, ReportFacts.groups_of.
  rewrite (map_ext_in _ summary_of
             (filter (fun d => String.eqb (d_projectId d) k
                               && String.eqb (d_userType d) "User") ds)).
  2:{ intros d Hd. apply filter_In in Hd. destruct Hd as [_ Hd].
      apply andb_true_iff in Hd. destruct Hd as [Hk Hu].
      apply String.eqb_eq in Hk. unfold summary_of. rewrite Hu, Hk. reflexivity. }
  rewrite (map_ext_in _ summary_of
             (filter (fun d => String.eqb (d_projectId d) k
                               && String.eqb (d_userType d) "GroupName") ds)).
  2:{ intros d Hd. apply filter_In in Hd. destruct Hd as [_ Hd].
      apply andb_true_iff in Hd. destruct Hd as [Hk Hg].
      apply String.eqb_eq in Hk. apply String.eqb_eq in Hg.
      unfold summary_of. rewrite Hg, Hk. reflexivity. }
  rewrite <- map_app. apply Permutation_map.
  eapply perm_trans.
  - apply filter_disjoint_perm. intros d.
    destruct (String.eqb (d_userType d) "User") eqn:U.
    + apply String.eqb_eq in U. rewrite U. cbn. rewrite !andb_false_r. reflexivity.
    + rewrite andb_false_r. reflexivity.
  - erewrite filter_ext; [apply Permutation_refl|].
    intros d. cbv beta. destruct (String.eqb (d_projectId d) k); reflexivity.
Qed.

Lemma rows_of_keys_perm (ds : list Detail) (ks : list string) :
  NoDup ks ->
  Permutation (flat_map (principal_rows ds) ks)
    (map summary_of
       (filter (fun d => existsb (String.eqb (d_projectId d)) ks
                         && (String.eqb (d_userType d) "User"
                             || String.eqb (d_userType d) "GroupName")) ds)).
Proof.
  induction 1 as [|k ks Hk _ IH]; cbn [flat_map].
  - erewrite filter_ext with (g := fun _ => false); [|reflexivity].
    replace (filter (fun _ : Detail => false) ds) with (@nil Detail).
    + apply Permutation_refl.
    + clear. induction ds; cbn; auto.
  - eapply perm_trans; [apply Permutation_app; [apply principal_rows_perm | exact IH]|].
    rewrite <- map_app. apply Permutation_map.
    eapply perm_trans.
    + apply filter_disjoint_perm. intros d.
      destruct (String.eqb (d_projectId d) k) eqn:E; [|reflexivity].
      apply String.eqb_eq in E.
      destruct (existsb (String.eqb (d_projectId d)) ks) eqn:X;
        [|rewrite andb_false_r; reflexivity].
      exfalso. apply Hk. apply existsb_exists in X. destruct X as [x [Hx Ex]].
      apply String.eqb_eq in Ex. subst x. rewrite <- E. exact Hx.
    + erewrite filter_ext; [apply Permutation_refl|].
      intros d. cbn [existsb].
      destruct (String.eqb (d_projectId d) k),
        (existsb (String.eqb (d_projectId d)) ks),
        (String.eqb (d_userType d) "User" || String.eqb (d_userType d) "GroupName");
        reflexivity.
Qed.

Lemma project_keys_perm (ps : list Project) :
  Permutation (ReportFacts.project_keys ps) (ReportFacts.created_keys ps)
  /\ NoDup (ReportFacts.project_keys ps).
Proof.
  assert (P : Permutation (ReportFacts.project_keys ps) (ReportFacts.created_keys ps)).
  { apply key_order_indices_ascend. }
  split; [exact P|].
  apply Permutation_NoDup with (l := ReportFacts.created_keys ps).
  - apply Permutation_sym. exact P.
  - apply (first_seen_once _ []).
Qed.

(** X16.  The report has one row for each record of the details snapshot
    whose kind is User or GroupName and whose project id is a key of the
    project map, and no other row: as a collection, the rows are these
    details.  A detail of another kind or of an unknown project is left out
    without a word, and a detail that is stored twice gets two rows. *)
Theorem one_row_per_reported_detail
    (allProjects : list Project) (allDetails : list Detail)
    (allBranches : list Net.Resource) (allApplications : list Application)
    (rows : list CreateReport.Row) :
  CreateReport.csvData allProjects allDetails (Some allBranches) allApplications = Ok rows ->
  Permutation (map summary rows)
    (map summary_of (filter (reported allProjects) allDetails))
  /\ List.length rows = List.length (filter (reported allProjects) allDetails).
Proof.
  intros H.
  assert (P : Permutation (map summary rows)
                (map summary_of (filter (reported allProjects) allDetails))).
  { rewrite (@ReportOrder.summaries _ _ _ _ _ H).
    destruct (project_keys_perm allProjects) as [Pk Nk].
    eapply perm_trans; [apply rows_of_keys_perm; exact Nk|].
    erewrite filter_ext; [apply Permutation_refl|].
    intros d. unfold reported. rewrite (existsb_perm _ Pk). reflexivity. }
  split; [exact P|].
  apply Permutation_length in P. rewrite !length_map in P. exact P.
Qed.

Lemma one_row_per_reported_detail_witness :
  List.length
    [report_row (CreateReport.Named "No Application Name") "one" "P1"
       "Individual User" "u" "u@x.com" [""; ""; ""; ""; ""];
     report_row (CreateReport.Named "No Application Name") "one" "P1"
       "Group" "g" "" [""; ""; ""; ""; ""]]
  = List.length
      (filter (reported [snapshot_project "P1" "one"])
         [detail "P1" "User" "u" "u@x.com"; detail "P9" "User" "v" "v@x.com";
          detail "P1" "Role" "r" ""; detail "P1" "GroupName" "g" "g@x.com"]).
Proof.
  apply (proj2 (@one_row_per_reported_detail [snapshot_project "P1" "one"]
                  [detail "P1" "User" "u" "u@x.com"; detail "P9" "User" "v" "v@x.com";
                   detail "P1" "Role" "r" ""; detail "P1" "GroupName" "g" "g@x.com"]
                  [] []
                  [report_row (CreateReport.Named "No Application Name") "one" "P1"
                     "Individual User" "u" "u@x.com" [""; ""; ""; ""; ""];
                   report_row (CreateReport.Named "No Application Name") "one" "P1"
                     "Group" "g" "" [""; ""; ""; ""; ""]]
                  eq_refl)).
Defined.

(** ** Project records with the same id *)

Lemma get_own_In {V} (k : string) (v : V) (o : JsObject.props V) :
  NoDup (map fst o) -> In (k, v) o -> JsObject.get_own k o = Some v.
Proof.
  induction o as [|[k' v'] o IH]; intros N H; [contradiction H|].
  cbn [map fst] in N. apply NoDup_cons_iff in N. destruct N as [Nk N].
  cbn [JsObject.get_own]. destruct H as [H | H].
  - injection H as -> ->. rewrite String.eqb_refl. reflexivity.
  - destruct (String.eqb k k') eqn:E.
    + apply String.eqb_eq in E. subst k'. exfalso. apply Nk.
      apply in_map_iff. exists (k, v). split; [reflexivity | exact H].
    + apply IH; assumption.
Qed.

Lemma reduced_get (k : string) (ps : list Project) :
  String.eqb k "__proto__" = false ->
  forall m : CreateReport.ProjectMap,
    JsObject.get_own k (CreateReport.own (fold_left CreateReport.add_project ps m))
    = match last_project ps k with
      | Some p =>
          Some {| CreateReport.projectName := proj_name p;
                  CreateReport.projectId := proj_id p;
                  CreateReport.type := proj_type p;
                  CreateReport.branches := []; CreateReport.users := [];
                  CreateReport.groups := [] |}
      | None => JsObject.get_own k (CreateReport.own m)
      end.
Proof.
  intros Hk. unfold last_project.
  induction ps as [|p ps IH]; intros m; cbn [fold_left rev]; [reflexivity|].
  rewrite IH, ReportRows.find_snoc.
  destruct (find (fun p0 => String.eqb (proj_id p0) k) (rev ps)); [reflexivity|].
  unfold CreateReport.add_project.
  destruct (String.eqb (proj_id p) k) eqn:E.
  - apply String.eqb_eq in E. subst k. rewrite Hk. cbn [CreateReport.own].
    apply get_own_set_same.
  - destruct (String.eqb (proj_id p) "__proto__"); cbn [CreateReport.own];
      [reflexivity|].
    apply get_own_set_other. rewrite String.eqb_sym. exact E.
Qed.

(** X17.  When several records of the projects snapshot share an id, the
    rows of that project carry the name of the last of them (while the
    project keeps the place of the first in the order of the rows): every
    row has the project name of the last record with the row's project id. *)
Theorem row_takes_last_project_name
    (allProjects : list Project) (allDetails : list Detail)
    (allBranches : list Net.Resource) (allApplications : list Application)
    (rows : list CreateReport.Row) (row : CreateReport.Row) :
  CreateReport.csvData allProjects allDetails (Some allBranches) allApplications = Ok rows ->
  In row rows ->
  exists p,
    last_project allProjects (CreateReport.row_projectId row) = Some p
    /\ In p allProjects
    /\ CreateReport.row_projectName row = proj_name p.
Proof.
  intros H Hin.
  destruct (@ReportTheorems.row_origin _ _ _ _ _ _ H Hin)
    as [final [[k e] [O [Hp [F [K Hrow]]]]]].
  destruct (@ReportTheorems.row_fields _ _ _ Hrow) as [R1 _].
  destruct (@ReportRows.completed_fresh allBranches allDetails _ F) as [C1 _].
  cbn [fst] in *. rewrite C1 in R1.
  assert (Rn : CreateReport.row_projectName row = CreateReport.projectName e).
  { unfold CreateReport.project_rows in Hrow. apply in_app_iff in Hrow.
    assert (Pn : CreateReport.projectName (ReportFacts.completed allBranches allDetails (k, e))
                 = CreateReport.projectName e).
    { unfold ReportFacts.completed. cbn [fst snd].
      destruct (ReportRows.with_details k allDetails
                  (fold_left (ReportFacts.with_branch k) allBranches e))
        as [_ [D2 _]].
      destruct (ReportRows.with_branches k allBranches e) as [_ [B2 _]].
      cbv zeta in D2, B2. rewrite D2, B2. reflexivity. }
    destruct Hrow as [Hrow | Hrow]; apply in_map_iff in Hrow;
      destruct Hrow as [x [<- _]]; cbn; exact Pn. }
  destruct (@ReportLemmas.created_key_is_project_id allProjects k K) as [_ NP].
  assert (G : JsObject.get_own k (CreateReport.own (ReportFacts.reduced allProjects))
              = Some e).
  { apply get_own_In; [|exact Hp]. apply ReportLemmas.reduce_NoDup. constructor. }
  unfold ReportFacts.reduced in G.
  rewrite (@reduced_get k allProjects NP CreateReport.empty_map) in G.
  rewrite R1.
  destruct (last_project allProjects k) as [p|] eqn:L; [|discriminate G].
  exists p. split; [reflexivity|]. split.
  - unfold last_project in L. apply find_some in L. apply in_rev. apply L.
  - injection G as <-. exact Rn.
Qed.

Lemma row_takes_last_project_name_witness :
  exists p,
    last_project [snapshot_project "P1" "old"; snapshot_project "P2" "two";
                  snapshot_project "P1" "new"]
      (CreateReport.row_projectId
         (report_row (CreateReport.Named "No Application Name") "new" "P1"
            "Individual User" "u" "u@x.com" [""; ""; ""; ""; ""]))
    = Some p
    /\ In p [snapshot_project "P1" "old"; snapshot_project "P2" "two";
             snapshot_project "P1" "new"]
    /\ CreateReport.row_projectName
         (report_row (CreateReport.Named "No Application Name") "new" "P1"
            "Individual User" "u" "u@x.com" [""; ""; ""; ""; ""])
       = proj_name p.
Proof.
  apply (@row_takes_last_project_name
           [snapshot_project "P1" "old"; snapshot_project "P2" "two";
            snapshot_project "P1" "new"]
           [detail "P1" "User" "u" "u@x.com"] [] []
           [report_row (CreateReport.Named "No Application Name") "new" "P1"
              "Individual User" "u" "u@x.com" [""; ""; ""; ""; ""]]).
  - reflexivity.
  - left. reflexivity.
Defined.

(** ** Snapshots that cannot be read *)

(** X18.  A snapshot that cannot be read or parsed is taken as the empty
    array, which the report survives for three of the four files only.
    Without [branchesList.json], or with one that has no [data], the report
    fails with a TypeError whatever the other files hold.  Without
    [userDetailsList.json] the report, when it is made, has no row; without
    [projectList.json] it has no row either, and it is made exactly like
    that when no branch and no detail refers to the name of a property of
    [Object.prototype]. *)
Theorem unreadable_snapshots
    (projectList : option (list Project)) (userDetailsList : option (list Detail))
    (applicationsList : option (list Application)) (allBranches : list Net.Resource) :
  Snapshots.csvData projectList userDetailsList None applicationsList = Throw TypeError
  /\ Snapshots.csvData projectList userDetailsList (Some None) applicationsList
     = Throw TypeError
  /\ (forall rows,
        Snapshots.csvData projectList None (Some (Some allBranches)) applicationsList
        = Ok rows -> rows = [])
  /\ (forall rows,
        Snapshots.csvData None userDetailsList (Some (Some allBranches)) applicationsList
        = Ok rows -> rows = [])
  /\ ((forall b, In b allBranches -> JsObject.inherited (Net.r_project b) = false) ->
      (forall d, In d (Snapshots.readLocalFiles userDetailsList) ->
                 JsObject.inherited (d_projectId d) = false) ->
      Snapshots.csvData None userDetailsList (Some (Some allBranches)) applicationsList
      = Ok []).
Proof.
  assert (E : forall ds rows,
            CreateReport.csvData [] ds (Some allBranches)
              (Snapshots.readLocalFiles applicationsList) = Ok rows -> rows = []).
  { intros ds rows H.
    destruct (@ReportRows.csvData_rows _ _ _ _ _ H) as [final [_ ->]]. reflexivity. }
  split; [reflexivity|]. split; [reflexivity|]. split; [|split].
  - intros rows H. unfold Snapshots.csvData in H. cbn [Snapshots.readLocalFiles] in H.
    pose proof (@ReportOrder.summaries _ _ _ _ _ H) as S.
    assert (Z : forall ks, flat_map (principal_rows []) ks = []).
    { induction ks as [|k ks IH]; cbn; [reflexivity | exact IH]. }
    rewrite Z in S. apply map_eq_nil in S. exact S.
  - intros rows H. apply (E _ _ H).
  - intros Hb Hd. unfold Snapshots.csvData. cbn [Snapshots.readLocalFiles Snapshots.branches_data].
    destruct (@ReportOrder.rows_are_made [] (Snapshots.readLocalFiles userDetailsList)
                allBranches (Snapshots.readLocalFiles applicationsList))
      as [rows Hrows].
    + apply ReportOrder.plain_ids_refer_to_entries; [intros p []| exact Hb | exact Hd].
    + rewrite Hrows. f_equal. apply (E _ _ Hrows).
Qed.

Lemma unreadable_snapshots_witness :
  Snapshots.csvData None (Some [detail "P1" "User" "u" "u@x.com"])
    (Some (Some [branch "main" "P1"])) (Some [application "A" ["P1"]])
  = Ok [].
Proof.
  apply (proj2 (proj2 (proj2 (proj2
           (@unreadable_snapshots None (Some [detail "P1" "User" "u" "u@x.com"])
              (Some [application "A" ["P1"]]) [branch "main" "P1"]))))).
  - intros b [<- | []]. reflexivity.
  - intros d [<- | []]. reflexivity.
Defined.

(** ** The branches stage of main.mjs *)

(** X19.  The branches stage of main.mjs keeps what it has.  With no
    [branchesList.json] in the way and its three templates filled, once
    authenticated it asks for pages of 500 up to the first reply that is not
    a full page, and that reply may be a refusal, a reply without a [data]
    array or a rejected request: in every case the stage returns the
    branches of the pages before it, writes [branchesList.json] and closes
    the console. *)
Theorem branches_stage_keeps_what_it_has
    (server : Net.Server) (replace : string -> string -> string -> string)
    (question : string -> M string)
    (fuel : nat) (cfg : Config) (t1 t2 t3 bearer : string)
    (pages : list (list Net.Resource)) (last : list Net.Resource) (w w1 : World) :
  exists_in w Branches.branchesListPath = false ->
  authUrlTemplate cfg = Some t1 -> authUrlV2Template cfg = Some t2 ->
  branchesUrlTemplate cfg = Some t3 ->
  JsString.truthy (replace t1 "{customer}" (customer cfg)) = true ->
  JsString.truthy (replace t2 "{customer}" (customer cfg)) = true ->
  JsString.truthy (replace t3 "{customer}" (customer cfg)) = true ->
  authenticate server cfg (replace t1 "{customer}" (customer cfg))
    (replace t2 "{customer}" (customer cfg)) (prepared Main.outputDirectory w)
  = Some (w1, Ok bearer) ->
  (forall i, i < List.length pages ->
     Paging.full_page 500
       (server (List.length (requests w1) + i)
          (Paging.branch_request (replace t3 "{customer}" (customer cfg)) bearer i))
       (nth i pages [])) ->
  Paging.closes_branches
    (server (List.length (requests w1) + List.length pages)
       (Paging.branch_request (replace t3 "{customer}" (customer cfg)) bearer
          (List.length pages))) last ->
  List.length pages < fuel ->
  exists w',
    Branches.fetchBranchesWithAuth server replace question fuel (Some cfg) w
    = Some (w', Ok (List.concat pages ++ last))
    /\ sent_since w1 w'
         (map (Paging.branch_request (replace t3 "{customer}" (customer cfg)) bearer)
              (seq 0 (S (List.length pages))))
    /\ exists_in w' Branches.branchesListPath = true
    /\ rl_open w' = false.
Proof.
  intros Hno H1 H2 H3 T1 T2 T3 Hauth Hfull Hlast Hfuel.
  destruct (@branch_loop_run server (replace t3 "{customer}" (customer cfg)) bearer
              pages last (page_start Net.Resource) w1 fuel eq_refl Hfull Hlast Hfuel)
    as [w' [E Hsent]].
  unfold Branches.fetchBranchesWithAuth, try_finally, try_catch.
  unfold bind at 1. rewrite ensure_prepared. unfold bind at 1. unfold file_exists at 1.
  assert (Ex : existsb (String.eqb Branches.branchesListPath)
                 (files (prepared Main.outputDirectory w)) = false).
  { change (exists_in (prepared Main.outputDirectory w) Branches.branchesListPath = false).
    rewrite exists_in_prepared, Hno. reflexivity. }
  rewrite Ex. unfold bind at 1. unfold ret at 1. cbn [negb].
  unfold Branches.fetch_and_store, read_config. unfold bind at 1. unfold ret at 1.
  unfold Branches.fill_optional. rewrite H1, H2, H3. cbn [option_map].
  rewrite T1, T2, T3. cbn [negb orb].
  unfold bind at 1. rewrite Hauth. unfold bind at 1. rewrite E.
  cbn [all page_start app].
  unfold bind at 1. rewrite writeFile_prepared. unfold ret.
  eexists. split; [reflexivity|].
  unfold sent_since in *. cbn [requests rl_close rl_open prepared].
  split; [exact Hsent|].
  change (exists_in (rl_close ?x) ?p) with (exists_in x p).
  rewrite exists_in_prepared, String.eqb_refl, orb_true_r. split; reflexivity.
Qed.

Lemma branches_stage_keeps_what_it_has_witness :
  exists w',
    Branches.fetchBranchesWithAuth branches_server simple_replace failing_question 5
      (Some (sample_config (Some (JsString.units "s3cret")) None)) (fresh_world [])
    = Some (w', Ok (List.concat [repeat (branch "main" "p1") 500] ++ []))
    /\ sent_since (authenticated_world ["./output"]) w'
         (map (Paging.branch_request
                 (simple_replace "https://{customer}/branches?o={offset}" "{customer}"
                    (customer (sample_config (Some (JsString.units "s3cret")) None)))
                 "abc.def")
              (seq 0 (S (List.length [repeat (branch "main" "p1") 500]))))
    /\ exists_in w' Branches.branchesListPath = true
    /\ rl_open w' = false.
Proof.
  apply (@branches_stage_keeps_what_it_has branches_server simple_replace
           failing_question 5 (sample_config (Some (JsString.units "s3cret")) None)
           "https://{customer}/auth/v1" "https://{customer}/auth/v2"
           "https://{customer}/branches?o={offset}" "abc.def"
           [repeat (branch "main" "p1") 500] [] (fresh_world [])
           (authenticated_world ["./output"])); try reflexivity.
  - intros i Hi. destruct i as [|i]; [|cbn in Hi; lia].
    eexists. repeat split; reflexivity.
  - right. split; [|reflexivity]. right. right. eexists. reflexivity.
  - cbn. lia.
Defined.

(** ** The console after the applications stage *)

Section Preserved.
Variable I : World -> Prop.
Hypothesis I_sent : forall q w, I w -> I (sent q w).
Hypothesis I_prepared : forall path w, I w -> I (prepared path w).

Lemma preserves_ret {A} (a : A) : preserves I (ret a).
Proof. intros w w' o E H. injection E as <- _. exact H. Qed.

Lemma preserves_throw {A} (e : exn) : preserves I (@throw A e).
Proof. intros w w' o E H. injection E as <- _. exact H. Qed.

Lemma preserves_bind {A B} (m : M A) (k : A -> M B) :
  preserves I m -> (forall a, preserves I (k a)) -> preserves I (bind m k).
Proof.
  intros Hm Hk w w' o E H. unfold bind in E.
  destruct (m w) as [[w1 [a|e]]|] eqn:Em; [| |discriminate].
  - exact (Hk a _ _ _ E (Hm _ _ _ Em H)).
  - injection E as <- _. exact (Hm _ _ _ Em H).
Qed.

Lemma preserves_try_catch {A} (m : M A) (h : exn -> M A) :
  preserves I m -> (forall e, preserves I (h e)) -> preserves I (try_catch m h).
Proof.
  intros Hm Hh w w' o E H. unfold try_catch in E.
  destruct (m w) as [[w1 [a|e]]|] eqn:Em; [| |discriminate].
  - injection E as <- _. exact (Hm _ _ _ Em H).
  - exact (Hh e _ _ _ E (Hm _ _ _ Em H)).
Qed.

Lemma preserves_axios (server : Net.Server) (q : Net.Request) :
  preserves I (axios_request server q).
Proof.
  intros w w' o E H. unfold axios_request in E.
  destruct (server (List.length (requests w)) q); injection E as <- _;
    apply I_sent; exact H.
Qed.

Lemma preserves_file_exists (path : string) : preserves I (file_exists path).
Proof. intros w w' o E H. injection E as <- _. exact H. Qed.

Lemma preserves_writeFile (path : string) : preserves I (writeFile path).
Proof.
  intros w w' o E H. rewrite writeFile_prepared in E. injection E as <- _.
  apply I_prepared. exact H.
Qed.

Lemma preserves_ensure (dir : string) : preserves I (ensureOutputDirectoryExists dir).
Proof.
  intros w w' o E H. rewrite ensure_prepared in E. injection E as <- _.
  apply I_prepared. exact H.
Qed.

Ltac preserves_step :=
  lazymatch goal with
  | |- preserves _ (bind _ _) => apply preserves_bind; [|intro]
  | |- preserves _ (try_catch _ _) => apply preserves_try_catch; [|intro]
  | |- preserves _ (ret _) => apply preserves_ret
  | |- preserves _ (throw _) => apply preserves_throw
  | |- preserves _ (file_exists _) => apply preserves_file_exists
  | |- preserves _ (writeFile _) => apply preserves_writeFile
  | |- preserves _ (ensureOutputDirectoryExists _) => apply preserves_ensure
  | |- preserves _ (axios_request _ _) => apply preserves_axios
  | |- preserves _ (if ?b then _ else _) => destruct b
  | |- preserves _ (match ?x with _ => _ end) => destruct x
  end.

Lemma preserves_authenticate (server : Net.Server) (cfg : Config) (u1 u2 : string) :
  preserves I (authenticate server cfg u1 u2).
Proof.
  unfold authenticate, authConfig, extract_token. repeat preserves_step.
Qed.

Lemma preserves_page_loop (server : Net.Server) {A} (format : Net.Resource -> A)
    (base bearer : string) (limit : N) (fuel : nat) :
  forall st, preserves I (page_loop server fuel base bearer limit format st).
Proof.
  induction fuel as [|fuel IH]; intros st; cbn [page_loop].
  - destruct (more st); [intros w w' o E; discriminate E | apply preserves_ret].
  - destruct (more st); [|apply preserves_ret].
    apply preserves_bind; [|exact IH].
    unfold page_turn. repeat preserves_step.
Qed.

Lemma preserves_role_loop (server : Net.Server) (cust bearer : string)
    (ps : list Project) :
  forall acc, preserves I (role_loop server cust bearer ps acc).
Proof.
  induction ps as [|p ps IH]; intros acc; cbn [role_loop].
  - apply preserves_ret.
  - repeat preserves_step; apply IH.
Qed.

Lemma preserves_fill (replace : string -> string -> string -> string)
    (t : option string) (cfg : Config) :
  preserves I (fill replace t cfg).
Proof. unfold fill. repeat preserves_step. Qed.

Lemma preserves_projects_stage (server : Net.Server)
    (replace : string -> string -> string -> string) (fuel : nat)
    (config : option Config) (stored : outcome (list Project)) :
  preserves I (Main.fetchProjectsWithAuth server replace fuel config stored).
Proof.
  unfold Main.fetchProjectsWithAuth, Main.projects_fetch, read_config, paginate.
  repeat first [ apply preserves_authenticate | apply preserves_page_loop
               | apply preserves_fill | preserves_step ].
Qed.

Lemma preserves_roles_stage (server : Net.Server)
    (replace : string -> string -> string -> string)
    (config : option Config) (allProjects : list Project) :
  preserves I (Main.fetchRoleAssignments server replace config allProjects).
Proof.
  unfold Main.fetchRoleAssignments, read_config.
  repeat first [ apply preserves_authenticate | apply preserves_role_loop
               | apply preserves_fill | preserves_step ].
Qed.

End Preserved.

(** X20.  In main.mjs the console is closed from the end of the
    applications stage on: that stage closes it on every path, and neither
    the projects stage nor the role-assignments stage opens it again.  The
    prompt of the branches stage is therefore put on a closed console. *)
Theorem console_is_closed_for_the_later_stages
    (server : Net.Server) (answers : nat -> string)
    (replace : string -> string -> string -> string)
    (fuel : nat) (config : option Config) (stored : outcome (list Project))
    (allProjects : list Project) (w w1 w2 w3 : World)
    (o1 : outcome (list Application)) (o2 : outcome (list Project))
    (o3 : outcome (list Detail)) :
  Main.fetchApplicationsWithAuth server answers replace fuel config w = Some (w1, o1) ->
  Main.fetchProjectsWithAuth server replace fuel config stored w1 = Some (w2, o2) ->
  Main.fetchRoleAssignments server replace config allProjects w2 = Some (w3, o3) ->
  console_closed w1 /\ console_closed w2 /\ console_closed w3.
Proof.
  intros E1 E2 E3.
  assert (C1 : console_closed w1).
  { unfold Main.fetchApplicationsWithAuth, try_finally in E1.
    destruct (try_catch _ _ w) as [[w0 r]|]; [|discriminate E1].
    injection E1 as <- _. reflexivity. }
  assert (C2 : console_closed w2).
  { apply (@preserves_projects_stage console_closed
             (fun _ _ H => H) (fun _ _ H => H) _ _ _ _ _ _ _ _ E2 C1). }
  split; [exact C1|]. split; [exact C2|].
  apply (@preserves_roles_stage console_closed
           (fun _ _ H => H) (fun _ _ H => H) _ _ _ _ _ _ _ E3 C2).
Qed.

Lemma console_is_closed_for_the_later_stages_witness :
  console_closed (rl_close (fresh_world ["./output"; "./output/projectList.json"]))
  /\ console_closed (rl_close (fresh_world ["./output"; "./output/projectList.json"]))
  /\ console_closed (rl_close (fresh_world ["./output"; "./output/projectList.json"])).
Proof.
  apply (@console_is_closed_for_the_later_stages demo_server (fun _ => "yes")
           simple_replace 3 None (Ok [snapshot_project "p1" "one"])
           [snapshot_project "p1" "one"]
           (fresh_world ["./output"; "./output/projectList.json"])
           _ _ _ (Ok []) (Ok [snapshot_project "p1" "one"]) (Ok [])).
  - vm_compute. reflexivity.
  - vm_compute. reflexivity.
  - vm_compute. reflexivity.
Defined.

(** X21.  When [branchesList.json] exists, the branches stage does
    nothing before its prompt is answered.  If the prompt throws, the stage
    returns the empty array without a request and the file stays; if the
    prompt never returns, neither does the stage; an answer that declines
    gives the empty array as well. *)
Theorem branches_stage_waits_for_its_prompt
    (server : Net.Server) (replace : string -> string -> string -> string)
    (question : string -> M string) (fuel : nat) (config : option Config) (w : World) :
  exists_in w Branches.branchesListPath = true ->
  (forall e wq,
     question "branchesList.json already exists. Do you want to delete it? [ yes | no ]: "
       (prepared Main.outputDirectory w) = Some (wq, Throw e) ->
     Branches.fetchBranchesWithAuth server replace question fuel config w
     = Some (rl_close wq, Ok []))
  /\ (question "branchesList.json already exists. Do you want to delete it? [ yes | no ]: "
        (prepared Main.outputDirectory w) = None ->
      Branches.fetchBranchesWithAuth server replace question fuel config w = None)
  /\ (forall answer wq,
        question "branchesList.json already exists. Do you want to delete it? [ yes | no ]: "
          (prepared Main.outputDirectory w) = Some (wq, Ok answer) ->
        declines answer = true ->
        Branches.fetchBranchesWithAuth server replace question fuel config w
        = Some (rl_close wq, Ok [])).
Proof.
  intros Hex.
  assert (Ex : existsb (String.eqb Branches.branchesListPath)
                 (files (prepared Main.outputDirectory w)) = true).
  { change (exists_in (prepared Main.outputDirectory w) Branches.branchesListPath = true).
    rewrite exists_in_prepared, Hex. reflexivity. }
  split; [|split].
  - intros e wq Hq.
    unfold Branches.fetchBranchesWithAuth, try_finally, try_catch.
    unfold bind at 1. rewrite ensure_prepared. unfold bind at 1. unfold file_exists at 1.
    rewrite Ex. unfold bind at 1. unfold bind at 1. rewrite Hq. reflexivity.
  - intros Hq.
    unfold Branches.fetchBranchesWithAuth, try_finally, try_catch.
    unfold bind at 1. rewrite ensure_prepared. unfold bind at 1. unfold file_exists at 1.
    rewrite Ex. unfold bind at 1. unfold bind at 1. rewrite Hq. reflexivity.
  - intros answer wq Hq Hd.
    unfold Branches.fetchBranchesWithAuth, try_finally, try_catch.
    unfold bind at 1. rewrite ensure_prepared. unfold bind at 1. unfold file_exists at 1.
    rewrite Ex. unfold bind at 1. unfold bind at 1. rewrite Hq, Hd. reflexivity.
Qed.

Lemma branches_stage_waits_for_its_prompt_witness :
  Branches.fetchBranchesWithAuth demo_server simple_replace failing_question 3
    (Some (sample_config (Some (JsString.units "s3cret")) None))
    (fresh_world ["./output"; "./output/branchesList.json"])
  = Some (rl_close (prepared Main.outputDirectory
                      (fresh_world ["./output"; "./output/branchesList.json"])),
          Ok []).
Proof.
  apply (proj1 (@branches_stage_waits_for_its_prompt demo_server simple_replace
                  failing_question 3
                  (Some (sample_config (Some (JsString.units "s3cret")) None))
                  (fresh_world ["./output"; "./output/branchesList.json"]) eq_refl)
           (Error "readline was closed")).
  reflexivity.
Defined.

(** ** The branch table of main.mjs *)

Module TableLemmas.
Import Branches.

Lemma table_reduce_keys (ps : list Project) :
  forall m : ProjectMap,
    map fst (own (fold_left add_project ps m))
    = map fst (own m)
      ++ KeyOrder.first_seen (map fst (own m))
           (filter ReportFacts.not_proto (map proj_id ps)).
Proof.
  induction ps as [|p ps IH]; intros m; cbn [fold_left map filter].
  - cbn. symmetry. apply app_nil_r.
  - rewrite IH. unfold add_project. unfold ReportFacts.not_proto at 2.
    destruct (String.eqb (proj_id p) "__proto__") eqn:E; cbn [negb own].
    + reflexivity.
    + cbn [KeyOrder.first_seen]. rewrite keys_set_own, <- has_own_keys.
      destruct (JsObject.has_own (proj_id p) (own m)) eqn:H; [reflexivity|].
      rewrite <- app_assoc. cbn [app]. do 2 f_equal.
      apply ReportLemmas.first_seen_ext. intros k. rewrite existsb_app. cbn.
      rewrite orb_false_r. apply orb_comm.
Qed.

Lemma keys_of_table (ps : list Project) :
  map fst (own (fold_left add_project ps empty_map)) = ReportFacts.created_keys ps.
Proof. rewrite table_reduce_keys. reflexivity. Qed.

Lemma table_reduce_proto (ps : list Project) :
  forall m,
    proto m = None ->
    (forall p, In p ps -> String.eqb (proj_id p) "__proto__" = false) ->
    proto (fold_left add_project ps m) = None.
Proof.
  induction ps as [|p ps IH]; intros m Hm H; cbn [fold_left]; [exact Hm|].
  apply IH.
  - unfold add_project. rewrite (H p (or_introl eq_refl)). exact Hm.
  - intros p' Hp. apply H. right. exact Hp.
Qed.

Lemma table_get (k : string) (ps : list Project) :
  String.eqb k "__proto__" = false ->
  forall m : ProjectMap,
    JsObject.get_own k (own (fold_left add_project ps m))
    = match last_project ps k with
      | Some p => Some {| name := proj_name p; branches := [] |}
      | None => JsObject.get_own k (own m)
      end.
Proof.
  intros Hk. unfold last_project.
  induction ps as [|p ps IH]; intros m; cbn [fold_left rev]; [reflexivity|].
  rewrite IH, ReportRows.find_snoc.
  destruct (find (fun p0 => String.eqb (proj_id p0) k) (rev ps)); [reflexivity|].
  unfold add_project.
  destruct (String.eqb (proj_id p) k) eqn:E.
  - apply String.eqb_eq in E. subst k. rewrite Hk. cbn [own].
    apply get_own_set_same.
  - destruct (String.eqb (proj_id p) "__proto__"); cbn [own]; [reflexivity|].
    apply get_own_set_other. rewrite String.eqb_sym. exact E.
Qed.

Lemma table_lookup_Found (m : ProjectMap) (k : string) :
  lookup m k = CreateReport.Found <-> JsObject.has_own k (own m) = true.
Proof.
  unfold lookup. destruct (JsObject.has_own k (own m)); [tauto|].
  split; [|discriminate].
  destruct (String.eqb k "__proto__").
  - destruct (proto m); discriminate.
  - destruct (proto m) as [e|].
    + destruct (entry_property e k) as [[|]|]; try discriminate.
      unfold CreateReport.of_object_prototype.
      destruct (JsObject.inherited k); discriminate.
    + unfold CreateReport.of_object_prototype.
      destruct (JsObject.inherited k); discriminate.
Qed.

Lemma table_add_branch_own (m m' : ProjectMap) (b : Net.Resource) :
  NoDup (map fst (own m)) ->
  add_branch m b = Ok m' ->
  own m' = map (fun p => (fst p, table_with_branch (fst p) (snd p) b)) (own m).
Proof.
  intros N H. unfold add_branch in H. unfold table_with_branch.
  destruct (lookup m (Net.r_project b)) eqn:L.
  - injection H as <-. cbn [own]. apply update_own_map. exact N.
  - injection H as <-. cbn [own]. apply untouched_map.
    destruct (JsObject.has_own (Net.r_project b) (own m)) eqn:E; [|reflexivity].
    apply table_lookup_Found in E. congruence.
  - discriminate.
  - injection H as <-. apply untouched_map.
    destruct (JsObject.has_own (Net.r_project b) (own m)) eqn:E; [|reflexivity].
    apply table_lookup_Found in E. congruence.
Qed.

Lemma table_branches_loop (bs : list Net.Resource) :
  forall m m',
    NoDup (map fst (own m)) ->
    CreateReport.for_each add_branch bs m = Ok m' ->
    own m' = map (fun p => (fst p, fold_left (table_with_branch (fst p)) bs (snd p)))
                 (own m).
Proof.
  induction bs as [|b bs IH]; intros m m' N H; cbn [CreateReport.for_each] in H.
  - injection H as <-. cbn [fold_left].
    clear. induction (own m) as [|[k e] o IHo]; cbn; [reflexivity | f_equal; exact IHo].
  - destruct (add_branch m b) as [m1|] eqn:E; [|discriminate].
    pose proof (@table_add_branch_own _ _ _ N E) as O1.
    rewrite (IH m1 m'); [|rewrite O1, map_map; exact N | exact H].
    rewrite O1, map_map. reflexivity.
Qed.

Lemma table_with_branches (k : string) (bs : list Net.Resource) :
  forall e,
    name (fold_left (table_with_branch k) bs e) = name e
    /\ branches (fold_left (table_with_branch k) bs e)
       = branches e ++ ReportFacts.branch_names bs k.
Proof.
  unfold ReportFacts.branch_names.
  induction bs as [|b bs IH]; intros e; cbn [fold_left filter map].
  - rewrite app_nil_r. auto.
  - destruct (IH (table_with_branch k e b)) as [H1 H2]. rewrite H1, H2.
    unfold table_with_branch.
    destruct (String.eqb (Net.r_project b) k); cbn; [rewrite <- app_assoc|]; auto.
Qed.

Lemma lookup_after_add (m m' : ProjectMap) (b : Net.Resource) :
  add_branch m b = Ok m' -> forall k, lookup m' k = lookup m k.
Proof.
  intros H k. unfold add_branch in H.
  destruct (lookup m (Net.r_project b)); try discriminate; injection H as <-;
    try reflexivity.
  - unfold lookup. cbn [own proto].
    assert (E : JsObject.has_own k
                  (JsObject.update_own (Net.r_project b)
                     (push_branch (Net.r_name b)) (own m))
                = JsObject.has_own k (own m)).
    { unfold JsObject.has_own.
      induction (own m) as [|[k2 e] o IH]; cbn; [reflexivity|].
      destruct (String.eqb (Net.r_project b) k2); cbn;
        destruct (String.eqb k k2); auto. }
    rewrite E. reflexivity.
  - unfold lookup. cbn [own proto].
    destruct (JsObject.has_own k (own m)); [reflexivity|].
    destruct (proto m) as [e|]; cbn [option_map]; reflexivity.
Qed.

Lemma foreign_key_throws (b : Net.Resource) (bs : list Net.Resource) :
  In b bs ->
  forall m,
    lookup m (Net.r_project b) = CreateReport.Foreign ->
    CreateReport.for_each add_branch bs m = Throw TypeError.
Proof.
  induction bs as [|b' bs IH]; intros Hin m L; [contradiction Hin|].
  cbn [CreateReport.for_each].
  destruct (add_branch m b') as [m1|e] eqn:E.
  - destruct Hin as [-> | Hin].
    + unfold add_branch in E. rewrite L in E. discriminate E.
    + apply IH; [exact Hin|]. rewrite (@lookup_after_add _ _ _ E). exact L.
  - unfold add_branch in E.
    destruct (lookup m (Net.r_project b')); try discriminate E.
    injection E as <-. reflexivity.
Qed.

End TableLemmas.

Lemma map_snd_by_key {V} (F : string -> V) (l : JsObject.props V) :
  (forall p, In p l -> snd p = F (fst p)) -> map snd l = map F (map fst l).
Proof.
  induction l as [|p l IH]; intros H; cbn; [reflexivity|].
  rewrite (H p (or_introl eq_refl)). f_equal. apply IH.
  intros q Hq. apply H. right. exact Hq.
Qed.

Lemma max_of_map_bounds (f : string -> nat) (ks : list string) :
  (forall k, In k ks -> f k <= fold_right Nat.max 0 (map f ks))
  /\ (ks <> [] -> exists k, In k ks /\ f k = fold_right Nat.max 0 (map f ks)).
Proof.
  induction ks as [|k ks [IH1 IH2]]; cbn [map fold_right].
  - split; [intros k []| intros H; contradiction H; reflexivity].
  - split.
    + intros k' [<- | Hk]; [lia|]. specialize (IH1 _ Hk). lia.
    + intros _. destruct ks as [|k2 ks].
      * exists k. split; [left; reflexivity|]. cbn. lia.
      * destruct (IH2 ltac:(discriminate)) as [k' [Hk' E]].
        destruct (Nat.max_spec (f k) (fold_right Nat.max 0 (map f (k2 :: ks))))
          as [[_ M] | [_ M]]; rewrite M.
        -- exists k'. split; [right; exact Hk' | exact E].
        -- exists k. split; [left; reflexivity | reflexivity].
Qed.

(** X22.  The branch table that main.mjs writes has one row per key of its
    project map, in the order in which [Object.values] visits the keys; the
    row carries the name of the last project record with that id and all the
    branches of the project in the order of the branches fetched: no branch
    is cut off.  The number of branch columns is the largest number of
    branches that a project has. *)
Theorem branch_table_lists_every_branch
    (allProjects : list Project) (allBranches : list Net.Resource)
    (rows : list Branches.Row) :
  Branches.csvData allProjects allBranches = Ok rows ->
  rows = map (branch_row allProjects allBranches) (ReportFacts.project_keys allProjects)
  /\ (forall k, In k (ReportFacts.project_keys allProjects) ->
        List.length (ReportFacts.branch_names allBranches k)
        <= Branches.branch_columns rows)
  /\ (rows <> [] ->
      exists k, In k (ReportFacts.project_keys allProjects)
                /\ List.length (ReportFacts.branch_names allBranches k)
                   = Branches.branch_columns rows).
Proof.
  intros H. unfold Branches.csvData in H.
  set (m0 := fold_left Branches.add_project allProjects Branches.empty_map) in H.
  destruct (CreateReport.for_each Branches.add_branch allBranches m0) as [m1|] eqn:E;
    [|discriminate H].
  injection H as <-.
  assert (K0 : map fst (Branches.own m0) = ReportFacts.created_keys allProjects).
  { apply TableLemmas.keys_of_table. }
  assert (N0 : NoDup (map fst (Branches.own m0))).
  { rewrite K0. apply (first_seen_once _ []). }
  pose proof (@TableLemmas.table_branches_loop allBranches m0 m1 N0 E) as O1.
  assert (R : map Branches.project_row (JsObject.values (Branches.own m1))
              = map (branch_row allProjects allBranches)
                    (ReportFacts.project_keys allProjects)).
  { unfold JsObject.values. rewrite O1.
    rewrite (ordered_map (fun p => (fst p,
               fold_left (table_with_branch (fst p)) allBranches (snd p))))
      by reflexivity.
    rewrite !map_map.
    unfold ReportFacts.project_keys. rewrite <- K0, <- keys_ordered, map_map.
    apply map_ext_in. intros [k e] Hp. cbn [fst snd].
    apply (proj1 (ordered_In (k, e) (Branches.own m0))) in Hp.
    assert (Kin : In k (ReportFacts.created_keys allProjects)).
    { rewrite <- K0. apply in_map_iff. exists (k, e). split; [reflexivity | exact Hp]. }
    destruct (@ReportLemmas.created_key_is_project_id allProjects k Kin) as [_ NP].
    pose proof (@get_own_In _ k e (Branches.own m0) N0 Hp) as G.
    unfold m0 in G.
    rewrite (@TableLemmas.table_get k allProjects NP Branches.empty_map) in G.
    destruct (TableLemmas.table_with_branches k allBranches e) as [W1 W2].
    unfold Branches.project_row, branch_row, name_of. rewrite W1, W2.
    destruct (last_project allProjects k) as [p|]; [|discriminate G].
    injection G as <-. reflexivity. }
  split; [exact R|].
  rewrite R. unfold Branches.branch_columns. rewrite map_map. cbn [branch_row Branches.row_branchNames].
  destruct (max_of_map_bounds
              (fun k => List.length (ReportFacts.branch_names allBranches k))
              (ReportFacts.project_keys allProjects)) as [B1 B2].
  split; [exact B1|].
  intros Hne. apply B2. intros Hk. apply Hne. rewrite Hk. reflexivity.
Qed.

Lemma branch_table_lists_every_branch_witness :
  [ {| Branches.row_projectName := "one";
       Branches.row_branchNames := ["b1"; "b2"; "b3"; "b4"; "b5"; "b6"; "b7"] |};
    {| Branches.row_projectName := "two"; Branches.row_branchNames := ["x"] |} ]
  = map (branch_row [snapshot_project "P1" "one"; snapshot_project "P2" "two"]
           seven_branches)
        (ReportFacts.project_keys
           [snapshot_project "P1" "one"; snapshot_project "P2" "two"]).
Proof.
  apply (proj1 (@branch_table_lists_every_branch
                  [snapshot_project "P1" "one"; snapshot_project "P2" "two"]
                  seven_branches
                  [ {| Branches.row_projectName := "one";
                       Branches.row_branchNames :=
                         ["b1"; "b2"; "b3"; "b4"; "b5"; "b6"; "b7"] |};
                    {| Branches.row_projectName := "two";
                       Branches.row_branchNames := ["x"] |} ]
                  eq_refl)).
Defined.

(** X23.  The branch table has the defect of the report: its guard
    [if (projectMap[projectId])] is fooled by the keys that a plain object
    inherits.  One branch whose project id is the name of a property of
    [Object.prototype], and not the id of a project, makes [push] fail with
    a TypeError; the function swallows it, so [projectBranches.csv] is not
    written and main.mjs ends as if nothing had happened. *)
Theorem inherited_key_breaks_the_branch_table
    (allProjects : list Project) (allBranches : list Net.Resource) (b : Net.Resource) :
  In b allBranches ->
  JsObject.inherited (Net.r_project b) = true ->
  ~ In (Net.r_project b) (map proj_id allProjects) ->
  (forall p, In p allProjects -> String.eqb (proj_id p) "__proto__" = false) ->
  Branches.csvData allProjects allBranches = Throw TypeError
  /\ forall w, Branches.associateProjectsToBranches allProjects allBranches w
               = Some (w, Ok tt).
Proof.
  intros Hin Hinh Hno Hproto.
  assert (L : Branches.lookup (fold_left Branches.add_project allProjects Branches.empty_map)
                (Net.r_project b) = CreateReport.Foreign).
  { unfold Branches.lookup.
    rewrite (@TableLemmas.table_reduce_proto allProjects Branches.empty_map eq_refl Hproto).
    destruct (JsObject.has_own (Net.r_project b) _) eqn:O.
    - exfalso. apply Hno. apply has_own_In in O.
      rewrite TableLemmas.keys_of_table in O.
      apply (@ReportLemmas.created_key_is_project_id allProjects _ O).
    - destruct (String.eqb (Net.r_project b) "__proto__"); [reflexivity|].
      unfold CreateReport.of_object_prototype. rewrite Hinh. reflexivity. }
  assert (T : Branches.csvData allProjects allBranches = Throw TypeError).
  { unfold Branches.csvData.
    rewrite (@TableLemmas.foreign_key_throws b allBranches Hin _ L). reflexivity. }
  split; [exact T|].
  intros w. unfold Branches.associateProjectsToBranches, try_catch. rewrite T.
  reflexivity.
Qed.

Lemma inherited_key_breaks_the_branch_table_witness :
  Branches.csvData [snapshot_project "P1" "one"]
    [branch "main" "P1"; branch "dev" "constructor"]
  = Throw TypeError
  /\ forall w,
       Branches.associateProjectsToBranches [snapshot_project "P1" "one"]
         [branch "main" "P1"; branch "dev" "constructor"] w
       = Some (w, Ok tt).
Proof.
  apply (@inherited_key_breaks_the_branch_table [snapshot_project "P1" "one"]
           [branch "main" "P1"; branch "dev" "constructor"] (branch "dev" "constructor")).
  - right. left. reflexivity.
  - reflexivity.
  - intros [H | []]. discriminate H.
  - intros p [<- | []]. reflexivity.
Defined.

(** ** The lines of applicationsList.csv *)

(** X24.  [applicationsList.csv] has one line per pair of an application
    and a project it lists, in the order of the applications and, within
    one, of its projects: the project column is the concatenation of the
    project lists, the number of lines is the sum of their lengths, and an
    application that lists no project has no line at all, though it is in
    [applicationsList.json]. *)
Theorem application_lines_follow_the_project_lists
    (before after : list Application) (application : Application) :
  map ApplicationsCsv.line_project (ApplicationsCsv.csvData (before ++ after))
  = flat_map app_projects (before ++ after)
  /\ List.length (ApplicationsCsv.csvData (before ++ after))
     = list_sum (map (fun a => List.length (app_projects a)) (before ++ after))
  /\ (app_projects application = [] ->
      ApplicationsCsv.csvData (before ++ application :: after)
      = ApplicationsCsv.csvData (before ++ after))
  /\ (forall line, In line (ApplicationsCsv.csvData (before ++ application :: after)) ->
      exists a, In a (before ++ application :: after)
                /\ In (ApplicationsCsv.line_project line) (app_projects a)
                /\ ApplicationsCsv.line_id line = app_id a
                /\ ApplicationsCsv.line_name line = app_name a).
Proof.
  split; [|split; [|split]].
  - unfold ApplicationsCsv.csvData.
    induction (before ++ after) as [|a l IH]; cbn [flat_map]; [reflexivity|].
    rewrite map_app, IH, map_map. cbn. rewrite map_id. reflexivity.
  - unfold ApplicationsCsv.csvData.
    induction (before ++ after) as [|a l IH]; cbn [flat_map map list_sum]; [reflexivity|].
    rewrite length_app, length_map, IH. reflexivity.
  - intros H. unfold ApplicationsCsv.csvData.
    rewrite !flat_map_app. cbn [flat_map]. rewrite H. reflexivity.
  - intros line Hl. unfold ApplicationsCsv.csvData in Hl.
    apply in_flat_map in Hl. destruct Hl as [a [Ha Hl]].
    apply in_map_iff in Hl. destruct Hl as [k [<- Hk]].
    exists a. cbn. auto.
Qed.

Lemma application_lines_follow_the_project_lists_witness :
  ApplicationsCsv.csvData
    ([application "A" ["p1"; "p2"]] ++ application "B" [] :: [application "C" ["p1"]])
  = ApplicationsCsv.csvData ([application "A" ["p1"; "p2"]] ++ [application "C" ["p1"]]).
Proof.
  apply (proj1 (proj2 (proj2 (@application_lines_follow_the_project_lists
                                [application "A" ["p1"; "p2"]]
                                [application "C" ["p1"]] (application "B" []))))).
  reflexivity.
Defined.

(** ** A server that always has one more page *)

(** X26.  A paginated fetch has no cap on its pages.  Against a server
    that answers every page request with a full page, the fetch of the
    applications has not returned after any number of turns, and neither has
    the applications stage of main.mjs: nothing but a reply that is not a
    full page, or an error, ends the loop. *)
Theorem full_pages_never_end_the_fetch
    (server : Net.Server) (answers : nat -> string)
    (replace : string -> string -> string -> string)
    (cfg : Config) (t1 t2 t3 bearer : string) (w w1 : World) :
  (forall n base off token,
     exists items,
       Paging.full_page 25 (server n (Net.GetPage base 25 off token)) items) ->
  (forall A (format : Net.Resource -> A) base fuel w0,
     paginate server fuel base bearer 25 format w0 = None)
  /\ (exists_in w Main.applicationsListPath = false ->
      exists_in w Main.applicationsCsvPath = false ->
      ready cfg t1 t2 t3 ->
      authenticate server cfg (replace t1 "{customer}" (customer cfg))
        (replace t2 "{customer}" (customer cfg)) (prepared Main.outputDirectory w)
      = Some (w1, Ok bearer) ->
      forall fuel,
        Main.fetchApplicationsWithAuth server answers replace fuel (Some cfg) w = None).
Proof.
  intros Hfull.
  assert (P : forall A (format : Net.Resource -> A) base fuel w0,
            paginate server fuel base bearer 25 format w0 = None).
  { intros A format base fuel w0. unfold paginate.
    apply page_loop_keeps_asking; [reflexivity|].
    intros i _. apply Hfull. }
  split; [exact P|].
  intros Hjson Hcsv Hready Hauth fuel.
  rewrite (@applications_stage_body server answers replace fuel cfg t1 t2 t3 w
             Hjson Hcsv Hready).
  unfold try_finally, try_catch. unfold bind at 1. rewrite Hauth.
  unfold bind at 1. unfold Main.applications_limit. rewrite P. reflexivity.
Qed.

Lemma full_pages_never_end_the_fetch_witness :
  paginate endless_server 40 "https://demo/applications" "abc.def" 25
    GetApplicationList.formatApplication (fresh_world [])
  = None.
Proof.
  apply (proj1 (@full_pages_never_end_the_fetch endless_server (fun _ => "yes")
                  simple_replace (sample_config None None) "" "" "" "abc.def"
                  (fresh_world []) (fresh_world [])
                  (fun n base off token =>
                     ex_intro _ (map item (repeat "a" 25))
                       (ex_intro _ _ (conj eq_refl (conj eq_refl (conj eq_refl eq_refl))))))).
Defined.

(** ** The two sessions of getProjectUserInformation.mjs *)

Lemma world_by_parts (w w' : World) (qs : list Net.Request) :
  sent_since w w' qs -> asked w' = asked w -> files w' = files w ->
  rl_open w' = rl_open w -> w' = sent_all qs w.
Proof.
  unfold sent_since, sent_all. destruct w', w; cbn. intros -> -> -> ->. reflexivity.
Qed.

(** X25.  getProjectUserInformation.mjs opens two sessions when it has to
    fetch the projects itself: one for the pages of projects, and, once
    [projectList.json] is written, a second one for the role assignments,
    whose requests carry the token of the second session, one per project
    fetched and in that order.  The script then leaves both details
    artifacts written and the console closed. *)
Theorem user_information_opens_two_sessions
    (server : Net.Server) (replace : string -> string -> string -> string)
    (fuel : nat) (cfg : Config) (t1 t2 t3 bearer1 bearer2 : string)
    (pages : list (list Net.Resource)) (last : list Net.Resource)
    (replies : list Net.Response) (w w1 w2 : World) :
  exists_in w GetProjectUserInformation.projectListPath = false ->
  authUrlTemplate cfg = Some t1 -> authUrlV2Template cfg = Some t2 ->
  projectsUrlTemplate cfg = Some t3 ->
  authenticate server cfg (replace t1 "{customer}" (customer cfg))
    (replace t2 "{customer}" (customer cfg))
    (prepared GetProjectUserInformation.outputDirectory w)
  = Some (w1, Ok bearer1) ->
  (forall i, i < List.length pages ->
     Paging.full_page 500
       (server (List.length (requests w1) + i)
          (Paging.page_request (before_query (replace t3 "{customer}" (customer cfg)))
             bearer1 500 i))
       (nth i pages [])) ->
  Paging.closes 500
    (server (List.length (requests w1) + List.length pages)
       (Paging.page_request (before_query (replace t3 "{customer}" (customer cfg)))
          bearer1 500 (List.length pages))) last ->
  List.length pages < fuel ->
  authenticate server cfg (replace t1 "{customer}" (customer cfg))
    (replace t2 "{customer}" (customer cfg))
    (prepared GetProjectUserInformation.projectListPath
       (sent_all
          (map (Paging.page_request (before_query (replace t3 "{customer}" (customer cfg)))
                  bearer1 500)
               (seq 0 (S (List.length pages)))) w1))
  = Some (w2, Ok bearer2) ->
  answered server (customer cfg) bearer2 (List.length (requests w2))
    (map GetProjectUserInformation.formatProject (List.concat pages ++ last)) replies ->
  exists w',
    GetProjectUserInformation.fetchProjectsWithAuth server replace fuel (Some cfg)
      (Ok []) w
    = Some (w', Ok tt)
    /\ sent_since w2 w'
         (map (role_request (customer cfg) bearer2)
              (map GetProjectUserInformation.formatProject (List.concat pages ++ last)))
    /\ exists_in w' GetProjectUserInformation.detailsListPath = true
    /\ exists_in w' GetProjectUserInformation.csvPath = true
    /\ rl_open w' = false.
Proof.
  intros Hno H1 H2 H3 Hauth1 Hfull Hlast Hfuel Hauth2 Hans.
  destruct (@page_loop_run server Project GetProjectUserInformation.formatProject
              (before_query (replace t3 "{customer}" (customer cfg))) bearer1 500
              pages last (page_start Project) w1 fuel eq_refl Hfull Hlast Hfuel)
    as [wp [Ep [Sp [Ap [Fp Rp]]]]].
  pose proof (@world_by_parts w1 wp
                (map (Paging.page_request
                        (before_query (replace t3 "{customer}" (customer cfg))) bearer1 500)
                     (seq 0 (S (List.length pages))))
                Sp Ap Fp Rp) as Wp.
  subst wp.
  destruct (@role_loop_run server (customer cfg) bearer2 _ replies [] w2 Hans)
    as [wr [Er [Sr _]]].
  unfold GetProjectUserInformation.fetchProjectsWithAuth, try_finally, try_catch.
  unfold bind at 1. rewrite ensure_prepared. unfold bind at 1. unfold file_exists at 1.
  assert (Ex : existsb (String.eqb GetProjectUserInformation.projectListPath)
                 (files (prepared GetProjectUserInformation.outputDirectory w)) = false).
  { change (exists_in (prepared GetProjectUserInformation.outputDirectory w)
              GetProjectUserInformation.projectListPath = false).
    rewrite exists_in_prepared, Hno. reflexivity. }
  rewrite Ex. unfold bind at 1.
  unfold GetProjectUserInformation.fetch_projects at 1, read_config.
  unfold bind at 1. unfold ret at 1. unfold fill. rewrite H1, H2, H3.
  unfold bind at 1. unfold ret at 1. unfold bind at 1. unfold ret at 1.
  unfold bind at 1. unfold ret at 1.
  unfold bind at 1. rewrite Hauth1.
  unfold bind at 1. unfold paginate, GetProjectUserInformation.limit. rewrite Ep.
  cbn [all page_start app].
  unfold bind at 1. rewrite writeFile_prepared. unfold ret at 1.
  unfold bind at 1.
  unfold GetProjectUserInformation.fetch_details, read_config.
  unfold bind at 1. unfold ret at 1. unfold fill. rewrite H1, H2.
  unfold bind at 1. unfold ret at 1. unfold bind at 1. unfold ret at 1.
  unfold bind at 1. rewrite Hauth2.
  unfold bind at 1. rewrite Er. cbn [app].
  unfold bind at 1. rewrite writeFile_prepared.
  unfold bind at 1. rewrite writeFile_prepared. unfold ret.
  eexists. split; [reflexivity|].
  unfold sent_since in *. cbn [requests rl_close rl_open prepared].
  split; [exact Sr|].
  change (exists_in (rl_close ?x) ?p) with (exists_in x p).
  rewrite !exists_in_prepared, String.eqb_refl, !orb_true_r.
  repeat split.
Qed.

Lemma user_information_opens_two_sessions_witness :
  exists w',
    GetProjectUserInformation.fetchProjectsWithAuth demo_server simple_replace 3
      (Some (sample_config (Some (JsString.units "s3cret")) None)) (Ok [])
      (fresh_world [])
    = Some (w', Ok tt)
    /\ sent_since second_session_world w'
         (map (role_request
                 (customer (sample_config (Some (JsString.units "s3cret")) None))
                 "abc.def")
              (map GetProjectUserInformation.formatProject
                 (List.concat [] ++ [item "a"; item "b"; item "c"])))
    /\ exists_in w' GetProjectUserInformation.detailsListPath = true
    /\ exists_in w' GetProjectUserInformation.csvPath = true
    /\ rl_open w' = false.
Proof.
  apply (@user_information_opens_two_sessions demo_server simple_replace 3
           (sample_config (Some (JsString.units "s3cret")) None)
           "https://{customer}/auth/v1" "https://{customer}/auth/v2"
           "https://{customer}/projects" "abc.def" "abc.def"
           [] [item "a"; item "b"; item "c"]
           [sample_response 200 None None None (Some [item "u"]);
            sample_response 200 None None None (Some [item "u"]);
            sample_response 200 None None None (Some [item "u"])]
           (fresh_world []) (authenticated_world ["../output"]) second_session_world);
    try reflexivity.
  - intros i Hi. cbn in Hi. lia.
  - left. eexists. split; [reflexivity|]. repeat split; try reflexivity. discriminate.
  - cbn. lia.
  - cbn. repeat split; try reflexivity; discriminate.
Defined.

(** ** What a result that is not empty says about the files *)

Lemma bind_ok {A B} (m : M A) (k : A -> M B) (w w' : World) (b : B) :
  bind m k w = Some (w', Ok b) ->
  exists a w1, m w = Some (w1, Ok a) /\ k a w1 = Some (w', Ok b).
Proof.
  unfold bind. intros H.
  destruct (m w) as [[w1 [a|e]]|]; [|discriminate H|discriminate H].
  exists a, w1. split; [reflexivity | exact H].
Qed.

Lemma try_catch_nonempty {A} (m : M (list A)) (w w' : World) (l : list A) :
  try_catch m (fun _ => ret []) w = Some (w', Ok l) -> l <> [] ->
  m w = Some (w', Ok l).
Proof.
  unfold try_catch. intros H N.
  destruct (m w) as [[w1 [a|e]]|]; [exact H| |discriminate H].
  injection H as _ <-. contradiction N. reflexivity.
Qed.

Lemma stored_at_sent (path : string) (q : Net.Request) (w : World) :
  stored_at path w -> stored_at path (sent q w).
Proof. intros H. exact H. Qed.

Lemma stored_at_prepared (path other : string) (w : World) :
  stored_at path w -> stored_at path (prepared other w).
Proof.
  unfold stored_at. intros H. rewrite exists_in_prepared, H. reflexivity.
Qed.

Lemma stored_at_written (path : string) (w : World) : stored_at path (prepared path w).
Proof.
  unfold stored_at. rewrite exists_in_prepared, String.eqb_refl. apply orb_true_r.
Qed.

Ltac bind_inv H :=
  let a := fresh "a" in
  let wx := fresh "wx" in
  let Hm := fresh "Hm" in
  apply bind_ok in H; destruct H as [a [wx [Hm H]]];
  try (rewrite writeFile_prepared in Hm; injection Hm as <- _).

Ltac stored_by_write :=
  unfold stored_at;
  change (exists_in (rl_close ?x) ?p) with (exists_in x p);
  rewrite !exists_in_prepared, String.eqb_refl, ?orb_true_r; reflexivity.

Lemma applications_are_stored
    (server : Net.Server) (answers : nat -> string)
    (replace : string -> string -> string -> string)
    (fuel : nat) (config : option Config) (w w1 : World) (apps : list Application) :
  Main.fetchApplicationsWithAuth server answers replace fuel config w = Some (w1, Ok apps) ->
  apps <> [] ->
  stored_at Main.applicationsListPath w1 /\ stored_at Main.applicationsCsvPath w1.
Proof.
  intros H N. unfold Main.fetchApplicationsWithAuth, try_finally in H.
  destruct (try_catch _ _ w) as [[w0 r]|] eqn:E; [|discriminate H].
  injection H as <- ->.
  apply try_catch_nonempty in E; [|exact N].
  bind_inv E. bind_inv E.
  destruct a0; cbn [negb] in E; [|injection E as _ <-; contradiction N; reflexivity].
  bind_inv E.
  destruct a0; cbn [negb] in E; [|injection E as _ <-; contradiction N; reflexivity].
  unfold Main.applications_fetch_and_store in E.
  bind_inv E.
  destruct (_ || _) in E; [discriminate E|].
  do 7 bind_inv E.
  injection E as <- _.
  split; stored_by_write.
Qed.

Lemma projects_are_stored
    (server : Net.Server) (replace : string -> string -> string -> string)
    (fuel : nat) (config : option Config) (stored : outcome (list Project))
    (w w1 : World) (ps : list Project) :
  Main.fetchProjectsWithAuth server replace fuel config stored w = Some (w1, Ok ps) ->
  ps <> [] ->
  stored_at Main.projectListPath w1.
Proof.
  intros H N. unfold Main.fetchProjectsWithAuth in H.
  apply try_catch_nonempty in H; [|exact N].
  bind_inv H. unfold bind at 1 in H. unfold file_exists at 1 in H.
  destruct (existsb (String.eqb Main.projectListPath) (files wx)) eqn:Ex.
  - destruct stored as [l|e]; [|discriminate H].
    injection H as <- _. exact Ex.
  - unfold Main.projects_fetch in H.
    do 7 bind_inv H.
    injection H as <- _. stored_by_write.
Qed.

Lemma details_are_stored
    (server : Net.Server) (replace : string -> string -> string -> string)
    (config : option Config) (allProjects : list Project)
    (w w1 : World) (ds : list Detail) :
  Main.fetchRoleAssignments server replace config allProjects w = Some (w1, Ok ds) ->
  ds <> [] ->
  stored_at Main.detailsListPath w1 /\ stored_at "./output/userDetailsList.csv" w1.
Proof.
  intros H N. unfold Main.fetchRoleAssignments in H.
  apply try_catch_nonempty in H; [|exact N].
  do 7 bind_inv H.
  injection H as <- _. split; stored_by_write.
Qed.

(** X27.  A result of a stage of main.mjs that is not empty is backed by
    its artifacts.  When the applications, projects and role-assignments
    stages have returned arrays that are not empty, one after the other, the
    five files they are to leave all exist: the three snapshots among them
    are what createReport.mjs reads, and no later stage removes what an
    earlier one wrote. *)
Theorem nonempty_results_are_stored
    (server : Net.Server) (answers : nat -> string)
    (replace : string -> string -> string -> string)
    (fuel : nat) (config : option Config) (stored : outcome (list Project))
    (w w1 w2 w3 : World)
    (apps : list Application) (ps : list Project) (ds : list Detail) :
  Main.fetchApplicationsWithAuth server answers replace fuel config w = Some (w1, Ok apps) ->
  apps <> [] ->
  Main.fetchProjectsWithAuth server replace fuel config stored w1 = Some (w2, Ok ps) ->
  ps <> [] ->
  Main.fetchRoleAssignments server replace config ps w2 = Some (w3, Ok ds) ->
  ds <> [] ->
  Forall (fun path => stored_at path w3)
    [Main.applicationsListPath; Main.applicationsCsvPath; Main.projectListPath;
     Main.detailsListPath; "./output/userDetailsList.csv"].
Proof.
  intros E1 N1 E2 N2 E3 N3.
  destruct (@applications_are_stored _ _ _ _ _ _ _ _ E1 N1) as [A1 A2].
  pose proof (@projects_are_stored _ _ _ _ _ _ _ _ E2 N2) as P.
  destruct (@details_are_stored _ _ _ _ _ _ _ E3 N3) as [D1 D2].
  assert (Keep : forall path, stored_at path w1 -> stored_at path w3).
  { intros path H.
    apply (@preserves_roles_stage (stored_at path) (@stored_at_sent path)
             (fun other w0 => @stored_at_prepared path other w0) _ _ _ _ _ _ _ E3).
    apply (@preserves_projects_stage (stored_at path) (@stored_at_sent path)
             (fun other w0 => @stored_at_prepared path other w0) _ _ _ _ _ _ _ _ E2).
    exact H. }
  apply Forall_cons; [apply Keep; exact A1|].
  apply Forall_cons; [apply Keep; exact A2|].
  apply Forall_cons.
  { apply (@preserves_roles_stage (stored_at Main.projectListPath)
             (@stored_at_sent Main.projectListPath)
             (fun other w0 => @stored_at_prepared Main.projectListPath other w0)
             _ _ _ _ _ _ _ E3 P). }
  apply Forall_cons; [exact D1|].
  apply Forall_cons; [exact D2|].
  apply Forall_nil.
Qed.

Lemma nonempty_results_are_stored_witness :
  Forall (fun path => stored_at path after_three_stages)
    [Main.applicationsListPath; Main.applicationsCsvPath; Main.projectListPath;
     Main.detailsListPath; "./output/userDetailsList.csv"].
Proof.
  eapply (@nonempty_results_are_stored staffed_server (fun _ => "yes") simple_replace 3
            (Some (sample_config (Some (JsString.units "s3cret")) None)) (Ok [])
            (fresh_world [])).
  - vm_compute. reflexivity.
  - discriminate.
  - vm_compute. reflexivity.
  - discriminate.
  - vm_compute. reflexivity.
  - discriminate.
Defined.

(** ** From the role assignments to the report *)

Lemma filter_map_all {X Y} (f : Y -> bool) (g : X -> Y) (l : list X) :
  (forall x, f (g x) = true) -> filter f (map g l) = map g l.
Proof.
  intros H. induction l as [|x l IH]; cbn; [reflexivity|].
  rewrite H, IH. reflexivity.
Qed.

Lemma filter_map_none {X Y} (f : Y -> bool) (g : X -> Y) (l : list X) :
  (forall x, f (g x) = false) -> filter f (map g l) = [].
Proof.
  intros H. induction l as [|x l IH]; cbn; [reflexivity|].
  rewrite H, IH. reflexivity.
Qed.

Lemma filter_none {X} (f : X -> bool) (l : list X) :
  (forall x, In x l -> f x = false) -> filter f l = [].
Proof.
  induction l as [|x l IH]; intros H; cbn; [reflexivity|].
  rewrite (H x (or_introl eq_refl)). apply IH. intros y Hy. apply H. right. exact Hy.
Qed.

Lemma contribution_project (p : Project) (r : Net.Response) (d : Detail) :
  In d (contribution p r) -> d_projectId d = proj_id p.
Proof.
  unfold contribution, role_details.
  destruct (Net.status r =? 200)%Z; [|intros []].
  destruct (Net.included r) as [incl|]; [|intros []].
  intros H. apply in_app_iff in H.
  destruct H as [H | H]; apply in_map_iff in H; destruct H as [x [<- _]]; reflexivity.
Qed.

Lemma contributions_projects (ps : list Project) :
  forall (replies : list Net.Response) (d : Detail),
    In d (contributions ps replies) -> In (d_projectId d) (map proj_id ps).
Proof.
  unfold contributions.
  induction ps as [|p ps IH]; intros replies d H; [contradiction H|].
  destruct replies as [|r rs]; [contradiction H|].
  cbn [combine flat_map fst snd] in H. apply in_app_iff in H.
  destruct H as [H | H].
  - left. symmetry. apply (contribution_project _ _ _ H).
  - right. apply (IH rs d H).
Qed.

Lemma principal_rows_of_contribution (p : Project) (r : Net.Response) :
  principal_rows (contribution p r) (proj_id p) = map summary_of (contribution p r).
Proof.
  unfold principal_rows, ReportFacts.users_of, ReportFacts.groups_of.
  unfold contribution, role_details.
  destruct (Net.status r =? 200)%Z; [|reflexivity].
  destruct (Net.included r) as [incl|]; [|reflexivity].
  rewrite !filter_app.
  rewrite (@filter_map_all _ _ _ (user_detail p)) by (intros x; cbn; rewrite String.eqb_refl; reflexivity).
  rewrite (@filter_map_none _ _ _ (group_detail p)) by (intros x; cbn; rewrite String.eqb_refl; reflexivity).
  rewrite (@filter_map_none _ _ _ (user_detail p)) by (intros x; cbn; rewrite String.eqb_refl; reflexivity).
  rewrite (@filter_map_all _ _ _ (group_detail p)) by (intros x; cbn; rewrite String.eqb_refl; reflexivity).
  rewrite app_nil_r. cbn [app]. rewrite map_app, !map_map. reflexivity.
Qed.

Lemma principal_rows_apart (ds1 ds2 : list Detail) (k : string) :
  ((forall d, In d ds2 -> String.eqb (d_projectId d) k = false) ->
   principal_rows (ds1 ++ ds2) k = principal_rows ds1 k)
  /\ ((forall d, In d ds1 -> String.eqb (d_projectId d) k = false) ->
      principal_rows (ds1 ++ ds2) k = principal_rows ds2 k).
Proof.
  unfold principal_rows, ReportFacts.users_of, ReportFacts.groups_of.
  split; intros H; rewrite !filter_app.
  - rewrite (@filter_none _ _ ds2), (@filter_none _ _ ds2), !app_nil_r;
      [reflexivity | |]; intros d Hd; rewrite (H d Hd); reflexivity.
  - rewrite (@filter_none _ _ ds1), (@filter_none _ _ ds1); [reflexivity | |];
      intros d Hd; rewrite (H d Hd); reflexivity.
Qed.

Lemma flat_map_same {X Y} (f g : X -> list Y) (l : list X) :
  (forall x, In x l -> f x = g x) -> flat_map f l = flat_map g l.
Proof.
  induction l as [|x l IH]; intros H; cbn; [reflexivity|].
  rewrite (H x (or_introl eq_refl)), IH; [reflexivity|].
  intros y Hy. apply H. right. exact Hy.
Qed.

Lemma collected_rows (ps : list Project) :
  forall replies : list Net.Response,
    NoDup (map proj_id ps) ->
    flat_map (principal_rows (contributions ps replies)) (map proj_id ps)
    = map summary_of (contributions ps replies).
Proof.
  induction ps as [|p ps IH]; intros replies N; [reflexivity|].
  cbn [map] in N. apply NoDup_cons_iff in N. destruct N as [Np N].
  destruct replies as [|r rs].
  - change (contributions (p :: ps) []) with (@nil Detail).
    generalize (map proj_id (p :: ps)). intros ks.
    induction ks as [|k ks IHk]; cbn; [reflexivity | exact IHk].
  - assert (C : contributions (p :: ps) (r :: rs)
                = contribution p r ++ contributions ps rs) by reflexivity.
    rewrite C. cbn [map flat_map]. rewrite map_app. f_equal.
    + rewrite (proj1 (principal_rows_apart (contribution p r) (contributions ps rs)
                        (proj_id p))).
      * apply principal_rows_of_contribution.
      * intros d Hd. apply contributions_projects in Hd.
        destruct (String.eqb (d_projectId d) (proj_id p)) eqn:E; [|reflexivity].
        apply String.eqb_eq in E. rewrite E in Hd. contradiction (Np Hd).
    + rewrite <- (IH rs N). apply flat_map_same. intros k Hk.
      apply (proj2 (principal_rows_apart (contribution p r) (contributions ps rs) k)).
      intros d Hd. rewrite (contribution_project _ _ _ Hd).
      destruct (String.eqb (proj_id p) k) eqn:E; [|reflexivity].
      apply String.eqb_eq in E. subst k. contradiction (Np Hk).
Qed.

Lemma first_seen_all (ids : list string) :
  forall seen,
    NoDup ids ->
    (forall k, In k ids -> existsb (String.eqb k) seen = false) ->
    KeyOrder.first_seen seen ids = ids.
Proof.
  induction ids as [|k ids IH]; intros seen N H; cbn; [reflexivity|].
  apply NoDup_cons_iff in N. destruct N as [Nk N].
  rewrite (H k (or_introl eq_refl)). f_equal. apply IH; [exact N|].
  intros k' Hk'. cbn. rewrite (H k' (or_intror Hk')), orb_false_r.
  destruct (String.eqb k' k) eqn:E; [|reflexivity].
  apply String.eqb_eq in E. subst k'. contradiction (Nk Hk').
Qed.

Lemma plain_project_keys (ps : list Project) :
  NoDup (map proj_id ps) ->
  (forall p, In p ps -> JsObject.is_index (proj_id p) = false) ->
  (forall p, In p ps -> String.eqb (proj_id p) "__proto__" = false) ->
  ReportFacts.project_keys ps = map proj_id ps.
Proof.
  intros N Hi Hp.
  assert (F : filter ReportFacts.not_proto (map proj_id ps) = map proj_id ps).
  { clear N Hi. induction ps as [|p ps IH]; cbn; [reflexivity|].
    unfold ReportFacts.not_proto at 1. rewrite (Hp p (or_introl eq_refl)). cbn.
    f_equal. apply IH. intros q Hq. apply Hp. right. exact Hq. }
  assert (C : ReportFacts.created_keys ps = map proj_id ps).
  { unfold ReportFacts.created_keys. rewrite F.
    apply first_seen_all; [exact N | reflexivity]. }
  unfold ReportFacts.project_keys. rewrite C.
  apply ReportOrder.key_order_plain. intros k Hk.
  apply in_map_iff in Hk. destruct Hk as [p [<- Hin]]. apply Hi. exact Hin.
Qed.

Lemma role_loop_result (server : Net.Server) (cust bearer : string)
    (ps : list Project) :
  forall (acc ds : list Detail) (w w' : World),
    role_loop server cust bearer ps acc w = Some (w', Ok ds) ->
    exists replies, ds = acc ++ contributions ps replies.
Proof.
  induction ps as [|p ps IH]; intros acc ds w w' H; cbn [role_loop] in H.
  - injection H as _ <-. exists []. symmetry. apply app_nil_r.
  - unfold bind, axios_request in H.
    destruct (server (List.length (requests w))
                (Net.GetRoleAssignments cust (proj_id p) bearer)) as [r|s];
      [|discriminate H].
    destruct (Net.status r =? 200)%Z eqn:Hs.
    + destruct (Net.included r) as [incl|] eqn:Hi; [|discriminate H].
      apply IH in H. destruct H as [replies ->].
      exists (r :: replies). unfold contributions. cbn [combine flat_map fst snd].
      unfold contribution at 2. rewrite Hs, Hi. apply eq_sym, app_assoc.
    + apply IH in H. destruct H as [replies ->].
      exists (r :: replies). unfold contributions. cbn [combine flat_map fst snd].
      unfold contribution at 2. rewrite Hs. reflexivity.
Qed.

(** X28.  The report of one run lists the details as they were collected.
    When the project ids are distinct, and none is an array index or
    [__proto__], the rows made from the details that the loop over the
    projects returned, whatever the server answered, are, read as project
    id, type, name and email, exactly those details in the order of
    collection: one row for each, the users of a project before its groups,
    project after project. *)
Theorem report_lists_the_details_as_collected
    (server : Net.Server) (cust bearer : string)
    (allProjects : list Project) (allDetails : list Detail) (w w' : World)
    (allBranches : list Net.Resource) (allApplications : list Application)
    (rows : list CreateReport.Row) :
  NoDup (map proj_id allProjects) ->
  (forall p, In p allProjects -> JsObject.is_index (proj_id p) = false) ->
  (forall p, In p allProjects -> String.eqb (proj_id p) "__proto__" = false) ->
  role_loop server cust bearer allProjects [] w = Some (w', Ok allDetails) ->
  CreateReport.csvData allProjects allDetails (Some allBranches) allApplications
  = Ok rows ->
  map summary rows = map summary_of allDetails
  /\ List.length rows = List.length allDetails.
Proof.
  intros N Hi Hp Hloop H.
  destruct (@role_loop_result _ _ _ _ _ _ _ _ Hloop) as [replies ->].
  cbn [app] in *.
  assert (E : map summary rows = map summary_of (contributions allProjects replies)).
  { rewrite (@ReportOrder.summaries _ _ _ _ _ H).
    rewrite (@plain_project_keys _ N Hi Hp). apply collected_rows. exact N. }
  split; [exact E|].
  apply (f_equal (@List.length _)) in E. rewrite !length_map in E. exact E.
Qed.

Lemma report_lists_the_details_as_collected_witness :
  map summary
    [report_row (CreateReport.Named "No Application Name") "one" "p1"
       "Individual User" "p1" "p1@x.com" [""; ""; ""; ""; ""];
     report_row (CreateReport.Named "No Application Name") "three" "p3"
       "Individual User" "p3" "p3@x.com" [""; ""; ""; ""; ""]]
  = map summary_of
      [user_detail (snapshot_project "p1" "one") (person "p1");
       user_detail (snapshot_project "p3" "three") (person "p3")].
Proof.
  apply (proj1 (@report_lists_the_details_as_collected moody_server "demo" "t"
                  [snapshot_project "p1" "one"; snapshot_project "p2" "two";
                   snapshot_project "p3" "three"]
                  [user_detail (snapshot_project "p1" "one") (person "p1");
                   user_detail (snapshot_project "p3" "three") (person "p3")]
                  (fresh_world [])
                  (sent_all
                     (map (role_request "demo" "t")
                        [snapshot_project "p1" "one"; snapshot_project "p2" "two";
                         snapshot_project "p3" "three"])
                     (fresh_world []))
                  [] []
                  [report_row (CreateReport.Named "No Application Name") "one" "p1"
                     "Individual User" "p1" "p1@x.com" [""; ""; ""; ""; ""];
                   report_row (CreateReport.Named "No Application Name") "three" "p3"
                     "Individual User" "p3" "p3@x.com" [""; ""; ""; ""; ""]]
                  ltac:(repeat constructor; cbn; intuition discriminate)
                  ltac:(intros p [<- | [<- | [<- | []]]]; reflexivity)
                  ltac:(intros p [<- | [<- | [<- | []]]]; reflexivity)
                  eq_refl eq_refl)).
Defined.
